(** * Zillow search scraper: extraction, geo utilities and exporters

    A shallow embedding of
    - [src/extractors/zillow_parser.py]  (record extraction),
    - [src/extractors/utils_geo.py]      (distance and centroid),
    - [src/outputs/exporter_csv.py] and [src/outputs/exporter_json.py],
    - the export stage of [src/main.py],
    followed by the properties of the specification that are stated about
    them.

    Python values that come out of [json.loads] are modelled by the
    inductive type [json]; Python exceptions by the error monad [result];
    dictionaries by association lists in insertion order; Python floats
    by the primitive binary64 floats, with their rounding. *)

From Stdlib Require Import String Ascii List ZArith Bool Lia.
From Stdlib Require Import DecimalString PrimFloat.
From Stdlib Require SpecFloat FloatOps FloatAxioms Uint63.
Import ListNotations.

Local Open Scope string_scope.
Local Open Scope list_scope.

(* ===================================================================== *)
(** * Python values, exceptions *)
(* ===================================================================== *)

(** The exception classes the modelled code can raise. *)
Inductive exn : Type :=
| KeyError
| TypeError
| AttributeError
| ValueError
| ZillowClientError
| RecursionError
| OverflowError.

Inductive result (A : Type) : Type :=
| Ok (a : A)
| Raise (e : exn).

Arguments Ok {A} a.
Arguments Raise {A} e.

Definition bind {A B : Type} (m : result A) (k : A -> result B) : result B :=
  match m with
  | Ok a => k a
  | Raise e => Raise e
  end.

Notation "x <- m ;; k" := (bind m (fun x => k))
  (at level 61, m at next level, right associativity).

(** [for x in xs: ys.append(f x)] where [f] may raise. *)
Fixpoint mapM {A B : Type} (f : A -> result B) (xs : list A) : result (list B) :=
  match xs with
  | [] => Ok []
  | x :: xs' => y <- f x ;; ys <- mapM f xs' ;; Ok (y :: ys)
  end.

(** A value produced by [json.loads]: [None], [bool], [int], [float],
    [str], [list] or [dict] (string keys, insertion order). *)
#[warnings="-register-all"]
Inductive json : Type :=
| JNull
| JBool (b : bool)
| JInt (z : Z)
| JFloat (f : float)
| JStr (s : string)
| JList (l : list json)
| JDict (kv : list (string * json)).

Definition dict : Type := list (string * json).

(** Python truthiness, as used by [or], [if x] and [bool(x)]. *)
Definition truthy (v : json) : bool :=
  match v with
  | JNull => false
  | JBool b => b
  | JInt z => negb (Z.eqb z 0)
  | JFloat f => negb (PrimFloat.eqb f 0%float)
  | JStr s => negb (String.eqb s EmptyString)
  | JList l => match l with [] => false | _ => true end
  | JDict kv => match kv with [] => false | _ => true end
  end.

(** [a or b] on values already computed. *)
Definition py_or (a b : json) : json := if truthy a then a else b.

(** [a or b] where evaluating an operand may raise; [b] is evaluated only
    when [a] is falsy. *)
Definition lazy_or (a b : result json) : result json :=
  x <- a ;; if truthy x then Ok x else b.

Notation "a '|or|' b" := (lazy_or a b) (at level 60, right associativity).

(** [[p for p in l if isinstance(p, str)]] *)
Fixpoint only_strings (l : list json) : list string :=
  match l with
  | [] => []
  | JStr s :: l' => s :: only_strings l'
  | _ :: l' => only_strings l'
  end.

(* --------------------------------------------------------------------- *)
(** ** Dictionaries *)

Fixpoint dict_lookup (kv : dict) (k : string) : option json :=
  match kv with
  | [] => None
  | (k', v) :: kv' => if String.eqb k' k then Some v else dict_lookup kv' k
  end.

(** [k in d] *)
Definition dict_mem (kv : dict) (k : string) : bool :=
  match dict_lookup kv k with Some _ => true | None => false end.

(** [d.get(k, default)] *)
Definition dict_get_default (kv : dict) (k : string) (d : json) : json :=
  match dict_lookup kv k with Some v => v | None => d end.

(** [d.get(k)] *)
Definition dict_get (kv : dict) (k : string) : json :=
  dict_get_default kv k JNull.

(** [d[k] = v]: an existing key keeps its position. *)
Fixpoint dict_set (kv : dict) (k : string) (v : json) : dict :=
  match kv with
  | [] => [(k, v)]
  | (k', v') :: kv' =>
      if String.eqb k' k then (k', v) :: kv' else (k', v') :: dict_set kv' k v
  end.

(** [d.setdefault(k, v)] *)
Definition dict_setdefault (kv : dict) (k : string) (v : json) : dict :=
  if dict_mem kv k then kv else dict_set kv k v.

(** [d.keys()] *)
Definition dict_keys (kv : dict) : list string := map fst kv.

(** [o.get(k)] on an arbitrary value: only a dict has the method. *)
Definition get (o : json) (k : string) : result json :=
  match o with
  | JDict kv => Ok (dict_get kv k)
  | _ => Raise AttributeError
  end.

(** [o.get(k, default)] *)
Definition get_default (o : json) (k : string) (d : json) : result json :=
  match o with
  | JDict kv => Ok (dict_get_default kv k d)
  | _ => Raise AttributeError
  end.

(** [o[k]] with a string key [k]. *)
Definition getitem (o : json) (k : string) : result json :=
  match o with
  | JDict kv =>
      match dict_lookup kv k with
      | Some v => Ok v
      | None => Raise KeyError
      end
  | _ => Raise TypeError
  end.

(** [try: m except (KeyError, TypeError): handler] *)
Definition catch_key_type {A : Type} (m : result A) (handler : A) : result A :=
  match m with
  | Raise KeyError | Raise TypeError => Ok handler
  | other => other
  end.

(* --------------------------------------------------------------------- *)
(** ** Strings *)

Definition comma : ascii := ascii_of_nat 44.
Definition space : ascii := ascii_of_nat 32.
Definition dash : ascii := ascii_of_nat 45.
Definition dquote : ascii := ascii_of_nat 34.
Definition cr : ascii := ascii_of_nat 13.
Definition lf : ascii := ascii_of_nat 10.
Definition lbrace : ascii := ascii_of_nat 123.
Definition rbrace : ascii := ascii_of_nat 125.

(** [sep.join(parts)] on strings. *)
Definition join (sep : string) (parts : list string) : string :=
  String.concat sep parts.

(** [needle in haystack] for two strings. *)
Fixpoint is_substring (needle haystack : string) : bool :=
  if String.prefix needle haystack then true
  else match haystack with
       | EmptyString => false
       | String _ rest => is_substring needle rest
       end.

(** [s.replace(c, "")] for a one-character [c]. *)
Fixpoint remove_char (c : ascii) (s : string) : string :=
  match s with
  | EmptyString => EmptyString
  | String a s' =>
      if Ascii.eqb a c then remove_char c s' else String a (remove_char c s')
  end.

(** [s.replace(c, d)] for one-character [c] and [d]. *)
Fixpoint replace_char (c d : ascii) (s : string) : string :=
  match s with
  | EmptyString => EmptyString
  | String a s' =>
      String (if Ascii.eqb a c then d else a) (replace_char c d s')
  end.

(** Decimal text of a Python [int]. *)
Definition str_int (z : Z) : string := NilZero.string_of_int (Z.to_int z).

(** [x in xs] for a list (or set) of strings. *)
Definition mem (x : string) (xs : list string) : bool :=
  existsb (String.eqb x) xs.

(* ===================================================================== *)
(** * Geo utilities ([utils_geo.py]) *)
(* ===================================================================== *)

(** Python floats are IEEE 754 binary64 numbers: they are Rocq's primitive
    floats, whose operations round to nearest, ties to even. *)
Module Geo.

Local Open Scope float_scope.

(** What Python's [math] module and [float.__pow__] take from the C
    library of the platform.  [None] stands for the [ValueError] ("math
    domain error") of [math.sin], [math.cos] and [math.atan2]; [c_pow]
    is the C call [pow(iv, 2.0)] followed by the check of [errno] (an
    [OverflowError] when the result is out of range), for a finite [iv]
    that is positive and not 1. *)
Record libm : Type := {
  math_sin : float -> option float;
  math_cos : float -> option float;
  math_atan2 : float -> float -> option float;
  c_pow : float -> result float
}.

Definition domain (r : option float) : result float :=
  match r with
  | Some x => Ok x
  | None => Raise ValueError
  end.

(** [math.pi] and the constant [degToRad] of [math.radians]. *)
Definition pi : float := 0x1.921fb54442d18p+1.
Definition degToRad : float := pi / 180.

(** [math.radians] *)
Definition radians (x : float) : float := x * degToRad.

(** [math.sqrt]: the C function, and a [ValueError] when it returns a NaN
    for an argument that is not one. *)
Definition math_sqrt (x : float) : result float :=
  let r := PrimFloat.sqrt x in
  if is_nan r && negb (is_nan x) then Raise ValueError else Ok r.

(** [iv ** 2] on a float: the special cases the interpreter settles
    itself, a negative [iv] replaced by its opposite, then the C library. *)
Definition float_pow (m : libm) (iv : float) : result float :=
  if is_nan iv then Ok iv
  else if is_infinity iv then Ok (abs iv)
  else if iv =? 0 then Ok 0
  else
    let iv := if iv <? 0 then - iv else iv in
    if iv =? 1 then Ok 1
    else c_pow m iv.

(** [haversine_distance_km] *)
Definition haversine_distance_km
    (m : libm) (lat1 lon1 lat2 lon2 : float) : result float :=
  let radius_km := 6371 in
  let phi1 := radians lat1 in
  let phi2 := radians lat2 in
  let d_phi := radians (lat2 - lat1) in
  let d_lambda := radians (lon2 - lon1) in
  sin_phi <- domain (math_sin m (d_phi / 2)) ;;
  sin_phi_2 <- float_pow m sin_phi ;;
  cos_phi1 <- domain (math_cos m phi1) ;;
  cos_phi2 <- domain (math_cos m phi2) ;;
  sin_lambda <- domain (math_sin m (d_lambda / 2)) ;;
  sin_lambda_2 <- float_pow m sin_lambda ;;
  let a := sin_phi_2 + cos_phi1 * cos_phi2 * sin_lambda_2 in
  sqrt_a <- math_sqrt a ;;
  sqrt_1_a <- math_sqrt (1 - a) ;;
  angle <- domain (math_atan2 m sqrt_a sqrt_1_a) ;;
  let c := 2 * angle in
  Ok (radius_km * c).

(** The float of a count: the conversion of a Python [int] that a
    division by it performs (a sequence has fewer than 2^63 elements). *)
Definition float_of_count (count : nat) : float :=
  of_uint63 (Uint63.of_Z (Z.of_nat count)).

(** The accumulation loop of [compute_centroid]: the values of
    [total_lat], [total_lon] and [count] when the loop ends.  The
    conversion [float(lat)] is the identity on floats. *)
Fixpoint centroid_loop
    (total_lat total_lon : float) (count : nat) (coords : list (float * float))
  : float * float * nat :=
  match coords with
  | [] => (total_lat, total_lon, count)
  | (lat, lon) :: rest =>
      centroid_loop (total_lat + lat) (total_lon + lon) (count + 1) rest
  end.

(** The specification calls [EmptyInputError] the [ValueError] that
    [compute_centroid] raises when it is given no coordinate. *)
Definition EmptyInputError : exn := ValueError.

(** [compute_centroid] *)
Definition compute_centroid (coords : list (float * float))
  : result (float * float) :=
  let '(total_lat, total_lon, count) := centroid_loop 0 0 0 coords in
  if Nat.eqb count 0 then Raise ValueError
  else Ok (total_lat / float_of_count count, total_lon / float_of_count count).

(** The binary64 sum of a list, accumulated from the left, from [0.0]. *)
Definition sum (xs : list float) : float := fold_left PrimFloat.add xs 0.

End Geo.

(* ===================================================================== *)
(** * Record extractor ([zillow_parser.py]) *)
(* ===================================================================== *)

(** The [PropertyListing] dataclass.  Every attribute holds whatever the
    raw object held, so each one is a [json] value. *)
Record PropertyListing : Type := mkListing {
  zpid : json;
  providerListingId : json;
  statusType : json;
  statusText : json;
  imageSource : json;
  detailUrl : json;
  address : json;
  addressStreet : json;
  addressCity : json;
  addressState : json;
  addressZipcode : json;
  latitude : json;
  longitude : json;
  buildingName : json;
  contactPhoneNumber : json;
  minPrice : json;
  maxPrice : json;
  unitTypes : json;
  totalUnits : json;
  photoUrls : json;
  isFeaturedListing : json;
  badgeText : json
}.

(** [dataclasses.asdict]: the attributes in declaration order. *)
Definition asdict (l : PropertyListing) : dict :=
  [ ("zpid", zpid l);
    ("providerListingId", providerListingId l);
    ("statusType", statusType l);
    ("statusText", statusText l);
    ("imageSource", imageSource l);
    ("detailUrl", detailUrl l);
    ("address", address l);
    ("addressStreet", addressStreet l);
    ("addressCity", addressCity l);
    ("addressState", addressState l);
    ("addressZipcode", addressZipcode l);
    ("latitude", latitude l);
    ("longitude", longitude l);
    ("buildingName", buildingName l);
    ("contactPhoneNumber", contactPhoneNumber l);
    ("minPrice", minPrice l);
    ("maxPrice", maxPrice l);
    ("unitTypes", unitTypes l);
    ("totalUnits", totalUnits l);
    ("photoUrls", photoUrls l);
    ("isFeaturedListing", isFeaturedListing l);
    ("badgeText", badgeText l) ].

(** [PropertyListing.to_dict] *)
Definition to_dict (l : PropertyListing) : dict :=
  let data := asdict l in
  dict_set data "photoUrls" (py_or (photoUrls l) (JList [])).

(** The five attribute assignments that follow the constructor call in
    [parse_search_results]. *)
Definition set_address_fields (l : PropertyListing) (info : dict) : PropertyListing :=
  {| zpid := zpid l;
     providerListingId := providerListingId l;
     statusType := statusType l;
     statusText := statusText l;
     imageSource := imageSource l;
     detailUrl := detailUrl l;
     address := dict_get info "address";
     addressStreet := dict_get info "addressStreet";
     addressCity := dict_get info "addressCity";
     addressState := dict_get info "addressState";
     addressZipcode := dict_get info "addressZipcode";
     latitude := latitude l;
     longitude := longitude l;
     buildingName := buildingName l;
     contactPhoneNumber := contactPhoneNumber l;
     minPrice := minPrice l;
     maxPrice := maxPrice l;
     unitTypes := unitTypes l;
     totalUnits := totalUnits l;
     photoUrls := photoUrls l;
     isFeaturedListing := isFeaturedListing l;
     badgeText := badgeText l |}.

(** [sep.join(parts)] on Python values: a part that is not a [str] raises
    [TypeError]. *)
Fixpoint all_strings (l : list json) : option (list string) :=
  match l with
  | [] => Some []
  | JStr s :: l' =>
      match all_strings l' with
      | Some ss => Some (s :: ss)
      | None => None
      end
  | _ :: _ => None
  end.

Definition py_join (sep : string) (parts : list json) : result string :=
  match all_strings parts with
  | Some ss => Ok (join sep ss)
  | None => Raise TypeError
  end.

(** [ZillowParser._format_address] *)
Definition _format_address (raw : json) : result dict :=
  a <- get raw "address" ;;
  let addr := py_or a (JDict []) in
  street <- (get addr "streetAddress" |or| get raw "addressStreet") ;;
  city <- (get addr "city" |or| get raw "addressCity") ;;
  state <- (get addr "state" |or| get raw "addressState") ;;
  zipcode <- (get addr "zipcode" |or| get raw "addressZipcode") ;;
  let address_parts := filter truthy [street; city; state; zipcode] in
  full_address <-
    match address_parts with
    | [] => Ok JNull
    | _ => s <- py_join ", " address_parts ;; Ok (JStr s)
    end ;;
  Ok [ ("address", full_address);
       ("addressStreet", street);
       ("addressCity", city);
       ("addressState", state);
       ("addressZipcode", zipcode) ].

(** [raw.get("hdpData", {}).get("homeInfo", {})] *)
Definition home_info (raw : json) : result json :=
  h <- get_default raw "hdpData" (JDict []) ;;
  get_default h "homeInfo" (JDict []).

(** [k in o] for a string [k]: key membership for a dict, substring test
    for a str, element test for a list. *)
Definition contains (o : json) (k : string) : result bool :=
  match o with
  | JDict kv => Ok (dict_mem kv k)
  | JStr s => Ok (is_substring k s)
  | JList l => Ok (mem k (only_strings l))
  | _ => Raise TypeError
  end.

(** The loop over [hdp["photos"]]: each entry's [url] is appended when it
    is a string. *)
Fixpoint photo_object_urls (photos : list string) (objs : list json)
  : result (list string) :=
  match objs with
  | [] => Ok photos
  | p :: objs' =>
      url <- get p "url" ;;
      match url with
      | JStr u => photo_object_urls (photos ++ [u]) objs'
      | _ => photo_object_urls photos objs'
      end
  end.

(** The loop [for x in xs: if x not in seen: seen.add(x); out.append(x)]
    that closes [_extract_photos] and that [_collect_fieldnames] runs on
    the keys of each record: the values of [seen] and of the output list
    when it ends. *)
Fixpoint first_seen_loop (seen out : list string) (xs : list string)
  : list string * list string :=
  match xs with
  | [] => (seen, out)
  | x :: rest =>
      if negb (mem x seen)
      then first_seen_loop (x :: seen) (out ++ [x]) rest
      else first_seen_loop seen out rest
  end.

(** [ZillowParser._extract_photos] *)
Definition _extract_photos (raw : json) : result (list string) :=
  let photos := [] in
  has <- contains raw "photoUrls" ;;
  photos <-
    (if has then
       top <- getitem raw "photoUrls" ;;
       match top with
       | JList l => Ok (photos ++ only_strings l)
       | _ => Ok photos
       end
     else Ok photos) ;;
  hdp <- home_info raw ;;
  photos <-
    match hdp with
    | JDict h =>
        let photos :=
          match dict_get h "photoUrls" with
          | JList l => photos ++ only_strings l
          | _ => photos
          end in
        match dict_get h "photos" with
        | JList objs => photo_object_urls photos objs
        | _ => Ok photos
        end
    | _ => Ok photos
    end ;;
  img_src <- get raw "imgSrc" ;;
  let photos :=
    match img_src with
    | JStr s => s :: photos
    | _ => photos
    end in
  let '(seen, unique) := first_seen_loop [] [] photos in
  Ok unique.

(** [for raw in v]: a list yields its elements, a dict its keys, a str its
    characters (one-character strings); anything else is not iterable. *)
Definition iterate (v : json) : result (list json) :=
  match v with
  | JList l => Ok l
  | JDict kv => Ok (map JStr (dict_keys kv))
  | JStr s =>
      Ok (map (fun c => JStr (String c EmptyString)) (list_ascii_of_string s))
  | _ => Raise TypeError
  end.

(** [ZillowParser._iter_list_results].  The generator can only raise
    before its first [yield], so it is modelled by the list it yields;
    [KeyError] and [TypeError] end it with no element, any other exception
    reaches the caller's [for] loop. *)
Definition _iter_list_results (state : json) : result (list json) :=
  catch_key_type
    (p <- getitem state "props" ;;
     props <- getitem p "pageProps" ;;
     search_state <-
       (get props "searchPageState" |or| get props "searchState") ;;
     cat1 <- getitem search_state "cat1" ;;
     search_results <- getitem cat1 "searchResults" ;;
     list_results <- get_default search_results "listResults" (JList []) ;;
     iterate list_results)
    [].

(** The brace-balancing scan of the fallback in [_extract_json_state]:
    the value of [end_index] when the loop over [enumerate(candidate)]
    ends, [i] being the index of the first character of [candidate]. *)
Fixpoint balance_scan (candidate : string) (i : nat) (brace_count : Z) : nat :=
  match candidate with
  | EmptyString => 0
  | String ch rest =>
      if Ascii.eqb ch lbrace then balance_scan rest (S i) (brace_count + 1)
      else if Ascii.eqb ch rbrace then
        let brace_count := (brace_count - 1)%Z in
        if (brace_count =? 0)%Z then i + 1
        else balance_scan rest (S i) brace_count
      else balance_scan rest (S i) brace_count
  end.

(** An [xml.etree.ElementTree.Element]: tag, text ([None] until it is
    assigned) and children in insertion order. *)
#[warnings="-register-all"]
Inductive element : Type :=
| Element (tag : string) (text : option string) (children : list element).

Definition element_tag (e : element) : string :=
  match e with Element tag _ _ => tag end.

Definition element_text (e : element) : option string :=
  match e with Element _ text _ => text end.

Definition element_children (e : element) : list element :=
  match e with Element _ _ children => children end.

(** What an exporter hands to the call that writes the output file: the
    object given to [json.dump], the tree given to [ElementTree.write],
    or the text given to [f.write].  What the write itself does with it
    (encoding, serialising a tag) is outside the model. *)
Inductive written : Type :=
| JsonDump (obj : json)
| XmlTree (root : element)
| Text (s : string).

Definition BASE_URL : string := "https://www.zillow.com".

(* ===================================================================== *)
(** * Vocabulary of the specification *)
(* ===================================================================== *)

(** The fields of a normalized record. *)
Inductive field : Type :=
| Fzpid | FproviderListingId | FstatusType | FstatusText | FimageSource
| FdetailUrl | Faddress | FaddressStreet | FaddressCity | FaddressState
| FaddressZipcode | Flatitude | Flongitude | FbuildingName
| FcontactPhoneNumber | FminPrice | FmaxPrice | FunitTypes | FtotalUnits
| FphotoUrls | FisFeaturedListing | FbadgeText.

Definition field_name (f : field) : string :=
  match f with
  | Fzpid => "zpid"
  | FproviderListingId => "providerListingId"
  | FstatusType => "statusType"
  | FstatusText => "statusText"
  | FimageSource => "imageSource"
  | FdetailUrl => "detailUrl"
  | Faddress => "address"
  | FaddressStreet => "addressStreet"
  | FaddressCity => "addressCity"
  | FaddressState => "addressState"
  | FaddressZipcode => "addressZipcode"
  | Flatitude => "latitude"
  | Flongitude => "longitude"
  | FbuildingName => "buildingName"
  | FcontactPhoneNumber => "contactPhoneNumber"
  | FminPrice => "minPrice"
  | FmaxPrice => "maxPrice"
  | FunitTypes => "unitTypes"
  | FtotalUnits => "totalUnits"
  | FphotoUrls => "photoUrls"
  | FisFeaturedListing => "isFeaturedListing"
  | FbadgeText => "badgeText"
  end.

(** The value a record holds for a field. *)
Definition record_field (rec : dict) (f : field) : json :=
  dict_get rec (field_name f).

(** The value found at a source location of a raw object, [JNull] when
    the location is absent (a missing key, or no dict on the way). *)
Fixpoint path_get (v : json) (path : list string) : json :=
  match path with
  | [] => v
  | k :: rest =>
      match v with
      | JDict kv => path_get (dict_get kv k) rest
      | _ => JNull
      end
  end.

Definition home_info_path (k : string) : list string :=
  ["hdpData"; "homeInfo"; k].

(** The candidate source locations of each coalesced field, highest
    precedence first, as [parse_search_results] and [_format_address]
    try them.  The composite address, the photo list and the featured
    flag are not coalesced and have no entry. *)
Definition candidates (f : field) : list (list string) :=
  match f with
  | Fzpid => [["zpid"]; home_info_path "zpid"]
  | FproviderListingId =>
      [["providerListingId"]; home_info_path "providerListingId"]
  | FstatusType => [["statusType"]; home_info_path "homeStatus"]
  | FstatusText => [["statusText"]; ["statusType"]]
  | FimageSource => [["imgSrc"]]
  | FdetailUrl => [["detailUrl"]; ["detailUrlPath"]; home_info_path "detailUrl"]
  | Faddress => []
  | FaddressStreet => [["address"; "streetAddress"]; ["addressStreet"]]
  | FaddressCity => [["address"; "city"]; ["addressCity"]]
  | FaddressState => [["address"; "state"]; ["addressState"]]
  | FaddressZipcode => [["address"; "zipcode"]; ["addressZipcode"]]
  | Flatitude => [["latLong"; "latitude"]; home_info_path "latitude"]
  | Flongitude => [["latLong"; "longitude"]; home_info_path "longitude"]
  | FbuildingName =>
      [["buildingName"]; home_info_path "buildingName"; ["name"]]
  | FcontactPhoneNumber => [["contactPhoneNumber"]]
  | FminPrice => [["unformattedPrice"]; ["price"]; home_info_path "price"]
  | FmaxPrice => [["priceReduction"]; ["price"]; home_info_path "price"]
  | FunitTypes => [["unitTypes"]; ["bedsBaths"]; ["beds"]]
  | FtotalUnits => [["totalUnits"]; home_info_path "totalUnits"]
  | FphotoUrls => []
  | FisFeaturedListing => []
  | FbadgeText => [["badgeText"]; ["variableData"; "text"]]
  end.

(** Every raw location a field is read from. *)
Definition sources (f : field) : list (list string) :=
  match f with
  | Faddress =>
      candidates FaddressStreet ++ candidates FaddressCity
      ++ candidates FaddressState ++ candidates FaddressZipcode
  | FphotoUrls =>
      [["imgSrc"]; ["photoUrls"]; home_info_path "photoUrls";
       home_info_path "photos"]
  | FisFeaturedListing => [["isFeaturedListing"]]
  | other => candidates other
  end.

(** The values of a field's candidates in a raw object. *)
Definition candidate_values (raw : json) (f : field) : list json :=
  map (path_get raw) (candidates f).

Definition is_null (v : json) : bool :=
  match v with JNull => true | _ => false end.

(** The rule in the specification's words: the first candidate that is
    not null, null when there is none. *)
Fixpoint first_non_null (vals : list json) : json :=
  match vals with
  | [] => JNull
  | v :: rest => if is_null v then first_non_null rest else v
  end.

(** The rule of a chain [v1 or v2 or ... or vn]: the first truthy value,
    and the last value when none is truthy. *)
Fixpoint or_chain (vals : list json) : json :=
  match vals with
  | [] => JNull
  | [v] => v
  | v :: rest => if truthy v then v else or_chain rest
  end.

(** A computation agrees with a value when it returns it, or raises
    where the value is null. *)
Definition approx (m : result json) (x : json) : Prop :=
  match m with
  | Ok v => v = x
  | Raise _ => x = JNull
  end.

(** First occurrences of a list, in order, skipping what [seen] holds. *)
Fixpoint uniq (seen : list string) (xs : list string) : list string :=
  match xs with
  | [] => []
  | x :: rest =>
      if mem x seen then uniq seen rest else x :: uniq (x :: seen) rest
  end.

(** Position of the first occurrence of [x] in [xs] ([length xs] when
    there is none). *)
Fixpoint first_index (x : string) (xs : list string) : nat :=
  match xs with
  | [] => 0
  | y :: rest => if String.eqb y x then 0 else S (first_index x rest)
  end.

(** [out] lists the elements of [src] without repetition, in the order
    of their first occurrences in [src]. *)
Definition first_seen_order (src out : list string) : Prop :=
  NoDup out /\
  (forall x, In x out <-> In x src) /\
  (forall i j x y,
      nth_error out i = Some x -> nth_error out j = Some y -> i < j ->
      first_index x src < first_index y src).

Definition strings_of (v : json) : list string :=
  match v with
  | JList l => only_strings l
  | _ => []
  end.

(** The photo URLs a raw object provides, in merge order: the top-level
    image source, the top-level list, the home-info list, the [url] of
    each home-info photo object. *)
Definition photo_sources (raw : json) : list string :=
  strings_of (JList [path_get raw ["imgSrc"]])
  ++ strings_of (path_get raw ["photoUrls"])
  ++ strings_of (path_get raw (home_info_path "photoUrls"))
  ++ match path_get raw (home_info_path "photos") with
     | JList objs => only_strings (map (fun p => path_get p ["url"]) objs)
     | _ => []
     end.

(** ** Raw objects of the expected shape

    The nested containers of a raw object are dicts when they are present
    and truthy, the home-info photo entries are dicts, and the address
    components that resolve to a truthy value are strings. *)

Definition is_dict (v : json) : bool :=
  match v with JDict _ => true | _ => false end.

Definition falsy_or_dict (v : json) : bool := negb (truthy v) || is_dict v.

Definition falsy_or_str (v : json) : bool :=
  negb (truthy v) || match v with JStr _ => true | _ => false end.




(** The composite address in the specification's words: the components
    that are not null, joined. *)
Definition joined_non_null (components : list json) : json :=
  JStr (join ", " (only_strings (filter (fun v => negb (is_null v)) components))).

(** [s] occurs inside [t]. *)
Definition occurs_in (s t : string) : Prop :=
  exists pre post, t = (pre ++ s ++ post)%string.

(** A Python dict has each key once. *)
Definition dict_wf (d : dict) : Prop := NoDup (dict_keys d).

(** Case mapping of one ASCII character. *)
Definition lower_ascii (c : ascii) : ascii :=
  let n := nat_of_ascii c in
  if ((65 <=? n) && (n <=? 90))%nat then ascii_of_nat (n + 32) else c.

(* ===================================================================== *)
(** * What the Python runtime and the third-party libraries provide *)
(* ===================================================================== *)

(** What [json.loads] does with a text.  [JSONDecodeError] is the one
    exception the extractor catches; an integer literal longer than the
    interpreter's digit limit raises a plain [ValueError], and nesting
    deeper than the interpreter's stack a [RecursionError], which it does
    not catch. *)
Inductive loads_outcome : Type :=
| Loaded (v : json)
| JSONDecodeError
| LoadsValueError
| LoadsRecursionError.

Record runtime : Type := {
  (** [str(v)] for a float, a list or a dict: the text the interpreter
      prints (shortest round-trip float text, [repr] of nested values). *)
  str_other : json -> string;
  (** [str.lower] *)
  str_lower : string -> string;
  (** BeautifulSoup: the [.string] of the element
      [<script id="__NEXT_DATA__" type="application/json">] of the parsed
      document; [None] when there is no such element or it has no string. *)
  script_string : string -> option string;
  (** BeautifulSoup: [soup.get_text(" ", strip=True)] of the document. *)
  soup_get_text : string -> string;
  (** [re.search(r'{"props":\s*{.*"searchResults".*}', text)]: the matched
      text, [None] when there is no match. *)
  re_search : string -> option string;
  (** [json.loads] *)
  json_loads : string -> loads_outcome;
  (** [session.get(url, headers={"Accept-Language": language}, timeout=20)]
      followed by [raise_for_status()] and [.text]; [None] stands for a
      [requests.RequestException]. *)
  session_get : string -> string -> option string;
  (** [datetime.utcnow().isoformat(timespec="seconds") + "Z"] *)
  utcnow_iso : string;
  (** [datetime.utcnow().strftime("%a, %d %b %Y %H:%M:%S +0000")] *)
  utcnow_rfc822 : string
}.

(* --------------------------------------------------------------------- *)
(** ** A small runtime for concrete runs

    Stand-ins for the interpreter and the libraries, used to evaluate the
    model on concrete inputs: case mapping on ASCII letters, a document
    store of a few named pages, a table for [json.loads]. *)
Module Fixture.

Definition object_text (v : json) : string := "<object>".

Fixpoint ascii_lower (s : string) : string :=
  match s with
  | EmptyString => EmptyString
  | String c s' => String (lower_ascii c) (ascii_lower s')
  end.

(** A state whose [pageProps] is a list instead of a dict. *)
Definition list_props_state : json :=
  JDict [("props", JDict [("pageProps", JList [])])].

(** A state with two listings. *)
Definition two_listings_state : json :=
  JDict [("props", JDict [("pageProps", JDict [("searchPageState",
    JDict [("cat1", JDict [("searchResults", JDict [("listResults",
      JList [ JDict [("zpid", JInt 11); ("unitTypes", JStr "Apartment 2bd")];
              JDict [("zpid", JInt 12); ("unitTypes", JStr "Townhouse")] ])])])])])])].

Definition page_script (html : string) : option string :=
  if String.eqb html "page:list-props" then Some "state:list-props"
  else if String.eqb html "page:two-listings" then Some "state:two-listings"
  else if String.eqb html "page:long-integer" then Some "state:long-integer"
  else if String.eqb html "page:no-props" then Some "state:no-props"
  else None.

Definition page_text (html : string) : string := html.

Definition no_match (text : string) : option string := None.

Definition state_table (s : string) : loads_outcome :=
  if String.eqb s "state:list-props" then Loaded list_props_state
  else if String.eqb s "state:two-listings" then Loaded two_listings_state
  else if String.eqb s "state:long-integer" then LoadsValueError
  else if String.eqb s "state:no-props" then Loaded (JDict [("query", JStr "austin")])
  else JSONDecodeError.

Definition page_store (url language : string) : option string :=
  if String.eqb url "https://www.zillow.com/homes/for_rent/austin-tx_rb/"
  then Some "page:two-listings"
  else None.

Definition now : string := "2024-01-01T00:00:00Z".

Definition now_rfc822 : string := "Mon, 01 Jan 2024 00:00:00 +0000".

(** A raw listing with every kind of source filled in. *)
Definition rich_raw : json :=
  JDict [ ("zpid", JInt 2077);
          ("statusType", JStr "FOR_RENT");
          ("imgSrc", JStr "https://img/1.jpg");
          ("photoUrls", JList [JStr "https://img/2.jpg"; JStr "https://img/1.jpg"]);
          ("address", JDict [("streetAddress", JStr "1 Main St"); ("city", JStr "Austin")]);
          ("addressCity", JStr "Dallas");
          ("addressState", JStr "TX");
          ("latLong", JDict [("latitude", JInt 30)]);
          ("hdpData", JDict [("homeInfo",
             JDict [("zpid", JInt 9); ("homeStatus", JStr "SOLD");
                    ("longitude", JInt (-97));
                    ("photos", JList [JDict [("url", JStr "https://img/3.jpg")];
                                      JDict [("url", JStr "https://img/2.jpg")]])])]) ].

(** A raw listing whose status text is present but empty. *)
Definition empty_status_raw : json :=
  JDict [("statusText", JStr EmptyString); ("statusType", JStr "FOR_RENT")].

(** A raw listing whose street is present but empty. *)
Definition empty_street_raw : json :=
  JDict [("addressStreet", JStr EmptyString); ("addressCity", JStr "Austin")].

(** A raw listing with no key at all. *)
Definition empty_raw : json := JDict [].

Definition one_record : list dict := [[("zpid", JStr "1")]].

Definition rt : runtime :=
  {| str_other := object_text;
     str_lower := ascii_lower;
     script_string := page_script;
     soup_get_text := page_text;
     re_search := no_match;
     json_loads := state_table;
     session_get := page_store;
     utcnow_iso := now;
     utcnow_rfc822 := now_rfc822 |}.

End Fixture.

(* ===================================================================== *)
(** * Further vocabulary: braces, markup escaping, blanks, XML trees *)
(* ===================================================================== *)

(** Number of occurrences of a character. *)
Fixpoint count_char (c : ascii) (s : string) : nat :=
  match s with
  | EmptyString => 0
  | String a s' => (if Ascii.eqb a c then 1 else 0) + count_char c s'
  end.

(** Opening braces minus closing braces. *)
Definition brace_depth (s : string) : Z :=
  (Z.of_nat (count_char lbrace s) - Z.of_nat (count_char rbrace s))%Z.

(** What one character adds to the brace depth. *)
Definition brace_step (c : ascii) : Z :=
  if Ascii.eqb c lbrace then 1%Z
  else if Ascii.eqb c rbrace then (-1)%Z
  else 0%Z.

Definition amp : ascii := ascii_of_nat 38.
Definition lt_sign : ascii := ascii_of_nat 60.
Definition gt_sign : ascii := ascii_of_nat 62.
Definition apos : ascii := ascii_of_nat 39.

(** [s.replace(c, r)] for a one-character [c] and any text [r]. *)
Fixpoint replace_char_with (c : ascii) (r : string) (s : string) : string :=
  match s with
  | EmptyString => EmptyString
  | String a s' =>
      if Ascii.eqb a c then (r ++ replace_char_with c r s')%string
      else String a (replace_char_with c r s')
  end.

(** [html.escape(s)] with its default [quote=True]: five replacements in
    a row, the ampersand first. *)
Definition html_escape (s : string) : string :=
  let s := replace_char_with amp "&amp;" s in
  let s := replace_char_with lt_sign "&lt;" s in
  let s := replace_char_with gt_sign "&gt;" s in
  let s := replace_char_with dquote "&quot;" s in
  let s := replace_char_with apos "&#x27;" s in
  s.

(** The text that stands for one character in escaped text. *)
Definition escape_char (c : ascii) : string :=
  if Ascii.eqb c amp then "&amp;"
  else if Ascii.eqb c lt_sign then "&lt;"
  else if Ascii.eqb c gt_sign then "&gt;"
  else if Ascii.eqb c dquote then "&quot;"
  else if Ascii.eqb c apos then "&#x27;"
  else String c EmptyString.

(** The characters that open or close markup or an attribute value. *)
Definition is_markup (c : ascii) : bool :=
  Ascii.eqb c lt_sign || Ascii.eqb c gt_sign
  || Ascii.eqb c dquote || Ascii.eqb c apos.

Fixpoint string_forallb (p : ascii -> bool) (s : string) : bool :=
  match s with
  | EmptyString => true
  | String c s' => p c && string_forallb p s'
  end.

(** No character of [s] is markup. *)
Definition markup_free (s : string) : bool :=
  string_forallb (fun c => negb (is_markup c)) s.

(** The ASCII characters [str.strip()] removes: tab to carriage return,
    the four separators 28 to 31, and the space. *)
Definition is_blank (c : ascii) : bool :=
  let n := nat_of_ascii c in
  ((9 <=? n) && (n <=? 13) || (28 <=? n) && (n <=? 31) || (n =? 32))%nat.

Fixpoint lstrip (s : string) : string :=
  match s with
  | EmptyString => EmptyString
  | String c s' => if is_blank c then lstrip s' else s
  end.

Fixpoint string_rev (s : string) : string :=
  match s with
  | EmptyString => EmptyString
  | String c s' => (string_rev s' ++ String c EmptyString)%string
  end.

Definition rstrip (s : string) : string := string_rev (lstrip (string_rev s)).

(** [s.strip()], on a text whose outermost non-blank characters are
    ASCII (blanks outside ASCII span several bytes and are not modelled). *)
Definition strip (s : string) : string := rstrip (lstrip s).

Definition nl : string := String lf EmptyString.

(** A text between double quotes. *)
Definition quoted (s : string) : string :=
  String dquote (s ++ String dquote EmptyString)%string.

(** The column names of the HTML table. *)
Definition html_headers : list string :=
  [ "zpid"; "statusType"; "statusText"; "address"; "minPrice"; "maxPrice";
    "latitude"; "longitude"; "detailUrl" ].

(** The names of the fields of [PropertyListing], in declaration order. *)
Definition listing_fields : list string :=
  [ "zpid"; "providerListingId"; "statusType"; "statusText"; "imageSource";
    "detailUrl"; "address"; "addressStreet"; "addressCity"; "addressState";
    "addressZipcode"; "latitude"; "longitude"; "buildingName";
    "contactPhoneNumber"; "minPrice"; "maxPrice"; "unitTypes"; "totalUnits";
    "photoUrls"; "isFeaturedListing"; "badgeText" ].

(** [range(1, max_pages + 1)] *)
Definition page_range (max_pages : Z) : list Z :=
  map Z.of_nat (seq 1 (Z.to_nat max_pages)).

(** A value is a text, a list, a truth value. *)
Definition is_str (v : json) : bool :=
  match v with JStr _ => true | _ => false end.

Definition is_list (v : json) : bool :=
  match v with JList _ => true | _ => false end.

Definition is_bool (v : json) : bool :=
  match v with JBool _ => true | _ => false end.


(** The exact value of a finite float, as a multiple of [2 ^ -1074]
    (the smallest positive float): an integer. *)
Definition exact_units (x : float) : option Z :=
  match FloatOps.Prim2SF x with
  | SpecFloat.S754_zero _ => Some 0%Z
  | SpecFloat.S754_finite s m e =>
      Some (SpecFloat.cond_Zopp s (Zpos m) * 2 ^ (e + 1074))%Z
  | _ => None
  end.

Fixpoint sum_units (xs : list float) : option Z :=
  match xs with
  | [] => Some 0%Z
  | x :: rest =>
      match exact_units x, sum_units rest with
      | Some v, Some t => Some (v + t)%Z
      | _, _ => None
      end
  end.

(** [r] is the arithmetic mean of the finite floats [xs], exactly. *)
Definition is_exact_mean (xs : list float) (r : float) : bool :=
  match exact_units r, sum_units xs with
  | Some v, Some t => (v * Z.of_nat (length xs) =? t)%Z
  | _, _ => false
  end.

(** A stand-in for the C library, used to run the model: the first-order
    approximations [sin x = x], [cos x = 1] and [atan2 y x = y], and the
    rounded product for the square. *)
Definition sample_libm : Geo.libm :=
  {| Geo.math_sin := fun x => Some x;
     Geo.math_cos := fun _ => Some 1%float;
     Geo.math_atan2 := fun y _ => Some y;
     Geo.c_pow := fun iv => Ok (iv * iv)%float |}.

(** A runtime whose every request is answered with the page whose
    [pageProps] is a list. *)
Definition list_props_rt : runtime :=
  {| str_other := str_other Fixture.rt;
     str_lower := str_lower Fixture.rt;
     script_string := script_string Fixture.rt;
     soup_get_text := soup_get_text Fixture.rt;
     re_search := re_search Fixture.rt;
     json_loads := json_loads Fixture.rt;
     session_get := fun _ _ => Some "page:list-props";
     utcnow_iso := utcnow_iso Fixture.rt;
     utcnow_rfc822 := utcnow_rfc822 Fixture.rt |}.


Section Runtime.

Variable rt : runtime.

(** [str(v)] *)
Definition py_str (v : json) : string :=
  match v with
  | JNull => "None"
  | JBool true => "True"
  | JBool false => "False"
  | JInt z => str_int z
  | JStr s => s
  | other => str_other rt other
  end.

(** [ZillowParser.build_search_url] *)
Definition build_search_url
    (city listing_type : string) (page : Z) (language : string) : string :=
  let slug_city := replace_char space dash (remove_char comma (str_lower rt city)) in
  let listing_type := str_lower rt listing_type in
  let path :=
    (if mem listing_type ["for_rent"; "for-rent"; "rent"] then
       "/homes/for_rent/" ++ slug_city ++ "_rb/"
     else if mem listing_type ["for_sale"; "for-sale"; "sale"] then
       "/homes/for_sale/" ++ slug_city ++ "_rb/"
     else if mem listing_type ["sold"; "recently_sold"; "recently-sold"] then
       "/homes/recently_sold/" ++ slug_city ++ "_rb/"
     else
       "/homes/for_rent/" ++ slug_city ++ "_rb/")%string in
  let url := (BASE_URL ++ path)%string in
  if (page >? 1)%Z then (url ++ str_int page ++ "_p/")%string else url.

(** [ZillowParser.fetch_search_page] *)
Definition fetch_search_page (url language : string) : result string :=
  match session_get rt url language with
  | Some text => Ok text
  | None => Raise ZillowClientError
  end.

(** [try: return json.loads(s) except json.JSONDecodeError: ...]: the
    value to return, [None] when the handler ran and the code goes on;
    any other exception of [json.loads] leaves the function. *)
Definition try_loads (s : string) : result (option json) :=
  match json_loads rt s with
  | Loaded v => Ok (Some v)
  | JSONDecodeError => Ok None
  | LoadsValueError => Raise ValueError
  | LoadsRecursionError => Raise RecursionError
  end.

(** [ZillowParser._extract_json_state]; the result [JNull] is Python's
    [None]. *)
Definition _extract_json_state (html : string) : result json :=
  primary <-
    match script_string rt html with
    | Some s => if negb (String.eqb s EmptyString) then try_loads s else Ok None
    | None => Ok None
    end ;;
  match primary with
  | Some state => Ok state
  | None =>
      let text := soup_get_text rt html in
      fallback <-
        match re_search rt text with
        | Some candidate =>
            let end_index := balance_scan candidate 0 0 in
            if negb (Nat.eqb end_index 0)
            then try_loads (substring 0 end_index candidate)
            else Ok None
        | None => Ok None
        end ;;
      match fallback with
      | Some state => Ok state
      | None => Ok JNull
      end
  end.

(** The body of the [for raw in ...] loop of [parse_search_results]:
    the dict appended to [results] for one raw listing object. *)
Definition listing_of_raw (raw : json) : result dict :=
  ll <- get raw "latLong" ;;
  let lat_long := py_or ll (JDict []) in
  hdp <- home_info raw ;;
  address_info <- _format_address raw ;;
  v_zpid <-
    (get raw "zpid" |or| get hdp "zpid" |or| Ok (JStr EmptyString)) ;;
  v_provider <-
    (get raw "providerListingId" |or| get hdp "providerListingId") ;;
  v_status_type <- (get raw "statusType" |or| get hdp "homeStatus") ;;
  v_status_text <- (get raw "statusText" |or| get raw "statusType") ;;
  v_image <- get raw "imgSrc" ;;
  v_detail <-
    (get raw "detailUrl" |or| get raw "detailUrlPath" |or| get hdp "detailUrl") ;;
  v_lat <- (get lat_long "latitude" |or| get hdp "latitude") ;;
  v_lon <- (get lat_long "longitude" |or| get hdp "longitude") ;;
  v_building <-
    (get raw "buildingName" |or| get hdp "buildingName" |or| get raw "name") ;;
  v_phone <- get raw "contactPhoneNumber" ;;
  v_min <-
    (get raw "unformattedPrice" |or| get raw "price" |or| get hdp "price") ;;
  v_max <-
    (get raw "priceReduction" |or| get raw "price" |or| get hdp "price") ;;
  v_units <-
    (get raw "unitTypes" |or| get raw "bedsBaths" |or| get raw "beds") ;;
  v_total <- (get raw "totalUnits" |or| get hdp "totalUnits") ;;
  v_photos <- _extract_photos raw ;;
  v_featured <- get raw "isFeaturedListing" ;;
  v_badge <-
    (get raw "badgeText"
     |or| (vd <- get raw "variableData" ;; get (py_or vd (JDict [])) "text")) ;;
  let listing :=
    {| zpid := JStr (py_str v_zpid);
       providerListingId := v_provider;
       statusType := v_status_type;
       statusText := v_status_text;
       imageSource := v_image;
       detailUrl := v_detail;
       address := JNull;
       addressStreet := JNull;
       addressCity := JNull;
       addressState := JNull;
       addressZipcode := JNull;
       latitude := v_lat;
       longitude := v_lon;
       buildingName := v_building;
       contactPhoneNumber := v_phone;
       minPrice := v_min;
       maxPrice := v_max;
       unitTypes := v_units;
       totalUnits := v_total;
       photoUrls := JList (map JStr v_photos);
       isFeaturedListing := JBool (truthy v_featured);
       badgeText := v_badge |} in
  let listing := set_address_fields listing address_info in
  Ok (to_dict listing).

(** [ZillowParser.parse_search_results] *)
Definition parse_search_results (html : string) : result (list dict) :=
  state <- _extract_json_state html ;;
  match state with
  | JNull => Ok []
  | _ =>
      raws <- _iter_list_results state ;;
      mapM listing_of_raw raws
  end.

(** The filtering loop of [fetch_city_listings]; [normalized] is the set
    of lowercased home types, [filtered] the list built so far. *)
Fixpoint home_type_loop
    (normalized : list string) (filtered records : list dict) : list dict :=
  match records with
  | [] => filtered
  | r :: rest =>
      let unit_types :=
        str_lower rt (py_str (py_or (dict_get r "unitTypes") (JStr EmptyString))) in
      if existsb (fun ht => is_substring ht unit_types) normalized
      then home_type_loop normalized (filtered ++ [r]) rest
      else home_type_loop normalized filtered rest
  end.

(** [ZillowParser.fetch_city_listings]; [home_types] is [None] or a
    list of strings. *)
Definition fetch_city_listings
    (city listing_type : string) (home_types : option (list string))
    (page : Z) (language : string) : result (list dict) :=
  let url := build_search_url city listing_type page language in
  html <- fetch_search_page url language ;;
  records <- parse_search_results html ;;
  match records with
  | [] => Ok []
  | _ :: _ =>
      match home_types with
      | Some ((_ :: _) as hts) =>
          let normalized := nodup string_dec (map (str_lower rt) hts) in
          Ok (home_type_loop normalized [] records)
      | _ => Ok records
      end
  end.

(* =================================================================== *)
(** ** CSV exporter ([exporter_csv.py]) *)

(** The outer loop of [_collect_fieldnames]. *)
Fixpoint collect_loop (seen fieldnames : list string) (records : list dict)
  : list string :=
  match records with
  | [] => fieldnames
  | rec :: rest =>
      let '(seen', fieldnames') :=
        first_seen_loop seen fieldnames (dict_keys rec) in
      collect_loop seen' fieldnames' rest
  end.

(** [_collect_fieldnames] *)
Definition _collect_fieldnames (records : list dict) : list string :=
  collect_loop [] [] records.

(** [("" if v is None else str(v))] *)
Definition str_or_empty (v : json) : string :=
  match v with
  | JNull => EmptyString
  | _ => py_str v
  end.

(** The value stored in [flat[key]] for one item of a record. *)
Definition flat_value (value : json) : json :=
  match value with
  | JList l => JStr (join "|" (map str_or_empty l))
  | JNull => JStr EmptyString
  | other => other
  end.

(** The dict [flat] built from a record by the inner loop of
    [export_to_csv]. *)
Fixpoint flatten_loop (flat : dict) (items : dict) : dict :=
  match items with
  | [] => flat
  | (key, value) :: rest => flatten_loop (dict_set flat key (flat_value value)) rest
  end.

Definition flatten (rec : dict) : dict := flatten_loop [] rec.

(** *** The [csv] module, excel dialect, [QUOTE_MINIMAL] *)

(** A field is quoted when it holds the delimiter, the quote character
    or a character of the line terminator. *)
Definition csv_special (c : ascii) : bool :=
  Ascii.eqb c comma || Ascii.eqb c dquote || Ascii.eqb c cr || Ascii.eqb c lf.

Fixpoint csv_needs_quote (s : string) : bool :=
  match s with
  | EmptyString => false
  | String c s' => csv_special c || csv_needs_quote s'
  end.

(** Quote characters are doubled inside a quoted field. *)
Fixpoint csv_double_quotes (s : string) : string :=
  match s with
  | EmptyString => EmptyString
  | String c s' =>
      if Ascii.eqb c dquote
      then String dquote (String dquote (csv_double_quotes s'))
      else String c (csv_double_quotes s')
  end.

Definition csv_quoted (s : string) : string :=
  String dquote (csv_double_quotes s ++ String dquote EmptyString)%string.

Definition csv_field (s : string) : string :=
  if csv_needs_quote s then csv_quoted s else s.

(** The text of a field as the writer sees it: [None] is empty, a string
    is itself, anything else goes through [str]. *)
Definition csv_cell (v : json) : string :=
  match v with
  | JNull => EmptyString
  | JStr s => s
  | other => py_str other
  end.

Definition crlf : string := String cr (String lf EmptyString).

(** The line written for fields given as texts, terminator included.
    A record made of one empty field is written as a pair of quotes. *)
Definition csv_line (cells : list string) : string :=
  let line := join (String comma EmptyString) (map csv_field cells) in
  (match cells, line with
   | _ :: _, EmptyString => csv_quoted EmptyString
   | _, _ => line
   end ++ crlf)%string.

(** [csv.writer.writerow] *)
Definition csv_writerow (row : list json) : string :=
  csv_line (map csv_cell row).

(** [csv.DictWriter.writerow] with [extrasaction="raise"] and
    [restval=""]: the cells handed to the writer. *)
Definition dictwriter_row (fieldnames : list string) (rowdict : dict)
  : result (list json) :=
  if forallb (fun k => mem k fieldnames) (dict_keys rowdict)
  then Ok (map (fun key => dict_get_default rowdict key (JStr EmptyString)) fieldnames)
  else Raise ValueError.

Definition dictwriter_writerow (fieldnames : list string) (rowdict : dict)
  : result string :=
  row <- dictwriter_row fieldnames rowdict ;;
  Ok (csv_writerow row).

(** [csv.DictWriter.writeheader]: the row [dict(zip(fieldnames, fieldnames))]. *)
Definition dictwriter_writeheader (fieldnames : list string) : result string :=
  dictwriter_writerow fieldnames (map (fun k => (k, JStr k)) fieldnames).

(** [export_to_csv]: the text handed to the file opened at [output_path]. *)
Definition export_to_csv (records : list dict) : result string :=
  let records_list := records in
  match records_list with
  | [] => Ok EmptyString
  | _ :: _ =>
      let fieldnames := _collect_fieldnames records_list in
      header <- dictwriter_writeheader fieldnames ;;
      lines <-
        mapM (fun rec => dictwriter_writerow fieldnames (flatten rec))
             records_list ;;
      Ok (header ++ String.concat EmptyString lines)%string
  end.

(* =================================================================== *)
(** ** JSON exporter ([exporter_json.py]) and the export stage of [run] *)

(** [_serialize_for_json] *)
Fixpoint _serialize_for_json (records : list dict) : list json :=
  match records with
  | [] => []
  | rec :: rest => JDict rec :: _serialize_for_json rest
  end.

(** [_export_json]: the object handed to [json.dump]. *)
Definition _export_json (records : list dict) (metadata : dict) : json :=
  JDict [ ("metadata", JDict metadata);
          ("results", JList (_serialize_for_json records)) ].

(* =================================================================== *)
(** ** XML, RSS and HTML serialisers ([exporter_json.py]) *)

(** The [metadata] element of [_export_xml]: one child per key, whose
    text is [str(value)]. *)
Definition xml_metadata (metadata : dict) : element :=
  Element "metadata" None
    (map (fun kv => Element (fst kv) (Some (py_str (snd kv))) []) metadata).

(** The child of a [listing] element for one item of a record: a list
    value gives one [item] child per element and no text, any other value
    gives a text. *)
Definition xml_field (kv : string * json) : element :=
  match snd kv with
  | JList items =>
      Element (fst kv) None
        (map (fun item => Element "item" (Some (str_or_empty item)) []) items)
  | value => Element (fst kv) (Some (str_or_empty value)) []
  end.

Definition xml_listing (rec : dict) : element :=
  Element "listing" None (map xml_field rec).

(** The tree [_export_xml] builds and hands to [ElementTree.write]. *)
Definition _export_xml_tree (records : list dict) (metadata : dict) : element :=
  Element "zillowListings" None
    [ xml_metadata metadata;
      Element "results" None (map xml_listing records) ].

(** The five texts [_export_rss] interpolates in the item of a record. *)
Definition rss_detail_url (rec : dict) : string :=
  html_escape (py_str (py_or (dict_get rec "detailUrl") (JStr EmptyString))).

Definition rss_status_text (rec : dict) : string :=
  html_escape
    (py_str (py_or (py_or (dict_get rec "statusText") (dict_get rec "statusType"))
                   (JStr "Listing"))).

Definition rss_address (rec : dict) : string :=
  html_escape (py_str (py_or (dict_get rec "address") (JStr EmptyString))).

Definition rss_guid (rec : dict) : string :=
  html_escape
    (py_str (py_or (py_or (dict_get rec "zpid") (JStr (rss_detail_url rec)))
                   (JStr EmptyString))).

Definition rss_price (rec : dict) : string :=
  html_escape (py_str (py_or (dict_get rec "minPrice") (JStr EmptyString))).

(** The f-string [item] of [_export_rss], before [strip()]. *)
Definition rss_item_template (now_rfc822 : string) (rec : dict) : string :=
  (nl ++ "        <item>" ++ nl
   ++ "          <title>" ++ rss_status_text rec ++ " - " ++ rss_address rec
   ++ "</title>" ++ nl
   ++ "          <link>" ++ rss_detail_url rec ++ "</link>" ++ nl
   ++ "          <guid isPermaLink=" ++ quoted "false" ++ ">" ++ rss_guid rec
   ++ "</guid>" ++ nl
   ++ "          <pubDate>" ++ now_rfc822 ++ "</pubDate>" ++ nl
   ++ "          <description><![CDATA[" ++ nl
   ++ "            Status: " ++ rss_status_text rec ++ "<br/>" ++ nl
   ++ "            Address: " ++ rss_address rec ++ "<br/>" ++ nl
   ++ "            Price: " ++ rss_price rec ++ nl
   ++ "          ]]></description>" ++ nl
   ++ "        </item>" ++ nl
   ++ "        ")%string.

(** The fragment appended to [items_fragments] for a record. *)
Definition rss_item (now_rfc822 : string) (rec : dict) : string :=
  strip (rss_item_template now_rfc822 rec).

(** The channel title of the feed. *)
Definition rss_title (metadata : dict) : string :=
  ("Zillow Listings Export ("
   ++ py_str (dict_get_default metadata "recordCount" (JInt 0))
   ++ " results)")%string.

(** The text [rss] of [_export_rss], [now_rfc822] being the formatted
    current time. *)
Definition _export_rss_text
    (now_rfc822 : string) (records : list dict) (metadata : dict) : string :=
  let title := rss_title metadata in
  let description := "Zillow search results export." in
  let items_fragments := map (rss_item now_rfc822) records in
  ("<?xml version=" ++ quoted "1.0" ++ " encoding=" ++ quoted "UTF-8" ++ "?>" ++ nl
   ++ "<rss version=" ++ quoted "2.0" ++ ">" ++ nl
   ++ "  <channel>" ++ nl
   ++ "    <title>" ++ html_escape title ++ "</title>" ++ nl
   ++ "    <description>" ++ html_escape description ++ "</description>" ++ nl
   ++ "    <link>https://www.zillow.com</link>" ++ nl
   ++ "    <lastBuildDate>" ++ now_rfc822 ++ "</lastBuildDate>" ++ nl
   ++ "    " ++ String.concat EmptyString items_fragments ++ nl
   ++ "  </channel>" ++ nl
   ++ "</rss>" ++ nl)%string.

(** The cell of [_export_html] for column [col] of a record. *)
Definition html_cell (rec : dict) (col : string) : string :=
  let value := dict_get rec col in
  if String.eqb col "detailUrl" && truthy value then
    ("<td><a href=" ++ quoted (html_escape (py_str value)) ++ ">Link</a></td>")%string
  else
    ("<td>" ++ html_escape (str_or_empty value) ++ "</td>")%string.

(** The cells and the table row of a record. *)
Definition html_cells (rec : dict) : list string :=
  map (html_cell rec) html_headers.

Definition html_row (rec : dict) : string :=
  ("<tr>" ++ String.concat EmptyString (html_cells rec) ++ "</tr>")%string.

(** [thead_cells], [rows_html] and [subtitle] of [_export_html]. *)
Definition html_thead_cells : string :=
  String.concat EmptyString
    (map (fun col => "<th>" ++ html_escape col ++ "</th>")%string html_headers).

Definition html_rows (records : list dict) : list string :=
  map html_row records.

Definition html_subtitle (records : list dict) (metadata : dict) : string :=
  (py_str (dict_get_default metadata "recordCount"
             (JInt (Z.of_nat (length records))))
   ++ " listing(s)")%string.

(** The text [html_doc] of [_export_html]. *)
Definition _export_html_text (records : list dict) (metadata : dict) : string :=
  let records_list := records in
  let thead_cells := html_thead_cells in
  let rows_html := html_rows records_list in
  let title := "Zillow Listings Export" in
  let subtitle := html_subtitle records_list metadata in
  ("<!DOCTYPE html>" ++ nl
   ++ "<html lang=" ++ quoted "en" ++ ">" ++ nl
   ++ "<head>" ++ nl
   ++ "  <meta charset=" ++ quoted "utf-8" ++ " />" ++ nl
   ++ "  <title>" ++ (html_escape title) ++ "</title>" ++ nl
   ++ "  <meta name=" ++ quoted "viewport" ++ " content=" ++ quoted "width=device-width, initial-scale=1" ++ " />" ++ nl
   ++ "  <style>" ++ nl
   ++ "    body {" ++ nl
   ++ "      font-family: system-ui, -apple-system, BlinkMacSystemFont, " ++ quoted "Segoe UI" ++ ", sans-serif;" ++ nl
   ++ "      margin: 1.5rem;" ++ nl
   ++ "      color: #222;" ++ nl
   ++ "    }" ++ nl
   ++ "    h1 {" ++ nl
   ++ "      font-size: 1.7rem;" ++ nl
   ++ "      margin-bottom: 0.25rem;" ++ nl
   ++ "    }" ++ nl
   ++ "    h2 {" ++ nl
   ++ "      font-size: 1rem;" ++ nl
   ++ "      font-weight: 400;" ++ nl
   ++ "      color: #555;" ++ nl
   ++ "      margin-top: 0;" ++ nl
   ++ "    }" ++ nl
   ++ "    table {" ++ nl
   ++ "      border-collapse: collapse;" ++ nl
   ++ "      width: 100%;" ++ nl
   ++ "      margin-top: 1rem;" ++ nl
   ++ "      font-size: 0.9rem;" ++ nl
   ++ "    }" ++ nl
   ++ "    th, td {" ++ nl
   ++ "      border: 1px solid #ddd;" ++ nl
   ++ "      padding: 0.45rem 0.6rem;" ++ nl
   ++ "      text-align: left;" ++ nl
   ++ "    }" ++ nl
   ++ "    th {" ++ nl
   ++ "      background-color: #f5f5f5;" ++ nl
   ++ "      font-weight: 600;" ++ nl
   ++ "    }" ++ nl
   ++ "    tr:nth-child(even) td {" ++ nl
   ++ "      background-color: #fafafa;" ++ nl
   ++ "    }" ++ nl
   ++ "    a {" ++ nl
   ++ "      color: #0066cc;" ++ nl
   ++ "      text-decoration: none;" ++ nl
   ++ "    }" ++ nl
   ++ "    a:hover {" ++ nl
   ++ "      text-decoration: underline;" ++ nl
   ++ "    }" ++ nl
   ++ "  </style>" ++ nl
   ++ "</head>" ++ nl
   ++ "<body>" ++ nl
   ++ "  <h1>" ++ (html_escape title) ++ "</h1>" ++ nl
   ++ "  <h2>" ++ (html_escape subtitle) ++ "</h2>" ++ nl
   ++ "  <table>" ++ nl
   ++ "    <thead>" ++ nl
   ++ "      <tr>" ++ thead_cells ++ "</tr>" ++ nl
   ++ "    </thead>" ++ nl
   ++ "    <tbody>" ++ nl
   ++ "      " ++ (String.concat EmptyString rows_html) ++ nl
   ++ "    </tbody>" ++ nl
   ++ "  </table>" ++ nl
   ++ "</body>" ++ nl
   ++ "</html>" ++ nl)%string.

(** [_export_xml], [_export_rss] and [_export_html]: what each one hands
    to the call that writes the file. *)
Definition _export_xml (records : list dict) (metadata : dict) : written :=
  XmlTree (_export_xml_tree records metadata).

Definition _export_rss (records : list dict) (metadata : dict) : written :=
  Text (_export_rss_text (utcnow_rfc822 rt) records metadata).

Definition _export_html (records : list dict) (metadata : dict) : written :=
  Text (_export_html_text records metadata).

(* =================================================================== *)
(** ** Dispatch on the format ([exporter_json.py], [main.py]) *)

(** [export_records]; [metadata] is [None] or a dict. *)
Definition export_records
    (records : list dict) (fmt : string) (metadata : option dict)
  : result written :=
  let fmt := str_lower rt fmt in
  let metadata := match metadata with Some ((_ :: _) as m) => m | _ => [] end in
  let metadata := dict_setdefault metadata "generatedAt" (JStr (utcnow_iso rt)) in
  if String.eqb fmt "json" then Ok (JsonDump (_export_json records metadata))
  else if String.eqb fmt "xml" then Ok (_export_xml records metadata)
  else if String.eqb fmt "rss" then Ok (_export_rss records metadata)
  else if String.eqb fmt "html" then Ok (_export_html records metadata)
  else Raise ValueError.

(** The [metadata] dict built by [run]. *)
Definition run_metadata
    (cities listing_types : list string) (all_records : list dict) : dict :=
  [ ("generatedAt", JStr (utcnow_iso rt));
    ("cityCount", JInt (Z.of_nat (length cities)));
    ("listingTypes", JList (map JStr listing_types));
    ("recordCount", JInt (Z.of_nat (length all_records))) ].

(** The export stage of [run] (from the construction of [metadata] to
    the call of an exporter), reached only with a non-empty
    [all_records]. *)
Definition run_export
    (cities listing_types : list string) (output_format : string)
    (all_records : list dict) : result written :=
  let metadata := run_metadata cities listing_types all_records in
  if String.eqb output_format "csv" then
    text <- export_to_csv all_records ;; Ok (Text text)
  else
    export_records all_records output_format (Some metadata).

(* =================================================================== *)
(** ** The fetch loop of [run] ([main.py]) *)

(** One turn of the innermost loop: the records the query adds to
    [all_records]; the handler turns a [ZillowClientError] into no
    record, any other exception goes on. *)
Definition query_records
    (city listing_type : string) (home_types : option (list string))
    (page : Z) (language : string) : result (list dict) :=
  match fetch_city_listings city listing_type home_types page language with
  | Raise ZillowClientError => Ok []
  | other => other
  end.

(** [for page in range(1, max_pages + 1)] *)
Fixpoint page_loop
    (all_records : list dict) (city listing_type : string)
    (home_types : option (list string)) (language : string) (pages : list Z)
  : result (list dict) :=
  match pages with
  | [] => Ok all_records
  | page :: rest =>
      records <- query_records city listing_type home_types page language ;;
      page_loop (all_records ++ records) city listing_type home_types language rest
  end.

(** [for listing_type in listing_types] *)
Fixpoint listing_type_loop
    (all_records : list dict) (city : string) (listing_types : list string)
    (home_types : option (list string)) (max_pages : Z) (language : string)
  : result (list dict) :=
  match listing_types with
  | [] => Ok all_records
  | listing_type :: rest =>
      all_records' <-
        page_loop all_records city listing_type home_types language
                  (page_range max_pages) ;;
      listing_type_loop all_records' city rest home_types max_pages language
  end.

(** [for city in cities]: the three nested loops of [run], from an
    [all_records] collected so far to its value when they end. *)
Fixpoint city_loop
    (all_records : list dict) (cities listing_types : list string)
    (home_types : option (list string)) (max_pages : Z) (language : string)
  : result (list dict) :=
  match cities with
  | [] => Ok all_records
  | city :: rest =>
      all_records' <-
        listing_type_loop all_records city listing_types home_types
                          max_pages language ;;
      city_loop all_records' rest listing_types home_types max_pages language
  end.

(** The queries of a run, in the order the loops make them. *)
Definition run_queries
    (cities listing_types : list string) (max_pages : Z)
  : list (string * string * Z) :=
  flat_map (fun city =>
    flat_map (fun listing_type =>
      map (fun page => (city, listing_type, page)) (page_range max_pages))
    listing_types) cities.


(** What a query adds to [all_records] when it does not abort the run:
    its records, or nothing when it fails. *)
Definition query_contribution
    (home_types : option (list string)) (language : string)
    (q : string * string * Z) : list dict :=
  match fetch_city_listings (fst (fst q)) (snd (fst q)) home_types (snd q) language with
  | Ok records => records
  | Raise _ => []
  end.

(** A query fails with an exception the handler of [run] does not catch. *)
Definition query_aborts
    (home_types : option (list string)) (language : string)
    (q : string * string * Z) (e : exn) : Prop :=
  fetch_city_listings (fst (fst q)) (snd (fst q)) home_types (snd q) language
    = Raise e /\ e <> ZillowClientError.


(* =================================================================== *)
(** ** Vocabulary that depends on the runtime *)

(** How the value chosen for a field is stored: the identifier is
    [str(chosen or "")], every other coalesced field is the chosen value
    itself. *)
Definition stored (f : field) (chosen : json) : json :=
  match f with
  | Fzpid => JStr (py_str (py_or chosen (JStr EmptyString)))
  | _ => chosen
  end.

(** What a field holds when the raw object has none of its sources. *)
Definition absent_value (f : field) : json :=
  match f with
  | Fzpid => JStr EmptyString
  | FphotoUrls => JList []
  | FisFeaturedListing => JBool false
  | _ => JNull
  end.

(** The unit-type descriptor a record is filtered on:
    [str(r.get("unitTypes") or "").lower()]. *)
Definition unit_descriptor (r : dict) : string :=
  str_lower rt (py_str (py_or (dict_get r "unitTypes") (JStr EmptyString))).

(** A record passes the home-type filter. *)
Definition matches_home_type (hts : list string) (r : dict) : bool :=
  existsb (fun ht => is_substring (str_lower rt ht) (unit_descriptor r)) hts.

(** The text of the CSV cell of record [rec] in column [k]. *)
Definition csv_text (rec : dict) (k : string) : string :=
  match dict_lookup rec k with
  | None => EmptyString
  | Some JNull => EmptyString
  | Some (JList l) => join "|" (map str_or_empty l)
  | Some (JStr s) => s
  | Some other => py_str other
  end.

(** The fallback of [_extract_json_state] found nothing to parse. *)
Definition fallback_fails (html : string) : Prop :=
  match re_search rt (soup_get_text rt html) with
  | None => True
  | Some candidate =>
      balance_scan candidate 0 0 = 0 \/
      json_loads rt (substring 0 (balance_scan candidate 0 0) candidate)
        = JSONDecodeError
  end.

(** The primary extraction found no script, or could not parse it. *)
Definition primary_fails (html : string) : Prop :=
  match script_string rt html with
  | None => True
  | Some s => s = EmptyString \/ json_loads rt s = JSONDecodeError
  end.

(** The record set of the specification's CSV example. *)
Definition csv_example : list dict :=
  [ [ ("a", JStr "1"); ("b", JList [JStr "x"; JStr "y"]) ] ].

(* =================================================================== *)
(** * Properties *)
(* =================================================================== *)

(** ** The error monad *)

Lemma bind_ok_inv {A B : Type} (m : result A) (k : A -> result B) (b : B) :
  bind m k = Ok b -> exists a, m = Ok a /\ k a = Ok b.
Proof.
  destruct m as [a|e]; simpl; intros H.
  - exists a. split; [reflexivity | exact H].
  - discriminate H.
Qed.

Lemma mapM_total {A B : Type} (f : A -> result B) (g : A -> B) (xs : list A) :
  (forall x, In x xs -> f x = Ok (g x)) -> mapM f xs = Ok (map g xs).
Proof.
  induction xs as [|x xs IH]; simpl; intros H.
  - reflexivity.
  - rewrite (H x (or_introl eq_refl)). simpl.
    rewrite IH by (intros y Hy; apply H; right; exact Hy).
    reflexivity.
Qed.

(** ** First-seen de-duplication *)

Lemma mem_In (x : string) (xs : list string) : mem x xs = true <-> In x xs.
Proof.
  unfold mem. rewrite existsb_exists. split.
  - intros [y [Hy E]]. apply String.eqb_eq in E. subst y. exact Hy.
  - intros H. exists x. split; [exact H | apply String.eqb_refl].
Qed.

Lemma mem_not_In (x : string) (xs : list string) : mem x xs = false <-> ~ In x xs.
Proof.
  rewrite <- mem_In. destruct (mem x xs); split; intros H; congruence.
Qed.

Lemma first_seen_loop_uniq (xs seen out : list string) :
  first_seen_loop seen out xs = (rev (uniq seen xs) ++ seen, out ++ uniq seen xs).
Proof.
  revert seen out. induction xs as [|x xs IH]; intros seen out; simpl.
  - rewrite app_nil_r. reflexivity.
  - destruct (mem x seen); simpl.
    + apply IH.
    + rewrite IH. simpl. rewrite <- !app_assoc. reflexivity.
Qed.

Lemma uniq_In (xs seen : list string) (y : string) :
  In y (uniq seen xs) <-> In y xs /\ ~ In y seen.
Proof.
  revert seen. induction xs as [|x xs IH]; intros seen; simpl.
  - tauto.
  - destruct (mem x seen) eqn:M.
    + apply mem_In in M. rewrite IH. split.
      * tauto.
      * intros [[E|H] N]; [subst; contradiction | tauto].
    + apply mem_not_In in M. simpl. rewrite IH. simpl. split.
      * intros [E|[H N]]; [subst; tauto | tauto].
      * intros [[E|H] N]; [tauto|].
        destruct (string_dec x y) as [E|D]; [tauto|]. right. tauto.
Qed.

Lemma uniq_NoDup (xs seen : list string) : NoDup (uniq seen xs).
Proof.
  revert seen. induction xs as [|x xs IH]; intros seen; simpl.
  - constructor.
  - destruct (mem x seen); [apply IH|].
    constructor; [|apply IH].
    rewrite uniq_In. simpl. tauto.
Qed.

Lemma uniq_order (xs seen : list string) (i j : nat) (x y : string) :
  nth_error (uniq seen xs) i = Some x ->
  nth_error (uniq seen xs) j = Some y ->
  i < j ->
  first_index x xs < first_index y xs.
Proof.
  revert seen i j. induction xs as [|a xs IH]; intros seen i j; simpl.
  - destruct i; discriminate.
  - destruct (mem a seen) eqn:M.
    + intros Hx Hy Hlt. apply mem_In in M.
      assert (Ax : a <> x).
      { intros ->. apply nth_error_In in Hx. apply uniq_In in Hx. tauto. }
      assert (Ay : a <> y).
      { intros ->. apply nth_error_In in Hy. apply uniq_In in Hy. tauto. }
      apply String.eqb_neq in Ax, Ay. rewrite Ax, Ay.
      apply -> Nat.succ_lt_mono. exact (IH seen i j Hx Hy Hlt).
    + intros Hx Hy Hlt. destruct j as [|j]; [lia|]. simpl in Hy.
      assert (Ay : a <> y).
      { intros ->. apply nth_error_In in Hy. apply uniq_In in Hy.
        simpl in Hy. tauto. }
      apply String.eqb_neq in Ay. rewrite Ay.
      destruct i as [|i]; simpl in Hx.
      * injection Hx as ->. rewrite String.eqb_refl. lia.
      * assert (Ax : a <> x).
        { intros ->. apply nth_error_In in Hx. apply uniq_In in Hx.
          simpl in Hx. tauto. }
        apply String.eqb_neq in Ax. rewrite Ax.
        apply -> Nat.succ_lt_mono. apply (IH (a :: seen) i j Hx Hy). lia.
Qed.

Lemma uniq_first_seen_order (xs : list string) :
  first_seen_order xs (uniq [] xs).
Proof.
  split; [apply uniq_NoDup|]. split.
  - intros x. rewrite uniq_In. simpl. tauto.
  - intros i j x y. apply uniq_order.
Qed.

Lemma uniq_app (xs ys seen : list string) :
  uniq seen (xs ++ ys) = uniq seen xs ++ uniq (rev (uniq seen xs) ++ seen) ys.
Proof.
  revert seen. induction xs as [|x xs IH]; intros seen; simpl.
  - reflexivity.
  - destruct (mem x seen); [apply IH|].
    simpl. rewrite IH. rewrite <- app_assoc. reflexivity.
Qed.

(** ** Source locations *)

Lemma home_info_path_get (raw hdp : json) (k : string) :
  home_info raw = Ok hdp ->
  path_get raw (home_info_path k) = path_get hdp [k].
Proof.
  unfold home_info, get_default, home_info_path.
  destruct raw as [ | | | | | |kv]; simpl; try discriminate.
  unfold dict_get, dict_get_default.
  destruct (dict_lookup kv "hdpData") as [h|]; simpl.
  - destruct h as [ | | | | | |kv1]; simpl; try discriminate.
    unfold dict_get_default.
    destruct (dict_lookup kv1 "homeInfo") as [x|]; simpl;
      intros H; injection H as <-; reflexivity.
  - intros H; injection H as <-; reflexivity.
Qed.

(** Reading key [k] of [hdp] agrees with the home-info location [k]. *)
Lemma approx_home_info (raw hdp : json) (k : string) :
  home_info raw = Ok hdp ->
  approx (get hdp k) (path_get raw (home_info_path k)).
Proof.
  intros H. rewrite (home_info_path_get raw hdp k H).
  destruct hdp; simpl; reflexivity.
Qed.

(** Reading key [k] of [raw.get(outer) or {}] agrees with the location
    [outer.k]. *)
Lemma approx_nested (kv : dict) (outer k : string) :
  approx (get (py_or (dict_get kv outer) (JDict [])) k)
         (path_get (JDict kv) [outer; k]).
Proof.
  simpl. unfold py_or.
  destruct (dict_get kv outer) as [ |b|z|f|s|l|d]; simpl; try reflexivity.
  - destruct b; reflexivity.
  - destruct (negb (z =? 0)%Z); reflexivity.
  - destruct (negb (PrimFloat.eqb f 0)); reflexivity.
  - destruct (negb (s =? EmptyString)%string); reflexivity.
  - destruct l; reflexivity.
  - destruct d; reflexivity.
Qed.

Lemma approx_top (kv : dict) (k : string) :
  approx (get (JDict kv) k) (path_get (JDict kv) [k]).
Proof. reflexivity. Qed.

(** ** Chains of [or] *)

Lemma lazy_or_2 (m1 m2 : result json) (x1 x2 v : json) :
  approx m1 x1 -> approx m2 x2 ->
  (m1 |or| m2) = Ok v -> v = or_chain [x1; x2].
Proof.
  unfold lazy_or, approx. destruct m1 as [a|e]; simpl; [|discriminate].
  intros <-. destruct (truthy a) eqn:T.
  - intros _ H. injection H as <-. reflexivity.
  - intros A2 H. rewrite H in A2. exact A2.
Qed.

Lemma lazy_or_3 (m1 m2 m3 : result json) (x1 x2 x3 v : json) :
  approx m1 x1 -> approx m2 x2 -> approx m3 x3 ->
  (m1 |or| m2 |or| m3) = Ok v -> v = or_chain [x1; x2; x3].
Proof.
  intros A1 A2 A3. unfold lazy_or at 1. unfold approx in A1.
  destruct m1 as [a|e]; simpl; [|discriminate]. subst x1.
  destruct (truthy a) eqn:T.
  - intros H. injection H as <-. reflexivity.
  - apply lazy_or_2; assumption.
Qed.

Lemma or_chain_all_null (vals : list json) :
  (forall v, In v vals -> v = JNull) -> or_chain vals = JNull.
Proof.
  induction vals as [|v vals IH]; simpl; intros H.
  - reflexivity.
  - assert (E : v = JNull) by (apply H; left; reflexivity). subst v.
    destruct vals as [|w vals]; [reflexivity|].
    simpl. apply IH. intros u Hu. apply H. right. exact Hu.
Qed.

(** The first truthy value of a chain is its result. *)
Lemma or_chain_first_truthy (pre post : list json) (v : json) :
  (forall u, In u pre -> truthy u = false) ->
  truthy v = true ->
  or_chain (pre ++ v :: post) = v.
Proof.
  induction pre as [|u pre IH]; simpl; intros Hpre Hv.
  - destruct post; [reflexivity|]. rewrite Hv. reflexivity.
  - rewrite (Hpre u (or_introl eq_refl)).
    assert (IH' : or_chain (pre ++ v :: post) = v).
    { apply IH; [|exact Hv]. intros w Hw. apply Hpre. right. exact Hw. }
    destruct (pre ++ v :: post) eqn:E.
    + destruct pre; discriminate.
    + exact IH'.
Qed.

(** ** Photo URLs *)

Lemma photo_object_urls_spec (objs : list json) (acc l : list string) :
  photo_object_urls acc objs = Ok l ->
  l = acc ++ only_strings (map (fun p => path_get p ["url"]) objs).
Proof.
  revert acc. induction objs as [|p objs IH]; simpl; intros acc H.
  - injection H as <-. rewrite app_nil_r. reflexivity.
  - destruct p as [ | | | | | |d]; simpl in H; try discriminate.
    destruct (dict_get d "url") as [ | | | |u| | ]; try (apply IH; exact H).
    apply IH in H. rewrite <- app_assoc in H. exact H.
Qed.

Lemma top_photo_urls (kv : dict) :
  (if dict_mem kv "photoUrls"
   then top <- getitem (JDict kv) "photoUrls" ;;
        match top with
        | JList l => Ok ([] ++ only_strings l)
        | _ => Ok []
        end
   else Ok []) = Ok (strings_of (dict_get kv "photoUrls")).
Proof.
  unfold dict_mem, getitem, dict_get, dict_get_default.
  destruct (dict_lookup kv "photoUrls") as [[]|]; reflexivity.
Qed.

Lemma extract_photos_spec (raw : json) (l : list string) :
  _extract_photos raw = Ok l -> l = uniq [] (photo_sources raw).
Proof.
  unfold _extract_photos. intros H.
  destruct raw as [ | | | |s|l0|kv]; try discriminate.
  - simpl in H. destruct (is_substring "photoUrls" s); discriminate.
  - simpl in H. destruct (mem "photoUrls" (only_strings l0)); discriminate.
  - cbn [contains bind] in H.
    rewrite top_photo_urls in H. cbn [bind] in H.
    apply bind_ok_inv in H. destruct H as [hdp [Hh H]].
    apply bind_ok_inv in H. destruct H as [photos [Hp H]].
    cbn [get bind] in H.
    rewrite first_seen_loop_uniq in H. cbn [app] in H. injection H as <-.
    f_equal. unfold photo_sources.
    rewrite !(home_info_path_get _ _ _ Hh).
    change (path_get (JDict kv) ["imgSrc"]) with (dict_get kv "imgSrc").
    change (path_get (JDict kv) ["photoUrls"]) with (dict_get kv "photoUrls").
    assert (Ep : photos =
      strings_of (dict_get kv "photoUrls")
      ++ strings_of (path_get hdp ["photoUrls"])
      ++ match path_get hdp ["photos"] with
         | JList objs => only_strings (map (fun p => path_get p ["url"]) objs)
         | _ => []
         end).
    { destruct hdp as [ | | | | | |h]; cbn [path_get strings_of];
        try (injection Hp as <-; rewrite app_nil_r; reflexivity).
      destruct (dict_get h "photos") as [ | | | | |objs| ];
        try (injection Hp as <-; rewrite app_nil_r;
             destruct (dict_get h "photoUrls"); cbn [strings_of];
             rewrite ?app_nil_r; reflexivity).
      apply photo_object_urls_spec in Hp. subst photos.
      destruct (dict_get h "photoUrls"); cbn [strings_of];
        rewrite ?app_nil_r, <- ?app_assoc; reflexivity. }
    subst photos.
    destruct (dict_get kv "imgSrc"); reflexivity.
Qed.

(** ** Address *)

Lemma format_address_spec (raw : json) (info : dict) :
  _format_address raw = Ok info ->
  exists full : json,
    let street := or_chain (candidate_values raw FaddressStreet) in
    let city := or_chain (candidate_values raw FaddressCity) in
    let state := or_chain (candidate_values raw FaddressState) in
    let zipcode := or_chain (candidate_values raw FaddressZipcode) in
    info = [ ("address", full); ("addressStreet", street);
             ("addressCity", city); ("addressState", state);
             ("addressZipcode", zipcode) ] /\
    match filter truthy [street; city; state; zipcode] with
    | [] => full = JNull
    | parts =>
        exists ss, all_strings parts = Some ss /\ full = JStr (join ", " ss)
    end.
Proof.
  unfold _format_address. intros H.
  destruct raw as [ | | | | | |kv]; try discriminate.
  cbn [get bind] in H.
  apply bind_ok_inv in H. destruct H as [street [Hs H]].
  apply bind_ok_inv in H. destruct H as [city [Hc H]].
  apply bind_ok_inv in H. destruct H as [state [Hst H]].
  apply bind_ok_inv in H. destruct H as [zipcode [Hz H]].
  apply bind_ok_inv in H. destruct H as [full [Hf H]].
  apply (lazy_or_2 _ _ _ _ _ (approx_nested kv "address" "streetAddress")
                   (approx_top kv "addressStreet")) in Hs.
  apply (lazy_or_2 _ _ _ _ _ (approx_nested kv "address" "city")
                   (approx_top kv "addressCity")) in Hc.
  apply (lazy_or_2 _ _ _ _ _ (approx_nested kv "address" "state")
                   (approx_top kv "addressState")) in Hst.
  apply (lazy_or_2 _ _ _ _ _ (approx_nested kv "address" "zipcode")
                   (approx_top kv "addressZipcode")) in Hz.
  injection H as <-. exists full.
  change (or_chain (candidate_values (JDict kv) FaddressStreet))
    with (or_chain [path_get (JDict kv) ["address"; "streetAddress"];
                    path_get (JDict kv) ["addressStreet"]]).
  change (or_chain (candidate_values (JDict kv) FaddressCity))
    with (or_chain [path_get (JDict kv) ["address"; "city"];
                    path_get (JDict kv) ["addressCity"]]).
  change (or_chain (candidate_values (JDict kv) FaddressState))
    with (or_chain [path_get (JDict kv) ["address"; "state"];
                    path_get (JDict kv) ["addressState"]]).
  change (or_chain (candidate_values (JDict kv) FaddressZipcode))
    with (or_chain [path_get (JDict kv) ["address"; "zipcode"];
                    path_get (JDict kv) ["addressZipcode"]]).
  rewrite <- Hs, <- Hc, <- Hst, <- Hz. cbv zeta.
  split; [reflexivity|].
  destruct (filter truthy [street; city; state; zipcode]) as [|p parts].
  - injection Hf as <-. reflexivity.
  - unfold py_join in Hf.
    destruct (all_strings (p :: parts)) as [ss|]; [|discriminate].
    simpl in Hf. injection Hf as <-. exists ss. split; reflexivity.
Qed.

(** ** The normalized record *)

Lemma to_dict_photo_list (l : PropertyListing) (photos : list string) :
  photoUrls l = JList (map JStr photos) ->
  dict_get (to_dict l) "photoUrls" = JList (map JStr photos).
Proof.
  intros E. unfold to_dict. rewrite E.
  destruct photos; reflexivity.
Qed.

(** What a successful normalization put in each field, in terms of the
    source locations of the raw object. *)
Lemma listing_of_raw_spec (raw : json) (rec : dict) :
  listing_of_raw raw = Ok rec ->
  (forall f, candidates f <> [] ->
     record_field rec f =
     match f with
     | Fzpid =>
         JStr (py_str (or_chain (candidate_values raw f ++ [JStr EmptyString])))
     | _ => or_chain (candidate_values raw f)
     end) /\
  (exists photos,
      _extract_photos raw = Ok photos /\
      record_field rec FphotoUrls = JList (map JStr photos)) /\
  record_field rec FisFeaturedListing =
    JBool (truthy (path_get raw ["isFeaturedListing"])) /\
  (exists info,
      _format_address raw = Ok info /\
      record_field rec Faddress = dict_get info "address").
Proof.
  unfold listing_of_raw. intros H.
  destruct raw as [ | | | | | |kv]; try discriminate.
  cbn [get bind] in H.
  apply bind_ok_inv in H. destruct H as [hdp [Hh H]].
  apply bind_ok_inv in H. destruct H as [info [Hinfo H]].
  apply bind_ok_inv in H. destruct H as [v_zpid [Hzpid H]].
  apply bind_ok_inv in H. destruct H as [v_provider [Hprovider H]].
  apply bind_ok_inv in H. destruct H as [v_status_type [Hstype H]].
  apply bind_ok_inv in H. destruct H as [v_status_text [Hstext H]].
  apply bind_ok_inv in H. destruct H as [v_detail [Hdetail H]].
  apply bind_ok_inv in H. destruct H as [v_lat [Hlat H]].
  apply bind_ok_inv in H. destruct H as [v_lon [Hlon H]].
  apply bind_ok_inv in H. destruct H as [v_building [Hbuilding H]].
  apply bind_ok_inv in H. destruct H as [v_min [Hmin H]].
  apply bind_ok_inv in H. destruct H as [v_max [Hmax H]].
  apply bind_ok_inv in H. destruct H as [v_units [Hunits H]].
  apply bind_ok_inv in H. destruct H as [v_total [Htotal H]].
  apply bind_ok_inv in H. destruct H as [v_photos [Hphotos H]].
  apply bind_ok_inv in H. destruct H as [v_badge [Hbadge H]].
  injection H as <-.
  pose proof (approx_home_info _ _ "zpid" Hh) as Az.
  apply (lazy_or_3 _ _ _ _ _ _ _
           (approx_top kv "zpid") Az
           (eq_refl : approx (Ok (JStr EmptyString)) (JStr EmptyString)))
    in Hzpid.
  apply (lazy_or_2 _ _ _ _ _ (approx_top kv "providerListingId")
           (approx_home_info _ _ "providerListingId" Hh)) in Hprovider.
  apply (lazy_or_2 _ _ _ _ _ (approx_top kv "statusType")
           (approx_home_info _ _ "homeStatus" Hh)) in Hstype.
  apply (lazy_or_2 _ _ _ _ _ (approx_top kv "statusText")
           (approx_top kv "statusType")) in Hstext.
  apply (lazy_or_3 _ _ _ _ _ _ _ (approx_top kv "detailUrl")
           (approx_top kv "detailUrlPath")
           (approx_home_info _ _ "detailUrl" Hh)) in Hdetail.
  apply (lazy_or_2 _ _ _ _ _ (approx_nested kv "latLong" "latitude")
           (approx_home_info _ _ "latitude" Hh)) in Hlat.
  apply (lazy_or_2 _ _ _ _ _ (approx_nested kv "latLong" "longitude")
           (approx_home_info _ _ "longitude" Hh)) in Hlon.
  apply (lazy_or_3 _ _ _ _ _ _ _ (approx_top kv "buildingName")
           (approx_home_info _ _ "buildingName" Hh)
           (approx_top kv "name")) in Hbuilding.
  apply (lazy_or_3 _ _ _ _ _ _ _ (approx_top kv "unformattedPrice")
           (approx_top kv "price")
           (approx_home_info _ _ "price" Hh)) in Hmin.
  apply (lazy_or_3 _ _ _ _ _ _ _ (approx_top kv "priceReduction")
           (approx_top kv "price")
           (approx_home_info _ _ "price" Hh)) in Hmax.
  apply (lazy_or_3 _ _ _ _ _ _ _ (approx_top kv "unitTypes")
           (approx_top kv "bedsBaths") (approx_top kv "beds")) in Hunits.
  apply (lazy_or_2 _ _ _ _ _ (approx_top kv "totalUnits")
           (approx_home_info _ _ "totalUnits" Hh)) in Htotal.
  apply (lazy_or_2 _ _ _ _ _ (approx_top kv "badgeText")
           (approx_nested kv "variableData" "text")) in Hbadge.
  subst.
  destruct (format_address_spec _ _ Hinfo) as [full [Einfo _]].
  cbv zeta in Einfo.
  split; [|split; [|split]].
  - intros f Hf. rewrite Einfo.
    destruct f; try (exfalso; apply Hf; reflexivity); reflexivity.
  - exists v_photos. split; [exact Hphotos|].
    apply to_dict_photo_list. reflexivity.
  - reflexivity.
  - exists info. split; [exact Hinfo|]. reflexivity.
Qed.

(** ** Normalization succeeds on raw objects of the expected shape *)

Lemma lazy_or_ok (a b : json) : (Ok a |or| Ok b) = Ok (py_or a b).
Proof. unfold lazy_or, py_or. simpl. destruct (truthy a); reflexivity. Qed.

Lemma falsy_or_dict_or (v : json) :
  falsy_or_dict v = true ->
  exists d, py_or v (JDict []) = JDict d /\
            forall k, dict_get d k = path_get v [k].
Proof.
  unfold falsy_or_dict, py_or. intros H.
  destruct (truthy v) eqn:T.
  - destruct v; try discriminate. eexists. split; reflexivity.
  - exists []. split; [reflexivity|]. intros k.
    destruct v as [ | | | | | |d]; try reflexivity.
    destruct d; [reflexivity | discriminate].
Qed.




Lemma all_strings_filter_truthy (l : list json) :
  forallb falsy_or_str l = true ->
  exists ss, all_strings (filter truthy l) = Some ss.
Proof.
  induction l as [|v l IH]; simpl; intros H.
  - exists []. reflexivity.
  - apply andb_true_iff in H. destruct H as [Hv H].
    destruct (IH H) as [ss Ess].
    unfold falsy_or_str in Hv. destruct (truthy v) eqn:T.
    + destruct v; try discriminate. simpl. rewrite Ess.
      eexists. reflexivity.
    + exists ss. exact Ess.
Qed.

Lemma format_address_total (kv : dict) :
  falsy_or_dict (dict_get kv "address") = true ->
  forallb falsy_or_str
    [ or_chain (candidate_values (JDict kv) FaddressStreet);
      or_chain (candidate_values (JDict kv) FaddressCity);
      or_chain (candidate_values (JDict kv) FaddressState);
      or_chain (candidate_values (JDict kv) FaddressZipcode) ] = true ->
  exists info, _format_address (JDict kv) = Ok info.
Proof.
  intros Ha Hparts.
  destruct (falsy_or_dict_or _ Ha) as [d [Ed Hd]].
  unfold _format_address. cbn [get bind]. rewrite Ed. cbn [get].
  rewrite !lazy_or_ok. cbn [bind]. rewrite !Hd.
  destruct (all_strings_filter_truthy _ Hparts) as [ss Ess].
  change (or_chain (candidate_values (JDict kv) FaddressStreet))
    with (py_or (path_get (dict_get kv "address") ["streetAddress"])
                (dict_get kv "addressStreet")) in Ess.
  change (or_chain (candidate_values (JDict kv) FaddressCity))
    with (py_or (path_get (dict_get kv "address") ["city"])
                (dict_get kv "addressCity")) in Ess.
  change (or_chain (candidate_values (JDict kv) FaddressState))
    with (py_or (path_get (dict_get kv "address") ["state"])
                (dict_get kv "addressState")) in Ess.
  change (or_chain (candidate_values (JDict kv) FaddressZipcode))
    with (py_or (path_get (dict_get kv "address") ["zipcode"])
                (dict_get kv "addressZipcode")) in Ess.
  unfold py_join.
  destruct (filter truthy _) as [|p ps] eqn:Ef.
  - eexists. reflexivity.
  - rewrite Ess. eexists. reflexivity.
Qed.


(** A null [hdpData] is not of the expected shape: normalization raises. *)
Lemma listing_of_raw_null_hdp_data :
  listing_of_raw (JDict [("zpid", JInt 1); ("hdpData", JNull)])
  = Raise AttributeError.
Proof. reflexivity. Qed.

Lemma or_chain_snoc_empty (vals : list json) :
  or_chain (vals ++ [JStr EmptyString]) = py_or (or_chain vals) (JStr EmptyString).
Proof.
  induction vals as [|v vals IH]; [reflexivity|].
  destruct vals as [|w vals].
  - reflexivity.
  - change ((v :: w :: vals) ++ [JStr EmptyString])
      with (v :: ((w :: vals) ++ [JStr EmptyString])).
    change (or_chain (v :: (w :: vals) ++ [JStr EmptyString]))
      with (if truthy v then v else or_chain ((w :: vals) ++ [JStr EmptyString])).
    change (or_chain (v :: w :: vals))
      with (if truthy v then v else or_chain (w :: vals)).
    destruct (truthy v) eqn:T.
    + unfold py_or. rewrite T. reflexivity.
    + exact IH.
Qed.

Lemma filter_truthy_all_null (cs : list json) :
  (forall c, In c cs -> c = JNull) -> filter truthy cs = [].
Proof.
  induction cs as [|c cs IH]; intros Hnull; [reflexivity|].
  simpl. rewrite (Hnull c (or_introl eq_refl)). simpl.
  apply IH. intros c' Hc'. apply Hnull. right. exact Hc'.
Qed.

Lemma all_strings_map (parts : list json) (ss : list string) :
  all_strings parts = Some ss -> parts = map JStr ss.
Proof.
  revert ss. induction parts as [|p parts IH]; simpl; intros ss H.
  - injection H as <-. reflexivity.
  - destruct p; try discriminate.
    destruct (all_strings parts) as [ss'|]; [|discriminate].
    injection H as <-. simpl. f_equal. apply IH. reflexivity.
Qed.

(* =================================================================== *)
(** ** Field coalescing *)

(** C1 (amended).  In a normalized record every coalesced field holds the
    value of the first candidate, in precedence order, that is truthy
    (not null, false, zero or empty), and the value of the last
    candidate when none is truthy; the identifier holds that value as
    text.  So a higher-precedence source wins over a lower one whenever
    its value is truthy. *)
Theorem C1_first_truthy_candidate_wins (raw : json) (rec : dict) (f : field) :
  listing_of_raw raw = Ok rec ->
  candidates f <> [] ->
  record_field rec f = stored f (or_chain (candidate_values raw f)) /\
  (forall pre p post,
      candidates f = pre ++ p :: post ->
      (forall q, In q pre -> truthy (path_get raw q) = false) ->
      truthy (path_get raw p) = true ->
      record_field rec f = stored f (path_get raw p)).
Proof.
  intros H Hc.
  destruct (listing_of_raw_spec raw rec H) as [Hf _].
  assert (E : record_field rec f = stored f (or_chain (candidate_values raw f))).
  { rewrite (Hf f Hc). destruct f; try reflexivity.
    unfold stored. rewrite or_chain_snoc_empty. reflexivity. }
  split; [exact E|].
  intros pre p post Ec Hpre Hp. rewrite E. f_equal.
  unfold candidate_values. rewrite Ec, map_app. simpl.
  apply or_chain_first_truthy; [|exact Hp].
  intros u Hu. apply in_map_iff in Hu. destruct Hu as [q [<- Hq]].
  apply Hpre. exact Hq.
Qed.

(* =================================================================== *)
(** ** Photo URLs *)

(** C2.  The [photoUrls] field of a normalized record is a list of
    strings, never null; it has no duplicate, holds exactly the URLs of
    the merged sources, in the order of their first occurrences there;
    and a top-level image source that is present comes first. *)
Theorem C2_photo_urls_unique_in_first_seen_order (raw : json) (rec : dict) :
  listing_of_raw raw = Ok rec ->
  exists urls : list string,
    record_field rec FphotoUrls = JList (map JStr urls) /\
    NoDup urls /\
    first_seen_order (photo_sources raw) urls /\
    (forall u, path_get raw ["imgSrc"] = JStr u -> hd_error urls = Some u).
Proof.
  intros H.
  destruct (listing_of_raw_spec raw rec H) as [_ [[photos [Hp E]] _]].
  apply extract_photos_spec in Hp. subst photos.
  exists (uniq [] (photo_sources raw)).
  split; [exact E|]. split; [apply uniq_NoDup|].
  split; [apply uniq_first_seen_order|].
  intros u Hu. unfold photo_sources. rewrite Hu. reflexivity.
Qed.

(* =================================================================== *)
(** ** Composite address *)

(** C3 (amended).  The composite address of a normalized record is the
    join, with a comma and a space, of those of its four components
    (street, city, state, zip, in this order) that are truthy, that is
    neither null nor empty; it is null when no component is truthy, in
    particular when all four are null. *)
Theorem C3_address_joins_truthy_components (raw : json) (rec : dict) :
  listing_of_raw raw = Ok rec ->
  let components :=
    [ record_field rec FaddressStreet; record_field rec FaddressCity;
      record_field rec FaddressState; record_field rec FaddressZipcode ] in
  (exists parts : list string,
      filter truthy components = map JStr parts /\
      record_field rec Faddress =
        match parts with
        | [] => JNull
        | _ :: _ => JStr (join ", " parts)
        end) /\
  ((forall c, In c components -> c = JNull) ->
   record_field rec Faddress = JNull).
Proof.
  intros H components.
  destruct (listing_of_raw_spec raw rec H) as [Hf [_ [_ [info [Hi Ea]]]]].
  destruct (format_address_spec raw info Hi) as [full [Einfo Hfull]].
  cbv zeta in Einfo, Hfull.
  assert (Ec : components =
    [ or_chain (candidate_values raw FaddressStreet);
      or_chain (candidate_values raw FaddressCity);
      or_chain (candidate_values raw FaddressState);
      or_chain (candidate_values raw FaddressZipcode) ]).
  { unfold components.
    rewrite (Hf FaddressStreet), (Hf FaddressCity), (Hf FaddressState),
      (Hf FaddressZipcode) by discriminate.
    reflexivity. }
  assert (Efull : record_field rec Faddress = full).
  { rewrite Ea, Einfo. reflexivity. }
  rewrite Efull, Ec.
  set (cs := [ or_chain (candidate_values raw FaddressStreet);
               or_chain (candidate_values raw FaddressCity);
               or_chain (candidate_values raw FaddressState);
               or_chain (candidate_values raw FaddressZipcode) ]) in *.
  assert (Hparts : exists parts : list string,
    filter truthy cs = map JStr parts /\
    full = match parts with [] => JNull | _ :: _ => JStr (join ", " parts) end).
  { destruct (filter truthy cs) as [|p ps] eqn:Ef.
    - exists []. split; [reflexivity | exact Hfull].
    - destruct Hfull as [ss [Hs ->]].
      apply all_strings_map in Hs. exists ss. split; [exact Hs|].
      destruct ss; [discriminate | reflexivity]. }
  split; [exact Hparts|].
  intros Hnull. destruct Hparts as [parts [Hp ->]].
  rewrite (filter_truthy_all_null cs Hnull) in Hp. destruct parts; [reflexivity | discriminate].
Qed.

(* =================================================================== *)
(** ** Optional fields *)

(** C5 (amended).  When a raw object has none of the source locations
    of a field, the normalized record holds null for that field, except
    that the identifier [zpid] is then the empty string, [photoUrls] the
    empty list and the featured flag false. *)
Theorem C5_absent_sources_give_default (raw : json) (rec : dict) (f : field) :
  listing_of_raw raw = Ok rec ->
  (forall p, In p (sources f) -> path_get raw p = JNull) ->
  record_field rec f = absent_value f.
Proof.
  intros H Habs.
  destruct (listing_of_raw_spec raw rec H)
    as [Hf [[photos [Hp Eph]] [Efeat [info [Hi Ea]]]]].
  assert (Hchain : forall g,
    (forall p, In p (candidates g) -> path_get raw p = JNull) ->
    or_chain (candidate_values raw g) = JNull).
  { intros g Hg. apply or_chain_all_null.
    intros v Hv. unfold candidate_values in Hv.
    apply in_map_iff in Hv. destruct Hv as [p [<- Hin]]. apply Hg. exact Hin. }
  destruct f;
    try (rewrite (Hf _) by discriminate; apply Hchain; exact Habs).
  - (* zpid *)
    rewrite (Hf Fzpid) by discriminate.
    rewrite or_chain_snoc_empty, (Hchain Fzpid Habs). reflexivity.
  - (* address *)
    destruct (format_address_spec raw info Hi) as [full [Einfo Hfull]].
    cbv zeta in Einfo, Hfull.
    rewrite !Hchain in Hfull
      by (intros p Hin; apply Habs; simpl; simpl in Hin; tauto).
    simpl in Hfull. rewrite Ea, Einfo. exact Hfull.
  - (* photoUrls *)
    rewrite Eph. apply extract_photos_spec in Hp. subst photos.
    unfold photo_sources.
    rewrite !Habs by (simpl; tauto). reflexivity.
  - (* featured flag *)
    rewrite Efeat, Habs by (simpl; tauto). reflexivity.
Qed.

(* =================================================================== *)
(** ** Degraded extraction *)

Lemma extract_json_state_not_found (html : string) :
  primary_fails html -> fallback_fails html ->
  _extract_json_state html = Ok JNull.
Proof.
  unfold primary_fails, fallback_fails, _extract_json_state.
  intros Hp Hf.
  assert (E1 : match script_string rt html with
               | Some s =>
                   if negb (String.eqb s EmptyString) then try_loads s else Ok None
               | None => Ok None
               end = Ok None).
  { destruct (script_string rt html) as [s|]; [|reflexivity].
    destruct Hp as [-> | E]; [reflexivity|].
    unfold try_loads. rewrite E. destruct (negb _); reflexivity. }
  rewrite E1. cbn [bind].
  destruct (re_search rt (soup_get_text rt html)) as [candidate|]; [|reflexivity].
  destruct Hf as [E | E].
  - rewrite E. reflexivity.
  - unfold try_loads. rewrite E. destruct (negb _); reflexivity.
Qed.

(** A page with no embedded state yields the empty list. *)
Lemma parse_search_results_no_state (html : string) :
  primary_fails html -> fallback_fails html ->
  parse_search_results html = Ok [].
Proof.
  intros Hp Hf. unfold parse_search_results.
  rewrite (extract_json_state_not_found html Hp Hf). reflexivity.
Qed.

(** *** What the walk of the state tree can raise *)

Lemma bind_raise_inv {A B : Type} (m : result A) (k : A -> result B) (e : exn) :
  bind m k = Raise e -> m = Raise e \/ exists a, m = Ok a /\ k a = Raise e.
Proof.
  destruct m as [a|e']; simpl; intros H.
  - right. exists a. split; [reflexivity | exact H].
  - left. injection H as <-. reflexivity.
Qed.

Lemma getitem_raises (o : json) (k : string) (e : exn) :
  getitem o k = Raise e -> e = KeyError \/ e = TypeError.
Proof.
  destruct o; simpl; intros H; try (injection H as <-; tauto).
  destruct (dict_lookup kv k); [discriminate|]. injection H as <-. tauto.
Qed.

Lemma get_raises (o : json) (k : string) (e : exn) :
  get o k = Raise e -> e = AttributeError.
Proof.
  destruct o; simpl; intros H; try discriminate; injection H as <-; reflexivity.
Qed.

Lemma get_default_raises (o : json) (k : string) (d : json) (e : exn) :
  get_default o k d = Raise e -> e = AttributeError.
Proof.
  destruct o; simpl; intros H; try discriminate; injection H as <-; reflexivity.
Qed.

Lemma iterate_raises (v : json) (e : exn) :
  iterate v = Raise e -> e = TypeError.
Proof.
  destruct v; simpl; intros H; try discriminate; injection H as <-; reflexivity.
Qed.

Lemma lazy_or_raises (m1 m2 : result json) (e : exn) :
  (m1 |or| m2) = Raise e -> m1 = Raise e \/ m2 = Raise e.
Proof.
  unfold lazy_or. intros H. apply bind_raise_inv in H.
  destruct H as [H | [a [_ H]]]; [left; exact H|].
  destruct (truthy a); [discriminate | right; exact H].
Qed.

(** The handler of [_iter_list_results] leaves exactly one way to fail:
    an [AttributeError], raised by [.get] on a value that is not a dict. *)
Lemma iter_list_results_raises (state : json) (e : exn) :
  _iter_list_results state = Raise e -> e = AttributeError.
Proof.
  unfold _iter_list_results, catch_key_type.
  match goal with
  | |- match ?m with _ => _ end = _ -> _ => destruct m as [raws|e'] eqn:Hm
  end; [discriminate|].
  assert (He : e' = KeyError \/ e' = TypeError \/ e' = AttributeError).
  { repeat
      match goal with
      | H : bind _ _ = Raise _ |- _ =>
          apply bind_raise_inv in H; destruct H as [H | [? [_ H]]]
      | H : getitem _ _ = Raise _ |- _ => apply getitem_raises in H
      | H : (_ |or| _) = Raise _ |- _ =>
          apply lazy_or_raises in H; destruct H as [H | H]
      | H : get _ _ = Raise _ |- _ => apply get_raises in H
      | H : get_default _ _ _ = Raise _ |- _ => apply get_default_raises in H
      | H : iterate _ = Raise _ |- _ => apply iterate_raises in H
      end; tauto. }
  destruct He as [-> | [-> | ->]]; intros H; try discriminate.
  injection H as <-. reflexivity.
Qed.

(** A state tree that lacks a key of the fixed path yields no result and
    no exception. *)
Lemma iter_list_results_missing_key (state : json) :
  (p <- getitem state "props" ;;
   props <- getitem p "pageProps" ;;
   search_state <-
     (get props "searchPageState" |or| get props "searchState") ;;
   cat1 <- getitem search_state "cat1" ;;
   search_results <- getitem cat1 "searchResults" ;;
   list_results <- get_default search_results "listResults" (JList []) ;;
   iterate list_results) = Raise KeyError ->
  _iter_list_results state = Ok [].
Proof.
  unfold _iter_list_results. intros ->. reflexivity.
Qed.



(** C4.  A state tree whose [pageProps] entry is a list makes
    [parse_search_results] raise [AttributeError]: the call
    [props.get] fails and the handler of [_iter_list_results] only
    catches [KeyError] and [TypeError]. *)
Theorem C4_wrong_type_escapes_as_exception (html : string) :
  _extract_json_state html =
    Ok (JDict [("props", JDict [("pageProps", JList [])])]) ->
  parse_search_results html = Raise AttributeError.
Proof.
  intros E. unfold parse_search_results. rewrite E. reflexivity.
Qed.

(* =================================================================== *)
(** ** Home-type filter *)

Lemma prefix_app (n h : string) :
  String.prefix n h = true <-> exists post, h = (n ++ post)%string.
Proof.
  revert h. induction n as [|c n IH]; intros h.
  - split; [intros _; exists h; reflexivity|].
    intros _. destruct h; reflexivity.
  - destruct h as [|d h]; simpl.
    + split; [discriminate | intros [post E]; discriminate].
    + destruct (ascii_dec c d) as [->|D].
      * rewrite IH. split; intros [post E]; exists post.
        -- rewrite E. reflexivity.
        -- injection E as E. exact E.
      * split; [discriminate|].
        intros [post E]. injection E as E1 E2. congruence.
Qed.

Lemma is_substring_nil (n : string) :
  is_substring n EmptyString = String.prefix n EmptyString.
Proof. simpl. destruct n; reflexivity. Qed.

Lemma is_substring_cons (n : string) (c : ascii) (h : string) :
  is_substring n (String c h) =
  if String.prefix n (String c h) then true else is_substring n h.
Proof. reflexivity. Qed.

Lemma is_substring_occurs (n h : string) :
  is_substring n h = true <-> occurs_in n h.
Proof.
  unfold occurs_in. induction h as [|c h IH].
  - rewrite is_substring_nil, prefix_app. split.
    + intros [post E]. exists EmptyString, post. exact E.
    + intros [pre [post E]]. destruct pre; [|discriminate].
      exists post. exact E.
  - rewrite is_substring_cons.
    destruct (String.prefix n (String c h)) eqn:P.
    + split; [|reflexivity]. intros _. apply prefix_app in P.
      destruct P as [post E]. exists EmptyString, post. exact E.
    + rewrite IH. split.
      * intros [pre [post E]]. exists (String c pre), post.
        rewrite E. reflexivity.
      * intros [pre [post E]]. destruct pre as [|d pre].
        -- simpl in E.
           assert (P' : String.prefix n (String c h) = true)
             by (apply prefix_app; exists post; exact E).
           congruence.
        -- injection E as _ E. exists pre, post. exact E.
Qed.

Lemma home_type_loop_filter (normalized : list string) (records filtered : list dict) :
  home_type_loop normalized filtered records =
  filtered
  ++ filter (fun r => existsb (fun ht => is_substring ht (unit_descriptor r))
                              normalized) records.
Proof.
  revert filtered. induction records as [|r records IH]; intros filtered; simpl.
  - rewrite app_nil_r. reflexivity.
  - fold (unit_descriptor r).
    destruct (existsb _ normalized).
    + rewrite IH, <- app_assoc. reflexivity.
    + apply IH.
Qed.

Lemma existsb_nodup_map (p : string -> bool) (hts : list string) :
  existsb p (nodup string_dec (map (str_lower rt) hts)) =
  existsb (fun ht => p (str_lower rt ht)) hts.
Proof.
  apply eq_true_iff_eq. rewrite !existsb_exists. split.
  - intros [x [Hx Px]]. apply nodup_In in Hx. apply in_map_iff in Hx.
    destruct Hx as [ht [<- Hht]]. exists ht. split; assumption.
  - intros [ht [Hht Pht]]. exists (str_lower rt ht). split; [|exact Pht].
    apply nodup_In. apply in_map. exact Hht.
Qed.

Lemma matches_home_type_spec (hts : list string) (r : dict) :
  matches_home_type hts r = true <->
  exists ht, In ht hts /\ occurs_in (str_lower rt ht) (unit_descriptor r).
Proof.
  unfold matches_home_type. rewrite existsb_exists.
  split; intros [ht [Hin H]]; exists ht; split; try exact Hin;
    apply is_substring_occurs; exact H.
Qed.

(** C10.  Once the page is fetched and parsed, [fetch_city_listings]
    with a non-empty [home_types] returns, in order, exactly the parsed
    records whose unit-type descriptor, as lowercase text, contains some
    lowercased home type; with [home_types] [None] or empty it returns
    every parsed record. *)
Theorem C10_home_type_filter
    (city listing_type : string) (home_types : option (list string))
    (page : Z) (language html : string) (records : list dict) :
  fetch_search_page (build_search_url city listing_type page language) language
    = Ok html ->
  parse_search_results html = Ok records ->
  fetch_city_listings city listing_type home_types page language =
    Ok (match home_types with
        | Some ((_ :: _) as hts) => filter (matches_home_type hts) records
        | _ => records
        end) /\
  (forall hts r,
      matches_home_type hts r = true <->
      exists ht, In ht hts /\ occurs_in (str_lower rt ht) (unit_descriptor r)).
Proof.
  intros Hfetch Hparse. split; [|apply matches_home_type_spec].
  unfold fetch_city_listings. rewrite Hfetch. cbn [bind].
  rewrite Hparse. cbn [bind].
  destruct records as [|r records].
  - destruct home_types as [[|ht hts]|]; reflexivity.
  - destruct home_types as [[|ht hts]|]; try reflexivity.
    rewrite home_type_loop_filter. cbn [app]. f_equal.
    apply filter_ext. intros r'. unfold matches_home_type.
    apply existsb_nodup_map.
Qed.

(* =================================================================== *)
(** ** CSV export *)

Lemma collect_loop_uniq (records : list dict) (seen out : list string) :
  collect_loop seen out records =
  out ++ uniq seen (concat (map dict_keys records)).
Proof.
  revert seen out. induction records as [|rec records IH]; intros seen out.
  - simpl. rewrite app_nil_r. reflexivity.
  - cbn [collect_loop map concat].
    rewrite first_seen_loop_uniq, IH, uniq_app, app_assoc. reflexivity.
Qed.

Lemma collect_fieldnames_uniq (records : list dict) :
  _collect_fieldnames records = uniq [] (concat (map dict_keys records)).
Proof. unfold _collect_fieldnames. apply collect_loop_uniq. Qed.

Lemma dict_lookup_set (d : dict) (k k' : string) (v : json) :
  dict_lookup (dict_set d k' v) k =
  if String.eqb k' k then Some v else dict_lookup d k.
Proof.
  induction d as [|[k0 v0] d IH]; simpl.
  - reflexivity.
  - destruct (String.eqb k0 k') eqn:E0; simpl.
    + apply String.eqb_eq in E0. subst k0.
      destruct (String.eqb k' k); reflexivity.
    + destruct (String.eqb k0 k) eqn:E1.
      * apply String.eqb_eq in E1. subst k0.
        rewrite String.eqb_sym, E0. reflexivity.
      * exact IH.
Qed.

Lemma dict_lookup_None (d : dict) (k : string) :
  ~ In k (dict_keys d) -> dict_lookup d k = None.
Proof.
  induction d as [|[k0 v0] d IH]; simpl; intros N; [reflexivity|].
  destruct (String.eqb k0 k) eqn:E.
  - apply String.eqb_eq in E. tauto.
  - apply IH. tauto.
Qed.

Lemma dict_lookup_Some_key (d : dict) (k : string) (v : json) :
  dict_lookup d k = Some v -> In k (dict_keys d).
Proof.
  induction d as [|[k0 v0] d IH]; simpl; [discriminate|].
  destruct (String.eqb k0 k) eqn:E.
  - apply String.eqb_eq in E. tauto.
  - intros H. right. apply IH. exact H.
Qed.

(** Looking a key up in the flattened form of a well-formed record. *)
Lemma flatten_loop_lookup (items flat : dict) (k : string) :
  dict_wf items ->
  dict_lookup (flatten_loop flat items) k =
  match dict_lookup items k with
  | Some v => Some (flat_value v)
  | None => dict_lookup flat k
  end.
Proof.
  unfold dict_wf. revert flat.
  induction items as [|[k1 v1] items IH]; intros flat W; simpl.
  - reflexivity.
  - simpl in W. inversion W as [|? ? Hnotin W']; subst.
    rewrite (IH _ W'), dict_lookup_set.
    destruct (String.eqb k1 k) eqn:E.
    + apply String.eqb_eq in E. subst k1.
      rewrite (dict_lookup_None items k Hnotin). reflexivity.
    + reflexivity.
Qed.

Lemma flatten_lookup (rec : dict) (k : string) :
  dict_wf rec ->
  dict_lookup (flatten rec) k = option_map flat_value (dict_lookup rec k).
Proof.
  intros W. unfold flatten. rewrite (flatten_loop_lookup rec [] k W).
  destruct (dict_lookup rec k); reflexivity.
Qed.

Lemma flatten_keys (rec : dict) (k : string) :
  dict_wf rec -> In k (dict_keys (flatten rec)) -> In k (dict_keys rec).
Proof.
  intros W Hk.
  destruct (dict_lookup (flatten rec) k) as [v|] eqn:E.
  - rewrite (flatten_lookup rec k W) in E.
    destruct (dict_lookup rec k) as [v'|] eqn:E'; [|discriminate].
    apply (dict_lookup_Some_key rec k v' E').
  - exfalso. clear W. revert E Hk. generalize (flatten rec).
    intros d. induction d as [|[k0 v0] d IH]; simpl; [tauto|].
    destruct (String.eqb k0 k) eqn:E0; [discriminate|].
    apply String.eqb_neq in E0. intros E [H|H]; [tauto | exact (IH E H)].
Qed.

(** The cell the writer prints for a flattened record is the text the
    specification describes. *)
Lemma csv_cell_flatten (rec : dict) (k : string) :
  dict_wf rec ->
  csv_cell (dict_get_default (flatten rec) k (JStr EmptyString)) = csv_text rec k.
Proof.
  intros W. unfold dict_get_default, csv_text.
  rewrite (flatten_lookup rec k W).
  destruct (dict_lookup rec k) as [[ | | | | | | ]|]; reflexivity.
Qed.

Lemma csv_writerow_cells (row : list json) :
  csv_writerow row = csv_line (map csv_cell row).
Proof. reflexivity. Qed.

Lemma dictwriter_row_ok (fieldnames : list string) (rowdict : dict) :
  (forall k, In k (dict_keys rowdict) -> In k fieldnames) ->
  dictwriter_writerow fieldnames rowdict =
  Ok (csv_line (map (fun key =>
                       csv_cell (dict_get_default rowdict key (JStr EmptyString)))
                    fieldnames)).
Proof.
  intros Hk. unfold dictwriter_writerow, dictwriter_row.
  assert (E : forallb (fun k => mem k fieldnames) (dict_keys rowdict) = true).
  { apply forallb_forall. intros k Hin. apply mem_In. apply Hk. exact Hin. }
  rewrite E. cbn [bind]. rewrite csv_writerow_cells, map_map. reflexivity.
Qed.

Lemma header_lookup (fieldnames : list string) (k : string) :
  In k fieldnames ->
  dict_lookup (map (fun k => (k, JStr k)) fieldnames) k = Some (JStr k).
Proof.
  induction fieldnames as [|k0 ks IH]; simpl; [tauto|].
  destruct (String.eqb k0 k) eqn:E.
  - apply String.eqb_eq in E. subst. reflexivity.
  - apply String.eqb_neq in E. intros [H|H]; [contradiction | exact (IH H)].
Qed.

Lemma writeheader_ok (fieldnames : list string) :
  dictwriter_writeheader fieldnames = Ok (csv_line fieldnames).
Proof.
  unfold dictwriter_writeheader. rewrite dictwriter_row_ok.
  - f_equal. f_equal.
    rewrite <- (map_id fieldnames) at 2. apply map_ext_in.
    intros k Hk. unfold dict_get_default.
    rewrite (header_lookup fieldnames k Hk). reflexivity.
  - intros k. unfold dict_keys. rewrite map_map. simpl. rewrite map_id. tauto.
Qed.

(** C9.  For a non-empty list of records, [export_to_csv]
    writes a header line made of the keys of all records, each once, in
    first-seen order, then one line per record whose cell for a column
    is the [|]-joined elements for a list value, the empty text for a
    null or a missing key, and the text of the value otherwise; on the
    specification's example the file is the line [a,b] followed by the
    line [1,x|y]. *)
Theorem C9_csv_header_and_rows (records : list dict) :
  records <> [] ->
  Forall dict_wf records ->
  let fieldnames := _collect_fieldnames records in
  first_seen_order (concat (map dict_keys records)) fieldnames /\
  export_to_csv records =
    Ok (csv_line fieldnames
        ++ String.concat EmptyString
             (map (fun rec => csv_line (map (csv_text rec) fieldnames)) records))%string /\
  export_to_csv csv_example =
    Ok ("a,b" ++ crlf ++ "1,x|y" ++ crlf)%string.
Proof.
  intros Hne Hwf fieldnames.
  assert (Hfs : first_seen_order (concat (map dict_keys records)) fieldnames).
  { unfold fieldnames. rewrite collect_fieldnames_uniq.
    apply uniq_first_seen_order. }
  split; [exact Hfs|]. split; [|reflexivity].
  destruct records as [|r0 rs]; [contradiction|].
  unfold export_to_csv. fold fieldnames.
  rewrite writeheader_ok. cbn [bind].
  rewrite (mapM_total _
             (fun rec => csv_line (map (csv_text rec) fieldnames))).
  - reflexivity.
  - intros rec Hin.
    assert (W : dict_wf rec).
    { rewrite Forall_forall in Hwf. apply Hwf. exact Hin. }
    rewrite dictwriter_row_ok.
    + f_equal. f_equal. apply map_ext. intros k.
      apply csv_cell_flatten. exact W.
    + intros k Hk. apply (flatten_keys rec k W) in Hk.
      destruct Hfs as [_ [Hiff _]]. apply Hiff.
      apply in_concat. exists (dict_keys rec). split; [|exact Hk].
      apply in_map. exact Hin.
Qed.

(* =================================================================== *)
(** ** JSON export *)

Lemma serialize_for_json_map (records : list dict) :
  _serialize_for_json records = map JDict records.
Proof.
  induction records as [|r rs IH]; simpl; [reflexivity|].
  rewrite IH. reflexivity.
Qed.

(** C8 (amended).  The JSON export writes an object whose [metadata]
    member is the metadata it was given, completed with [generatedAt],
    and whose [results] member lists the records in order; it does not
    compute a record count itself.  In the export stage of [run], which
    builds the metadata from the same record list, the [recordCount] of
    the [metadata] member equals the length of [results]. *)
Theorem C8_json_metadata_record_count
    (cities listing_types : list string) (fmt : string)
    (records : list dict) (metadata : option dict) :
  str_lower rt fmt = "json" ->
  export_records records fmt metadata =
    Ok (JsonDump (JDict
      [ ("metadata",
         JDict (dict_setdefault
                  (match metadata with Some m => m | None => [] end)
                  "generatedAt" (JStr (utcnow_iso rt))));
        ("results", JList (map JDict records)) ])) /\
  (fmt <> "csv" ->
   exists md results,
     run_export cities listing_types fmt records =
       Ok (JsonDump (JDict [("metadata", JDict md); ("results", JList results)])) /\
     dict_get md "recordCount" = JInt (Z.of_nat (length results))).
Proof.
  intros Hfmt.
  assert (E : forall md,
    export_records records fmt md =
    Ok (JsonDump (JDict
      [ ("metadata",
         JDict (dict_setdefault
                  (match md with Some m => m | None => [] end)
                  "generatedAt" (JStr (utcnow_iso rt))));
        ("results", JList (map JDict records)) ]))).
  { intros md. unfold export_records. rewrite Hfmt. cbn [String.eqb].
    unfold _export_json. rewrite serialize_for_json_map.
    destruct md as [[|p m]|]; reflexivity. }
  split; [apply E|].
  intros Hcsv. unfold run_export.
  apply String.eqb_neq in Hcsv. rewrite Hcsv, E.
  eexists. eexists. split; [reflexivity|].
  rewrite length_map. reflexivity.
Qed.

(* =================================================================== *)
(** * Further properties of the extractor *)
(* =================================================================== *)

(** ** Which exceptions normalization can raise *)

Ltac raise_cases :=
  repeat
    match goal with
    | H : Ok _ = Raise _ |- _ => discriminate H
    | H : bind _ _ = Raise _ |- _ =>
        apply bind_raise_inv in H; destruct H as [H | [? [_ H]]];
        cbv beta zeta in H
    | H : (_ |or| _) = Raise _ |- _ =>
        apply lazy_or_raises in H; destruct H as [H | H]
    | H : getitem _ _ = Raise _ |- _ => apply getitem_raises in H
    | H : get _ _ = Raise _ |- _ => apply get_raises in H
    | H : get_default _ _ _ = Raise _ |- _ => apply get_default_raises in H
    | H : iterate _ = Raise _ |- _ => apply iterate_raises in H
    end.

Lemma py_join_raises (sep : string) (parts : list json) (e : exn) :
  py_join sep parts = Raise e -> e = TypeError.
Proof.
  unfold py_join. destruct (all_strings parts); [discriminate|].
  intros H. injection H as <-. reflexivity.
Qed.

Lemma home_info_raises (raw : json) (e : exn) :
  home_info raw = Raise e -> e = AttributeError.
Proof. unfold home_info. intros H. raise_cases; assumption. Qed.

Lemma format_address_raises (raw : json) (e : exn) :
  _format_address raw = Raise e -> e = AttributeError \/ e = TypeError.
Proof.
  unfold _format_address. intros H. raise_cases; try (left; assumption).
  destruct (filter truthy _); [discriminate|].
  raise_cases. apply py_join_raises in H. right. exact H.
Qed.

Lemma photo_object_urls_raises (objs : list json) (acc : list string) (e : exn) :
  photo_object_urls acc objs = Raise e -> e = AttributeError.
Proof.
  revert acc. induction objs as [|p objs IH]; intros acc; simpl.
  - discriminate.
  - intros H. apply bind_raise_inv in H. destruct H as [H | [url [_ H]]].
    + apply get_raises in H. exact H.
    + destruct url; apply IH in H; exact H.
Qed.

Lemma extract_photos_raises (raw : json) (e : exn) :
  _extract_photos raw = Raise e -> e = AttributeError \/ e = TypeError.
Proof.
  unfold _extract_photos. intros H.
  destruct raw as [ | | | |s|l0|kv].
  1-4: simpl in H; injection H as <-; right; reflexivity.
  - simpl in H. destruct (is_substring "photoUrls" s);
      simpl in H; injection H as <-; tauto.
  - simpl in H. destruct (mem "photoUrls" (only_strings l0));
      simpl in H; injection H as <-; tauto.
  - cbn [contains bind] in H. rewrite top_photo_urls in H. cbn [bind] in H.
    apply bind_raise_inv in H. destruct H as [H | [hdp [_ H]]].
    + apply home_info_raises in H. left. exact H.
    + apply bind_raise_inv in H. destruct H as [H | [photos [_ H]]].
      * left. destruct hdp as [ | | | | | |h]; try discriminate.
        destruct (dict_get h "photos"); try discriminate.
        apply photo_object_urls_raises in H. exact H.
      * cbn [get bind] in H.
        destruct (first_seen_loop [] [] _) in H. discriminate.
Qed.

(** Normalizing a raw listing object can only fail with
    [AttributeError] (a [.get] on a value that is not a dict) or
    [TypeError] (an address component that is not a string in the join). *)
Lemma listing_of_raw_raises (raw : json) (e : exn) :
  listing_of_raw raw = Raise e -> e = AttributeError \/ e = TypeError.
Proof.
  unfold listing_of_raw. intros H.
  raise_cases;
    try (left; assumption);
    try (apply home_info_raises in H; left; exact H);
    try (apply format_address_raises in H; exact H);
    try (apply extract_photos_raises in H; exact H).
Qed.

Lemma mapM_raise_inv {A B : Type} (f : A -> result B) (xs : list A) (e : exn) :
  mapM f xs = Raise e -> exists x, In x xs /\ f x = Raise e.
Proof.
  induction xs as [|x xs IH]; simpl; [discriminate|].
  intros H. apply bind_raise_inv in H. destruct H as [H | [y [_ H]]].
  - exists x. split; [left; reflexivity | exact H].
  - apply bind_raise_inv in H. destruct H as [H | [ys [_ H]]]; [|discriminate].
    destruct (IH H) as [x' [Hin Hx']]. exists x'. split; [right|]; assumption.
Qed.

(** [json.loads] lets through a [ValueError] or a [RecursionError], and
    nothing else leaves [_extract_json_state]. *)
Lemma try_loads_raises (s : string) (e : exn) :
  try_loads s = Raise e ->
  (e = ValueError /\ json_loads rt s = LoadsValueError) \/
  (e = RecursionError /\ json_loads rt s = LoadsRecursionError).
Proof.
  unfold try_loads. destruct (json_loads rt s) eqn:E; intros H;
    try discriminate; injection H as <-; [left | right]; split; reflexivity.
Qed.

Lemma extract_json_state_raises (html : string) (e : exn) :
  _extract_json_state html = Raise e ->
  (e = ValueError \/ e = RecursionError) /\
  exists s, (json_loads rt s = LoadsValueError \/
             json_loads rt s = LoadsRecursionError) /\
            (script_string rt html = Some s \/
             exists candidate,
               re_search rt (soup_get_text rt html) = Some candidate /\
               s = substring 0 (balance_scan candidate 0 0) candidate).
Proof.
  unfold _extract_json_state. intros H.
  assert (Hl : forall s, try_loads s = Raise e ->
            (e = ValueError \/ e = RecursionError) /\
            (json_loads rt s = LoadsValueError \/
             json_loads rt s = LoadsRecursionError)).
  { intros s Hs. apply try_loads_raises in Hs.
    destruct Hs as [[-> Hs] | [-> Hs]]; split; auto. }
  apply bind_raise_inv in H. destruct H as [H | [primary [_ H]]].
  - destruct (script_string rt html) as [s|]; [|discriminate].
    destruct (negb (String.eqb s EmptyString)); [|discriminate].
    destruct (Hl s H) as [He Hs]. split; [exact He|].
    exists s. split; [exact Hs | left; reflexivity].
  - destruct primary as [state|]; [discriminate|].
    apply bind_raise_inv in H. destruct H as [H | [fallback [_ H]]].
    + destruct (re_search rt (soup_get_text rt html)) as [candidate|];
        [|discriminate].
      cbv zeta in H.
      destruct (negb (Nat.eqb (balance_scan candidate 0 0) 0)); [|discriminate].
      destruct (Hl _ H) as [He Hs]. split; [exact He|].
      eexists. split; [exact Hs|]. right. exists candidate.
      split; reflexivity.
    + destruct fallback; discriminate.
Qed.

Lemma parse_search_results_raises (html : string) (e : exn) :
  parse_search_results html = Raise e ->
  e = AttributeError \/ e = TypeError \/
  ((e = ValueError \/ e = RecursionError) /\ _extract_json_state html = Raise e).
Proof.
  unfold parse_search_results.
  assert (Hwalk : forall state,
    (raws <- _iter_list_results state ;; mapM listing_of_raw raws) = Raise e ->
    e = AttributeError \/ e = TypeError).
  { intros state H. apply bind_raise_inv in H. destruct H as [H | [raws [_ H]]].
    - left. apply (iter_list_results_raises state e H).
    - apply mapM_raise_inv in H. destruct H as [raw [_ H]].
      apply (listing_of_raw_raises raw e H). }
  intros H. apply bind_raise_inv in H. destruct H as [H | [state [_ H]]].
  - right. right. split; [|exact H].
    apply (proj1 (extract_json_state_raises html e H)).
  - assert (Hat : e = AttributeError \/ e = TypeError)
      by (destruct state; try discriminate; apply (Hwalk _ H)).
    destruct Hat as [-> | ->]; auto.
Qed.



(** X1.  The walk of the state tree returns a list or raises
    [AttributeError]: a [KeyError] or [TypeError] met on the way never
    leaves [_iter_list_results]. *)
Theorem X1_state_walk_returns_or_attribute_error (state : json) :
  (exists raws, _iter_list_results state = Ok raws) \/
  _iter_list_results state = Raise AttributeError.
Proof.
  destruct (_iter_list_results state) as [raws|e] eqn:E.
  - left. exists raws. reflexivity.
  - right. f_equal. apply (iter_list_results_raises state e E).
Qed.

(** ** The fields of a normalized record *)

Ltac bind_inv H :=
  repeat (apply bind_ok_inv in H;
          let v := fresh "v" in
          let Hv := fresh "Hv" in
          destruct H as [v [Hv H]]; cbv beta zeta in H).

Lemma listing_of_raw_to_dict (raw : json) (rec : dict) :
  listing_of_raw raw = Ok rec ->
  exists l : PropertyListing,
    rec = to_dict l /\
    is_str (zpid l) = true /\
    is_list (photoUrls l) = true /\
    is_bool (isFeaturedListing l) = true.
Proof.
  unfold listing_of_raw. intros H. bind_inv H.
  injection H as <-. eexists. split; [reflexivity|].
  repeat split; reflexivity.
Qed.

Lemma to_dict_keys (l : PropertyListing) : dict_keys (to_dict l) = listing_fields.
Proof. reflexivity. Qed.

(** X3.  Every record that [parse_search_results] returns has exactly
    the 22 fields of [PropertyListing], each once and in declaration
    order, whatever keys the raw object had; its [zpid] is a string, its
    [photoUrls] a list and its [isFeaturedListing] a truth value. *)
Theorem X3_record_has_the_fixed_fields (html : string) (records : list dict) :
  parse_search_results html = Ok records ->
  forall rec, In rec records ->
    dict_keys rec = listing_fields /\
    dict_wf rec /\
    is_str (dict_get rec "zpid") = true /\
    is_list (dict_get rec "photoUrls") = true /\
    is_bool (dict_get rec "isFeaturedListing") = true.
Proof.
  intros H rec Hin.
  assert (Hl : exists raw, listing_of_raw raw = Ok rec).
  { unfold parse_search_results in H.
    assert (Hm : forall raws recs,
      mapM listing_of_raw raws = Ok recs -> In rec recs ->
      exists raw, listing_of_raw raw = Ok rec).
    { induction raws as [|raw raws IH]; simpl; intros recs Hm Hr.
      - injection Hm as <-. contradiction.
      - apply bind_ok_inv in Hm. destruct Hm as [y [Hy Hm]].
        apply bind_ok_inv in Hm. destruct Hm as [ys [Hys Hm]].
        injection Hm as <-. destruct Hr as [<- | Hr].
        + exists raw. exact Hy.
        + apply (IH ys Hys Hr). }
    apply bind_ok_inv in H. destruct H as [state [_ H]].
    destruct state;
      try (injection H as <-; contradiction);
      apply bind_ok_inv in H; destruct H as [raws [_ H]];
      apply (Hm raws records H Hin). }
  destruct Hl as [raw Hraw].
  destruct (listing_of_raw_to_dict raw rec Hraw) as [l [-> [Hz [Hp Hf]]]].
  split; [apply to_dict_keys|].
  split.
  { unfold dict_wf. rewrite to_dict_keys.
    repeat constructor; simpl; intuition discriminate. }
  split; [exact Hz|]. split; [|exact Hf].
  change (dict_get (to_dict l) "photoUrls")
    with (py_or (photoUrls l) (JList [])).
  unfold py_or. destruct (truthy (photoUrls l)); [exact Hp | reflexivity].
Qed.


(** ** The brace scan of the fallback extraction *)

Lemma brace_depth_cons (c : ascii) (s : string) :
  brace_depth (String c s) = (brace_step c + brace_depth s)%Z.
Proof.
  unfold brace_depth, brace_step. simpl.
  destruct (Ascii.eqb c lbrace) eqn:El; destruct (Ascii.eqb c rbrace) eqn:Er;
    try lia.
  apply Ascii.eqb_eq in El, Er. subst c. discriminate Er.
Qed.

Lemma balance_scan_inv (s : string) :
  forall (i : nat) (bc : Z),
    (balance_scan s i bc = 0 /\
     forall m, 0 < m <= String.length s ->
       String.get (m - 1) s = Some rbrace ->
       (bc + brace_depth (substring 0 m s))%Z <> 0%Z)
    \/
    (exists k,
       balance_scan s i bc = i + k /\
       0 < k <= String.length s /\
       String.get (k - 1) s = Some rbrace /\
       (bc + brace_depth (substring 0 k s))%Z = 0%Z /\
       forall m, 0 < m < k ->
         String.get (m - 1) s = Some rbrace ->
         (bc + brace_depth (substring 0 m s))%Z <> 0%Z).
Proof.
  induction s as [|ch rest IH]; intros i bc.
  - left. split; [reflexivity|]. intros m [Hm1 Hm2]. simpl in Hm2. lia.
  - assert (Hstep : forall bc',
      bc' = (bc + brace_step ch)%Z ->
      (ch = rbrace -> bc' <> 0%Z) ->
      balance_scan (String ch rest) i bc = balance_scan rest (S i) bc' ->
      (balance_scan (String ch rest) i bc = 0 /\
       forall m, 0 < m <= String.length (String ch rest) ->
         String.get (m - 1) (String ch rest) = Some rbrace ->
         (bc + brace_depth (substring 0 m (String ch rest)))%Z <> 0%Z)
      \/
      (exists k,
         balance_scan (String ch rest) i bc = i + k /\
         0 < k <= String.length (String ch rest) /\
         String.get (k - 1) (String ch rest) = Some rbrace /\
         (bc + brace_depth (substring 0 k (String ch rest)))%Z = 0%Z /\
         forall m, 0 < m < k ->
           String.get (m - 1) (String ch rest) = Some rbrace ->
           (bc + brace_depth (substring 0 m (String ch rest)))%Z <> 0%Z)).
    { intros bc' Hbc Hfirst Hrec.
      assert (Hone : forall m, m = 1 ->
        String.get (m - 1) (String ch rest) = Some rbrace ->
        (bc + brace_depth (substring 0 m (String ch rest)))%Z <> 0%Z).
      { intros m -> Hg. simpl in Hg. injection Hg as ->.
        simpl substring. rewrite brace_depth_cons.
        assert (E0 : brace_depth (substring 0 0 rest) = 0%Z)
          by (destruct rest; reflexivity).
        rewrite E0. specialize (Hfirst eq_refl). lia. }
      assert (Hmore : forall m, 0 < m ->
        String.get (S m - 1) (String ch rest) = String.get (m - 1) rest /\
        (bc + brace_depth (substring 0 (S m) (String ch rest)))%Z
        = (bc' + brace_depth (substring 0 m rest))%Z).
      { intros m Hm. split.
        - destruct m as [|m]; [lia|]. simpl. rewrite Nat.sub_0_r. reflexivity.
        - simpl substring. rewrite brace_depth_cons. lia. }
      rewrite Hrec.
      destruct (IH (S i) bc') as [[E0 Hall] | [k [Ek [Hk [Hg [Hd Hmin]]]]]].
      - left. split; [exact E0|]. intros m [Hm1 Hm2] Hg.
        destruct m as [|[|m]]; [lia | apply (Hone 1 eq_refl Hg) |].
        destruct (Hmore (S m)) as [Eg Ed]; [lia|].
        rewrite Ed. apply Hall; [simpl in Hm2; lia|].
        rewrite <- Eg. exact Hg.
      - right. exists (S k). split; [lia|]. split; [simpl; lia|].
        destruct (Hmore k) as [Eg Ed]; [lia|].
        split; [rewrite Eg; exact Hg|]. split; [rewrite Ed; exact Hd|].
        intros m [Hm1 Hm2] Hgm.
        destruct m as [|[|m]]; [lia | apply (Hone 1 eq_refl Hgm) |].
        destruct (Hmore (S m)) as [Eg' Ed']; [lia|].
        rewrite Ed'. apply Hmin; [lia|]. rewrite <- Eg'. exact Hgm. }
    destruct (Ascii.eqb ch lbrace) eqn:El.
    + apply (Hstep (bc + 1)%Z).
      * unfold brace_step. rewrite El. reflexivity.
      * intros ->. discriminate El.
      * cbn [balance_scan]. rewrite El. reflexivity.
    + destruct (Ascii.eqb ch rbrace) eqn:Er.
      * destruct ((bc - 1 =? 0)%Z) eqn:Ez.
        -- apply Z.eqb_eq in Ez. apply Ascii.eqb_eq in Er. subst ch.
           right. exists 1. split.
           { cbn [balance_scan]. rewrite El, Ascii.eqb_refl.
             apply Z.eqb_eq in Ez. rewrite Ez. reflexivity. }
           split; [simpl; lia|].
           split; [reflexivity|]. split.
           ++ simpl substring. rewrite brace_depth_cons.
              assert (E0 : brace_depth (substring 0 0 rest) = 0%Z)
                by (destruct rest; reflexivity).
              rewrite E0. unfold brace_step. simpl. lia.
           ++ intros m Hm. lia.
        -- apply Z.eqb_neq in Ez. apply (Hstep (bc - 1)%Z).
           ++ unfold brace_step. rewrite El, Er. lia.
           ++ intros _. exact Ez.
           ++ cbn [balance_scan]. rewrite El, Er.
              apply Z.eqb_neq in Ez. rewrite Ez. reflexivity.
      * apply (Hstep bc).
        -- unfold brace_step. rewrite El, Er. lia.
        -- intros ->. rewrite Ascii.eqb_refl in Er. discriminate Er.
        -- cbn [balance_scan]. rewrite El, Er. reflexivity.
Qed.

(** X4.  The scan of the fallback extraction returns the length of the
    shortest prefix of the candidate that ends with a closing brace and
    has as many opening as closing braces, and returns 0 exactly when no
    prefix is such; so the text handed to [json.loads] never runs past
    the end of the candidate and always closes the braces it opens.
    Braces inside JSON strings are counted like any other. *)
Theorem X4_balance_scan_shortest_balanced_prefix (candidate : string) :
  let end_index := balance_scan candidate 0 0 in
  end_index <= String.length candidate /\
  (end_index <> 0 ->
     String.get (end_index - 1) candidate = Some rbrace /\
     brace_depth (substring 0 end_index candidate) = 0%Z) /\
  (forall m, 0 < m <= String.length candidate ->
     (end_index = 0 \/ m < end_index) ->
     String.get (m - 1) candidate = Some rbrace ->
     brace_depth (substring 0 m candidate) <> 0%Z).
Proof.
  intros end_index. unfold end_index.
  destruct (balance_scan_inv candidate 0 0%Z)
    as [[E0 Hall] | [k [Ek [Hk [Hg [Hd Hmin]]]]]].
  - rewrite E0. split; [lia|]. split; [intros N; contradiction|].
    intros m Hm _ Hgm. apply (Hall m Hm Hgm).
  - rewrite Ek. simpl. split; [lia|]. split.
    + intros _. split; [exact Hg | exact Hd].
    + intros m Hm [Hz | Hlt] Hgm; [lia|]. apply (Hmin m); [lia | exact Hgm].
Qed.


(** ** Search URLs *)

Lemma string_app_assoc (a b c : string) :
  ((a ++ b) ++ c)%string = (a ++ b ++ c)%string.
Proof. induction a as [|x a IH]; simpl; [reflexivity | rewrite IH; reflexivity]. Qed.

Lemma string_app_nil_r (a : string) : (a ++ EmptyString)%string = a.
Proof. induction a as [|x a IH]; simpl; [reflexivity | rewrite IH; reflexivity]. Qed.

Lemma remove_char_absent (c : ascii) (s : string) :
  count_char c (remove_char c s) = 0.
Proof.
  induction s as [|a s IH]; simpl; [reflexivity|].
  destruct (Ascii.eqb a c) eqn:E; [exact IH|].
  simpl. rewrite E, IH. reflexivity.
Qed.

Lemma replace_char_absent (c d : ascii) (s : string) :
  c <> d -> count_char c (replace_char c d s) = 0.
Proof.
  intros D. induction s as [|a s IH]; simpl; [reflexivity|].
  rewrite IH. destruct (Ascii.eqb a c) eqn:E.
  - apply Ascii.eqb_neq in D. rewrite Ascii.eqb_sym, D. reflexivity.
  - rewrite E. reflexivity.
Qed.

Lemma replace_char_keeps_absent (c d x : ascii) (s : string) :
  d <> x -> count_char x s = 0 -> count_char x (replace_char c d s) = 0.
Proof.
  intros D. induction s as [|a s IH]; simpl; [reflexivity|].
  destruct (Ascii.eqb a x) eqn:Ea; [discriminate|]. simpl. intros H.
  rewrite (IH H). destruct (Ascii.eqb a c).
  - apply Ascii.eqb_neq in D. rewrite D. reflexivity.
  - rewrite Ea. reflexivity.
Qed.

(** X5.  A search URL is the base URL, one of the three category paths,
    a city slug that holds no comma and no space, and [_rb/]; a page
    number is appended, as [<page>_p/], exactly when the page is greater
    than 1, so every page up to 1 has the URL of page 1. *)
Theorem X5_search_url_shape
    (city listing_type : string) (page : Z) (language : string) :
  exists category slug,
    In category ["for_rent"; "for_sale"; "recently_sold"] /\
    count_char comma slug = 0 /\
    count_char space slug = 0 /\
    build_search_url city listing_type 1 language =
      (BASE_URL ++ "/homes/" ++ category ++ "/" ++ slug ++ "_rb/")%string /\
    ((page <= 1)%Z ->
       build_search_url city listing_type page language =
       build_search_url city listing_type 1 language) /\
    ((1 < page)%Z ->
       build_search_url city listing_type page language =
       (build_search_url city listing_type 1 language
        ++ str_int page ++ "_p/")%string).
Proof.
  set (slug := replace_char space dash (remove_char comma (str_lower rt city))).
  assert (Hc : count_char comma slug = 0).
  { apply replace_char_keeps_absent; [discriminate|]. apply remove_char_absent. }
  assert (Hs : count_char space slug = 0).
  { apply replace_char_absent. discriminate. }
  assert (Hpage : forall path,
    ((page <= 1)%Z ->
       (if (page >? 1)%Z then (BASE_URL ++ path) ++ str_int page ++ "_p/"
        else BASE_URL ++ path)%string = (BASE_URL ++ path)%string) /\
    ((1 < page)%Z ->
       (if (page >? 1)%Z then (BASE_URL ++ path) ++ str_int page ++ "_p/"
        else BASE_URL ++ path)%string
       = ((BASE_URL ++ path) ++ str_int page ++ "_p/")%string)).
  { intros path. split; intros Hp.
    - destruct (page >? 1)%Z eqn:E; [|reflexivity].
      apply Z.gtb_lt in E. lia.
    - destruct (page >? 1)%Z eqn:E; [reflexivity|].
      rewrite Z.gtb_ltb in E. apply Z.ltb_ge in E. lia. }
  unfold build_search_url. fold slug. cbv zeta.
  change (1 >? 1)%Z with false. cbv iota.
  destruct (mem (str_lower rt listing_type) ["for_rent"; "for-rent"; "rent"]).
  { exists "for_rent", slug. split; [left; reflexivity|].
    split; [exact Hc|]. split; [exact Hs|]. split; [reflexivity|].
    split; [apply (proj1 (Hpage _)) | apply (proj2 (Hpage _))]. }
  destruct (mem (str_lower rt listing_type) ["for_sale"; "for-sale"; "sale"]).
  { exists "for_sale", slug. split; [right; left; reflexivity|].
    split; [exact Hc|]. split; [exact Hs|]. split; [reflexivity|].
    split; [apply (proj1 (Hpage _)) | apply (proj2 (Hpage _))]. }
  destruct (mem (str_lower rt listing_type) ["sold"; "recently_sold"; "recently-sold"]).
  { exists "recently_sold", slug. split; [right; right; left; reflexivity|].
    split; [exact Hc|]. split; [exact Hs|]. split; [reflexivity|].
    split; [apply (proj1 (Hpage _)) | apply (proj2 (Hpage _))]. }
  exists "for_rent", slug. split; [left; reflexivity|].
  split; [exact Hc|]. split; [exact Hs|]. split; [reflexivity|].
  split; [apply (proj1 (Hpage _)) | apply (proj2 (Hpage _))].
Qed.

(** ** Fetching a city page *)

Lemma fetch_city_listings_raises
    (city listing_type : string) (home_types : option (list string))
    (page : Z) (language : string) (e : exn) :
  fetch_city_listings city listing_type home_types page language = Raise e ->
  (e = ZillowClientError /\
   session_get rt (build_search_url city listing_type page language) language = None)
  \/ e = AttributeError \/ e = TypeError \/ e = ValueError \/ e = RecursionError.
Proof.
  unfold fetch_city_listings, fetch_search_page. intros H.
  destruct (session_get rt _ language) as [html|].
  - cbn [bind] in H. right.
    apply bind_raise_inv in H. destruct H as [H | [records [_ H]]].
    + destruct (parse_search_results_raises html e H)
        as [-> | [-> | [[-> | ->] _]]]; auto.
    + destruct records; [discriminate|].
      destruct home_types as [[|]|]; discriminate.
  - left. simpl in H. injection H as <-. split; reflexivity.
Qed.

(** X6.  [fetch_city_listings] raises [ZillowClientError] exactly when
    the HTTP request for the search URL fails; when the request succeeds
    it returns a list or fails with an exception of the parser
    ([AttributeError], [TypeError], or the [ValueError] or
    [RecursionError] of [json.loads]), which its callers do not catch as
    a client error. *)
Theorem X6_client_error_iff_request_fails
    (city listing_type : string) (home_types : option (list string))
    (page : Z) (language : string) :
  let url := build_search_url city listing_type page language in
  (fetch_city_listings city listing_type home_types page language
     = Raise ZillowClientError
   <-> session_get rt url language = None) /\
  (forall html, session_get rt url language = Some html ->
     (exists records,
        fetch_city_listings city listing_type home_types page language = Ok records) \/
     fetch_city_listings city listing_type home_types page language
       = Raise AttributeError \/
     fetch_city_listings city listing_type home_types page language
       = Raise TypeError \/
     fetch_city_listings city listing_type home_types page language
       = Raise ValueError \/
     fetch_city_listings city listing_type home_types page language
       = Raise RecursionError).
Proof.
  intros url. split.
  - split.
    + intros H. apply fetch_city_listings_raises in H.
      destruct H as [[_ H] | [H | [H | [H | H]]]];
        [exact H | discriminate | discriminate | discriminate | discriminate].
    + intros H. unfold fetch_city_listings, fetch_search_page.
      fold url. rewrite H. reflexivity.
  - intros html Hs.
    destruct (fetch_city_listings city listing_type home_types page language)
      as [records|e] eqn:E.
    + left. exists records. reflexivity.
    + right. apply fetch_city_listings_raises in E. fold url in E.
      destruct E as [[_ E] | [-> | [-> | [-> | ->]]]]; [congruence | | | |];
        auto.
Qed.

(** ** Home types *)

Lemma is_substring_empty (h : string) : is_substring EmptyString h = true.
Proof. destruct h; reflexivity. Qed.

Lemma fetch_city_listings_filter
    (city listing_type : string) (ht : string) (hts : list string)
    (page : Z) (language : string) :
  fetch_city_listings city listing_type (Some (ht :: hts)) page language =
  (html <- fetch_search_page (build_search_url city listing_type page language)
                             language ;;
   records <- parse_search_results html ;;
   Ok (filter (matches_home_type (ht :: hts)) records)).
Proof.
  unfold fetch_city_listings.
  destruct (fetch_search_page _ language) as [html|e]; [|reflexivity].
  cbn [bind]. destruct (parse_search_results html) as [records|e]; [|reflexivity].
  cbn [bind]. destruct records as [|r records]; [reflexivity|].
  rewrite home_type_loop_filter. cbn [app]. f_equal.
  apply filter_ext. intros r'. unfold matches_home_type.
  apply existsb_nodup_map.
Qed.

(** X7.  The home-type filter is case-insensitive and treats its
    argument as a set: two non-empty lists of home types with the same
    lowercased members select the same records, whatever their order,
    repetitions or letter case. *)
Theorem X7_home_types_compared_as_lowercase_set
    (city listing_type : string) (hts1 hts2 : list string)
    (page : Z) (language : string) :
  hts1 <> [] -> hts2 <> [] ->
  (forall x, In x (map (str_lower rt) hts1) <-> In x (map (str_lower rt) hts2)) ->
  fetch_city_listings city listing_type (Some hts1) page language =
  fetch_city_listings city listing_type (Some hts2) page language.
Proof.
  intros H1 H2 Hset.
  destruct hts1 as [|a hts1]; [contradiction|].
  destruct hts2 as [|b hts2]; [contradiction|].
  rewrite !fetch_city_listings_filter.
  destruct (fetch_search_page _ language) as [html|e]; [|reflexivity].
  cbn [bind]. destruct (parse_search_results html) as [records|e]; [|reflexivity].
  cbn [bind]. f_equal. apply filter_ext. intros r.
  unfold matches_home_type. apply eq_true_iff_eq.
  rewrite !existsb_exists.
  assert (Hside : forall l1 l2,
    (forall x, In x (map (str_lower rt) l1) -> In x (map (str_lower rt) l2)) ->
    (exists ht, In ht l1 /\ is_substring (str_lower rt ht) (unit_descriptor r) = true) ->
    exists ht, In ht l2 /\ is_substring (str_lower rt ht) (unit_descriptor r) = true).
  { intros l1 l2 Hincl [ht [Hin Hsub]].
    assert (Hl : In (str_lower rt ht) (map (str_lower rt) l2))
      by (apply Hincl; apply in_map; exact Hin).
    apply in_map_iff in Hl. destruct Hl as [ht' [E Hin']].
    exists ht'. split; [exact Hin' | rewrite E; exact Hsub]. }
  split; apply Hside; intros x Hx; apply Hset; exact Hx.
Qed.

(** X8.  A home type whose lowercase form is the empty string matches
    every record: with such a type in the list, [fetch_city_listings]
    returns every parsed record. *)
Theorem X8_empty_home_type_keeps_every_record
    (city listing_type : string) (hts : list string)
    (page : Z) (language html : string) (records : list dict) :
  In EmptyString (map (str_lower rt) hts) ->
  fetch_search_page (build_search_url city listing_type page language) language
    = Ok html ->
  parse_search_results html = Ok records ->
  fetch_city_listings city listing_type (Some hts) page language = Ok records.
Proof.
  intros Hin Hfetch Hparse.
  destruct hts as [|ht hts]; [contradiction|].
  rewrite fetch_city_listings_filter, Hfetch. cbn [bind].
  rewrite Hparse. cbn [bind]. f_equal.
  assert (Hall : forall r, matches_home_type (ht :: hts) r = true).
  { intros r. unfold matches_home_type. apply existsb_exists.
    apply in_map_iff in Hin. destruct Hin as [x [Ex Hx]].
    exists x. split; [exact Hx|]. rewrite Ex. apply is_substring_empty. }
  clear Hparse. induction records as [|r records IH]; [reflexivity|].
  cbn [filter]. rewrite Hall, IH. reflexivity.
Qed.


(** ** The fetch loop of [run] *)

Lemma query_records_ok
    (home_types : option (list string)) (language : string)
    (city listing_type : string) (page : Z) :
  (forall e, ~ query_aborts home_types language (city, listing_type, page) e) ->
  query_records city listing_type home_types page language =
  Ok (query_contribution home_types language (city, listing_type, page)).
Proof.
  unfold query_aborts, query_records, query_contribution. simpl. intros H.
  destruct (fetch_city_listings city listing_type home_types page language)
    as [records|e] eqn:E; [reflexivity|].
  destruct e; try reflexivity;
    exfalso; eapply H; (split; [reflexivity | discriminate]).
Qed.

Lemma query_records_raises
    (home_types : option (list string)) (language : string)
    (city listing_type : string) (page : Z) (e : exn) :
  query_records city listing_type home_types page language = Raise e ->
  query_aborts home_types language (city, listing_type, page) e.
Proof.
  unfold query_aborts, query_records. simpl.
  destruct (fetch_city_listings city listing_type home_types page language)
    as [records|e'] eqn:E; [discriminate|].
  destruct e'; intros H; try discriminate; injection H as <-;
    (split; [reflexivity | discriminate]).
Qed.

Lemma page_loop_ok
    (home_types : option (list string)) (language : string)
    (city listing_type : string) (pages : list Z) (all_records : list dict) :
  (forall page e, In page pages ->
     ~ query_aborts home_types language (city, listing_type, page) e) ->
  page_loop all_records city listing_type home_types language pages =
  Ok (all_records
      ++ flat_map (query_contribution home_types language)
           (map (fun page => (city, listing_type, page)) pages)).
Proof.
  revert all_records. induction pages as [|page pages IH]; intros acc H.
  - simpl. rewrite app_nil_r. reflexivity.
  - cbn [page_loop map flat_map].
    rewrite query_records_ok by (intros e; apply H; left; reflexivity).
    cbn [bind]. rewrite IH by (intros p e Hp; apply H; right; exact Hp).
    rewrite <- app_assoc. reflexivity.
Qed.

Lemma listing_type_loop_ok
    (home_types : option (list string)) (max_pages : Z) (language : string)
    (city : string) (listing_types : list string) (all_records : list dict) :
  (forall q e, In q (run_queries [city] listing_types max_pages) ->
     ~ query_aborts home_types language q e) ->
  listing_type_loop all_records city listing_types home_types max_pages language =
  Ok (all_records
      ++ flat_map (query_contribution home_types language)
           (run_queries [city] listing_types max_pages)).
Proof.
  unfold run_queries. cbn [flat_map]. rewrite app_nil_r.
  revert all_records.
  induction listing_types as [|lt lts IH]; intros acc H.
  - simpl. rewrite app_nil_r. reflexivity.
  - cbn [listing_type_loop flat_map] in *.
    rewrite page_loop_ok
      by (intros p e Hp; apply H; apply in_or_app; left; apply in_map; exact Hp).
    cbn [bind].
    rewrite IH by (intros q e Hq; apply H; apply in_or_app; right; exact Hq).
    rewrite flat_map_app, <- app_assoc. reflexivity.
Qed.

Lemma city_loop_ok
    (cities listing_types : list string) (home_types : option (list string))
    (max_pages : Z) (language : string) (all_records : list dict) :
  (forall q e, In q (run_queries cities listing_types max_pages) ->
     ~ query_aborts home_types language q e) ->
  city_loop all_records cities listing_types home_types max_pages language =
  Ok (all_records
      ++ flat_map (query_contribution home_types language)
           (run_queries cities listing_types max_pages)).
Proof.
  revert all_records. induction cities as [|city cities IH]; intros acc H.
  - simpl. rewrite app_nil_r. reflexivity.
  - assert (Esplit : run_queries (city :: cities) listing_types max_pages =
                     run_queries [city] listing_types max_pages
                     ++ run_queries cities listing_types max_pages).
    { unfold run_queries. cbn [flat_map]. rewrite app_nil_r. reflexivity. }
    cbn [city_loop]. rewrite listing_type_loop_ok.
    + cbn [bind]. rewrite IH.
      * rewrite Esplit, flat_map_app, <- app_assoc. reflexivity.
      * intros q e Hq. apply H. rewrite Esplit. apply in_or_app. right. exact Hq.
    + intros q e Hq. apply H. rewrite Esplit. apply in_or_app. left. exact Hq.
Qed.

Lemma page_loop_raises
    (home_types : option (list string)) (language : string)
    (city listing_type : string) (pages : list Z) (all_records : list dict)
    (e : exn) :
  page_loop all_records city listing_type home_types language pages = Raise e ->
  exists page, In page pages /\
    query_aborts home_types language (city, listing_type, page) e.
Proof.
  revert all_records. induction pages as [|page pages IH]; intros acc; simpl.
  - discriminate.
  - intros H. apply bind_raise_inv in H. destruct H as [H | [records [_ H]]].
    + exists page. split; [left; reflexivity|].
      apply query_records_raises. exact H.
    + destruct (IH _ H) as [p [Hp Hq]]. exists p. split; [right|]; assumption.
Qed.

Lemma listing_type_loop_raises
    (home_types : option (list string)) (max_pages : Z) (language : string)
    (city : string) (listing_types : list string) (all_records : list dict)
    (e : exn) :
  listing_type_loop all_records city listing_types home_types max_pages language
    = Raise e ->
  exists q, In q (run_queries [city] listing_types max_pages) /\
    query_aborts home_types language q e.
Proof.
  unfold run_queries. cbn [flat_map]. rewrite app_nil_r.
  revert all_records.
  induction listing_types as [|lt lts IH]; intros acc; cbn [listing_type_loop flat_map].
  - discriminate.
  - intros H. apply bind_raise_inv in H. destruct H as [H | [records [_ H]]].
    + apply page_loop_raises in H. destruct H as [p [Hp Hq]].
      exists (city, lt, p). split; [|exact Hq].
      apply in_or_app. left. apply in_map. exact Hp.
    + destruct (IH _ H) as [q [Hin Hq]]. exists q. split; [|exact Hq].
      apply in_or_app. right. exact Hin.
Qed.

(** X10.  The loops of [run] never end with a [ZillowClientError]: when
    they raise, one of the queries raised that same exception, and it is
    an exception of the parser ([AttributeError], [TypeError], or the
    [ValueError] or [RecursionError] of [json.loads]); the records
    collected before it are lost with it. *)
Theorem X10_fetch_loop_aborts_on_parser_errors
    (cities listing_types : list string) (home_types : option (list string))
    (max_pages : Z) (language : string) (all_records : list dict) (e : exn) :
  city_loop all_records cities listing_types home_types max_pages language
    = Raise e ->
  (e = AttributeError \/ e = TypeError \/ e = ValueError \/ e = RecursionError) /\
  exists q, In q (run_queries cities listing_types max_pages) /\
    fetch_city_listings (fst (fst q)) (snd (fst q)) home_types (snd q) language
      = Raise e.
Proof.
  intros H.
  assert (Hq : exists q, In q (run_queries cities listing_types max_pages) /\
                         query_aborts home_types language q e).
  { revert all_records H.
    induction cities as [|city cities IH]; intros acc; cbn [city_loop].
    - discriminate.
    - assert (Esplit : run_queries (city :: cities) listing_types max_pages =
                       run_queries [city] listing_types max_pages
                       ++ run_queries cities listing_types max_pages).
      { unfold run_queries. cbn [flat_map]. rewrite app_nil_r. reflexivity. }
      intros H. apply bind_raise_inv in H. destruct H as [H | [records [_ H]]].
      + apply listing_type_loop_raises in H. destruct H as [q [Hin Hq]].
        exists q. split; [|exact Hq]. rewrite Esplit.
        apply in_or_app. left. exact Hin.
      + destruct (IH _ H) as [q [Hin Hq]]. exists q. split; [|exact Hq].
        rewrite Esplit. apply in_or_app. right. exact Hin. }
  destruct Hq as [q [Hin [Hraise Hne]]].
  split; [|exists q; split; assumption].
  apply fetch_city_listings_raises in Hraise.
  destruct Hraise as [[-> _] | Hr]; [contradiction | exact Hr].
Qed.

(** X9.  When no query fails with an exception other than
    [ZillowClientError], the loops of [run], started with no record, end
    with the records of all queries, in city, then listing type, then
    page order; a query whose request failed adds nothing and does not
    stop the others. *)
Theorem X9_fetch_loop_collects_every_query
    (cities listing_types : list string) (home_types : option (list string))
    (max_pages : Z) (language : string) :
  (forall q e, In q (run_queries cities listing_types max_pages) ->
     ~ query_aborts home_types language q e) ->
  city_loop [] cities listing_types home_types max_pages language =
  Ok (flat_map (query_contribution home_types language)
        (run_queries cities listing_types max_pages)) /\
  (forall q, In q (run_queries cities listing_types max_pages) ->
     fetch_city_listings (fst (fst q)) (snd (fst q)) home_types (snd q) language
       = Raise ZillowClientError ->
     query_contribution home_types language q = []).
Proof.
  intros H. split.
  - rewrite (city_loop_ok cities listing_types home_types max_pages language [] H).
    reflexivity.
  - intros q _ E. unfold query_contribution. rewrite E. reflexivity.
Qed.

(** X11.  With no city, no listing type, or a page count below 1, the
    loops of [run] make no query at all and leave [all_records] as it
    was. *)
Theorem X11_fetch_loop_without_queries
    (cities listing_types : list string) (home_types : option (list string))
    (max_pages : Z) (language : string) (all_records : list dict) :
  cities = [] \/ listing_types = [] \/ (max_pages <= 0)%Z ->
  run_queries cities listing_types max_pages = [] /\
  city_loop all_records cities listing_types home_types max_pages language
    = Ok all_records.
Proof.
  intros H.
  assert (Hno : run_queries cities listing_types max_pages = []).
  { unfold run_queries, page_range. destruct H as [-> | [-> | Hp]].
    - reflexivity.
    - induction cities as [|c cs IH]; [reflexivity | exact IH].
    - replace (Z.to_nat max_pages) with 0 by lia. simpl.
      induction cities as [|c cs IH]; [reflexivity|].
      simpl. rewrite IH, app_nil_r.
      clear. induction listing_types as [|l ls IH]; [reflexivity | exact IH]. }
  split; [exact Hno|].
  rewrite city_loop_ok.
  - rewrite Hno. simpl. rewrite app_nil_r. reflexivity.
  - rewrite Hno. intros q e [].
Qed.


(* =================================================================== *)
(** * Further properties of the exporters *)
(* =================================================================== *)

(** ** The rows handed to the CSV writer *)

Lemma dict_set_keys (d : dict) (k k' : string) (v : json) :
  In k (dict_keys (dict_set d k' v)) -> k = k' \/ In k (dict_keys d).
Proof.
  induction d as [|[k0 v0] d IH]; simpl.
  - intros [E | []]. left. symmetry. exact E.
  - destruct (String.eqb k0 k') eqn:E0; simpl.
    + intros [E | H]; [right; left; exact E | right; right; exact H].
    + intros [E | H]; [right; left; exact E|].
      destruct (IH H) as [E | Hin]; [left; exact E | right; right; exact Hin].
Qed.

Lemma flatten_loop_keys (items flat : dict) (k : string) :
  In k (dict_keys (flatten_loop flat items)) ->
  In k (dict_keys flat) \/ In k (dict_keys items).
Proof.
  revert flat. induction items as [|[k1 v1] items IH]; intros flat; simpl.
  - intros H. left. exact H.
  - intros H. destruct (IH _ H) as [Hs | Hi].
    + apply dict_set_keys in Hs. destruct Hs as [-> | Hf];
        [right; left; reflexivity | left; exact Hf].
    + right. right. exact Hi.
Qed.

(** The text written for a non-empty list of records, with no assumption
    on the records. *)
Lemma export_to_csv_text (r0 : dict) (rs : list dict) :
  let records := r0 :: rs in
  let fieldnames := _collect_fieldnames records in
  export_to_csv records =
  Ok (csv_line fieldnames
      ++ String.concat EmptyString
           (map (fun rec =>
                   csv_writerow
                     (map (fun key =>
                             dict_get_default (flatten rec) key (JStr EmptyString))
                          fieldnames))
                records))%string.
Proof.
  intros records fieldnames. unfold export_to_csv. fold records. fold fieldnames.
  unfold records at 1. rewrite writeheader_ok. cbn [bind].
  rewrite (mapM_total _
    (fun rec =>
       csv_writerow
         (map (fun key => dict_get_default (flatten rec) key (JStr EmptyString))
              fieldnames))).
  - reflexivity.
  - intros rec Hin. rewrite dictwriter_row_ok.
    + rewrite csv_writerow_cells, map_map. reflexivity.
    + intros k Hk. unfold flatten in Hk.
      apply flatten_loop_keys in Hk. destruct Hk as [[] | Hk].
      unfold fieldnames. rewrite collect_fieldnames_uniq.
      apply uniq_In. split; [|intros []].
      apply in_concat. exists (dict_keys rec). split; [|exact Hk].
      apply in_map. exact Hin.
Qed.

Lemma flatten_keys_collected (records : list dict) (rec : dict) (k : string) :
  In rec records -> In k (dict_keys (flatten rec)) ->
  In k (_collect_fieldnames records).
Proof.
  intros Hin Hk. unfold flatten in Hk.
  apply flatten_loop_keys in Hk. destruct Hk as [[] | Hk].
  rewrite collect_fieldnames_uniq.
  apply uniq_In. split; [|intros []].
  apply in_concat. exists (dict_keys rec). split; [|exact Hk].
  apply in_map. exact Hin.
Qed.

(** X12.  [DictWriter] never rejects a row of [export_to_csv]: the
    columns collected from the records cover every key of every
    flattened record, whatever keys the records have, so its
    [ValueError] for a key outside the field names cannot occur.  The
    text handed to the file is empty for no record; otherwise it is one
    header line and one row per record, each row with as many cells as
    the header. *)
Theorem X12_csv_writer_accepts_every_row (records : list dict) :
  let fieldnames := _collect_fieldnames records in
  (forall rec, In rec records ->
     (forall k, In k (dict_keys (flatten rec)) -> In k fieldnames) /\
     exists row,
       dictwriter_row fieldnames (flatten rec) = Ok row /\
       length row = length fieldnames) /\
  exists rows : list (list json),
    export_to_csv records =
      Ok (match records with
          | [] => EmptyString
          | _ :: _ =>
              csv_line fieldnames
              ++ String.concat EmptyString (map csv_writerow rows)
          end)%string /\
    mapM (fun rec => dictwriter_row fieldnames (flatten rec)) records = Ok rows /\
    length rows = length records.
Proof.
  intros fieldnames.
  assert (Hrow : forall rec, In rec records ->
    dictwriter_row fieldnames (flatten rec) =
    Ok (map (fun key => dict_get_default (flatten rec) key (JStr EmptyString))
            fieldnames)).
  { intros rec Hin. unfold dictwriter_row.
    replace (forallb (fun k => mem k fieldnames) (dict_keys (flatten rec)))
      with true; [reflexivity|].
    symmetry. apply forallb_forall. intros k Hk. apply mem_In.
    apply (flatten_keys_collected records rec k Hin Hk). }
  split.
  - intros rec Hin. split.
    + intros k Hk. apply (flatten_keys_collected records rec k Hin Hk).
    + eexists. split; [apply (Hrow rec Hin) | apply length_map].
  - exists (map (fun rec =>
                   map (fun key =>
                          dict_get_default (flatten rec) key (JStr EmptyString))
                       fieldnames)
                records).
    split; [|split].
    + destruct records as [|r0 rs]; [reflexivity|].
      unfold fieldnames. rewrite export_to_csv_text, map_map. reflexivity.
    + apply mapM_total. exact Hrow.
    + apply length_map.
Qed.

(** ** CSV export of parsed records *)

Lemma parse_search_results_records (html : string) (records : list dict) (rec : dict) :
  parse_search_results html = Ok records -> In rec records ->
  exists raw, listing_of_raw raw = Ok rec.
Proof.
  intros H Hin. unfold parse_search_results in H.
  assert (Hm : forall raws recs,
    mapM listing_of_raw raws = Ok recs -> In rec recs ->
    exists raw, listing_of_raw raw = Ok rec).
  { induction raws as [|raw raws IH]; simpl; intros recs Hm Hr.
    - injection Hm as <-. contradiction.
    - apply bind_ok_inv in Hm. destruct Hm as [y [Hy Hm]].
      apply bind_ok_inv in Hm. destruct Hm as [ys [Hys Hm]].
      injection Hm as <-. destruct Hr as [<- | Hr].
      + exists raw. exact Hy.
      + apply (IH ys Hys Hr). }
  apply bind_ok_inv in H. destruct H as [state [_ H]].
  destruct state;
    try (injection H as <-; contradiction);
    apply bind_ok_inv in H; destruct H as [raws [_ H]];
    apply (Hm raws records H Hin).
Qed.

Lemma uniq_all_seen (xs seen : list string) :
  (forall x, In x xs -> In x seen) -> uniq seen xs = [].
Proof.
  induction xs as [|x xs IH]; simpl; intros H; [reflexivity|].
  assert (M : mem x seen = true) by (apply mem_In; apply H; left; reflexivity).
  rewrite M. apply IH. intros y Hy. apply H. right. exact Hy.
Qed.

Lemma uniq_NoDup_id (xs seen : list string) :
  NoDup xs -> (forall x, In x xs -> ~ In x seen) -> uniq seen xs = xs.
Proof.
  revert seen. induction xs as [|x xs IH]; intros seen Hnd Hs; [reflexivity|].
  simpl. inversion Hnd as [|? ? Hx Hnd']; subst.
  assert (M : mem x seen = false)
    by (apply mem_not_In; apply Hs; left; reflexivity).
  rewrite M. f_equal. apply IH; [exact Hnd'|].
  intros y Hy [E | Hin].
  - subst y. contradiction.
  - apply (Hs y); [right; exact Hy | exact Hin].
Qed.

Lemma collect_fieldnames_same_keys (ks : list string) (r0 : dict) (rs : list dict) :
  NoDup ks ->
  (forall rec, In rec (r0 :: rs) -> dict_keys rec = ks) ->
  _collect_fieldnames (r0 :: rs) = ks.
Proof.
  intros Hnd Hk. rewrite collect_fieldnames_uniq. cbn [map concat].
  rewrite uniq_app, (Hk r0 (or_introl eq_refl)).
  rewrite (uniq_NoDup_id ks [] Hnd) by (intros x _ []).
  rewrite uniq_all_seen; [apply app_nil_r|].
  intros x Hx. apply in_concat in Hx. destruct Hx as [l [Hl Hx]].
  apply in_map_iff in Hl. destruct Hl as [rec [<- Hrec]].
  rewrite (Hk rec (or_intror Hrec)) in Hx.
  apply in_or_app. left. apply in_rev in Hx. exact Hx.
Qed.

Lemma listing_fields_NoDup : NoDup listing_fields.
Proof. repeat constructor; simpl; intuition discriminate. Qed.

(** X13.  The CSV export of the records parsed from a page, when there
    is at least one, starts with the header line that names the 22
    fields of [PropertyListing] in declaration order: whatever the raw
    objects held, the columns of the file are fixed. *)
Theorem X13_csv_of_parsed_records_has_fixed_header
    (html : string) (records : list dict) :
  parse_search_results html = Ok records ->
  records <> [] ->
  _collect_fieldnames records = listing_fields /\
  exists body, export_to_csv records = Ok (csv_line listing_fields ++ body)%string.
Proof.
  intros H Hne. destruct records as [|r0 rs]; [contradiction|].
  assert (Hf : _collect_fieldnames (r0 :: rs) = listing_fields).
  { apply collect_fieldnames_same_keys; [apply listing_fields_NoDup|].
    intros rec Hin.
    destruct (parse_search_results_records html _ rec H Hin) as [raw Hraw].
    destruct (listing_of_raw_to_dict raw rec Hraw) as [l [-> _]].
    apply to_dict_keys. }
  split; [exact Hf|].
  eexists. rewrite export_to_csv_text. cbv zeta. rewrite Hf. reflexivity.
Qed.

(** ** Metadata of the JSON export *)

(** X15.  The JSON export keeps every entry of the metadata it is given
    and adds nothing but [generatedAt]: a [generatedAt] of the caller is
    never overwritten, and one is supplied only when the caller gave
    none. *)
Theorem X15_json_export_keeps_metadata
    (records : list dict) (fmt : string) (m : dict) :
  str_lower rt fmt = "json" ->
  exists md,
    export_records records fmt (Some m) =
      Ok (JsonDump (JDict [ ("metadata", JDict md);
                            ("results", JList (map JDict records)) ])) /\
    (forall k v, dict_lookup m k = Some v -> dict_lookup md k = Some v) /\
    (forall k, k <> "generatedAt" -> dict_lookup md k = dict_lookup m k) /\
    (dict_lookup m "generatedAt" = None ->
     dict_lookup md "generatedAt" = Some (JStr (utcnow_iso rt))).
Proof.
  intros Hfmt.
  exists (dict_setdefault m "generatedAt" (JStr (utcnow_iso rt))).
  split.
  { unfold export_records. rewrite Hfmt. cbn [String.eqb].
    unfold _export_json. rewrite serialize_for_json_map.
    destruct m; reflexivity. }
  unfold dict_setdefault, dict_mem.
  destruct (dict_lookup m "generatedAt") as [g|] eqn:Eg.
  - split; [intros k v H; exact H|]. split; [reflexivity|]. discriminate.
  - split; [|split].
    + intros k v H. rewrite dict_lookup_set.
      destruct (String.eqb "generatedAt" k) eqn:E; [|exact H].
      apply String.eqb_eq in E. subst k. congruence.
    + intros k Hk. rewrite dict_lookup_set.
      destruct (String.eqb "generatedAt" k) eqn:E; [|reflexivity].
      apply String.eqb_eq in E. congruence.
    + intros _. rewrite dict_lookup_set, String.eqb_refl. reflexivity.
Qed.

(** ** Markup escaping *)

Lemma replace_char_with_app (c : ascii) (r a b : string) :
  replace_char_with c r (a ++ b)%string
  = (replace_char_with c r a ++ replace_char_with c r b)%string.
Proof.
  induction a as [|x a IH]; simpl; [reflexivity|].
  destruct (Ascii.eqb x c); rewrite IH.
  - rewrite string_app_assoc. reflexivity.
  - reflexivity.
Qed.

Lemma escape_char_fixed (c : ascii) :
  replace_char_with apos "&#x27;"
    (replace_char_with dquote "&quot;"
       (replace_char_with gt_sign "&gt;"
          (replace_char_with lt_sign "&lt;"
             (replace_char_with amp "&amp;" (String c EmptyString)))))
  = escape_char c.
Proof.
  unfold escape_char. cbn [replace_char_with].
  destruct (Ascii.eqb c amp) eqn:Ea; [reflexivity|].
  cbn [replace_char_with].
  destruct (Ascii.eqb c lt_sign) eqn:El; [reflexivity|].
  cbn [replace_char_with].
  destruct (Ascii.eqb c gt_sign) eqn:Eg; [reflexivity|].
  cbn [replace_char_with].
  destruct (Ascii.eqb c dquote) eqn:Eq; [reflexivity|].
  cbn [replace_char_with].
  destruct (Ascii.eqb c apos) eqn:Ep; reflexivity.
Qed.

(** The five replacements in a row amount to escaping each character on
    its own. *)
Lemma html_escape_cons (c : ascii) (s : string) :
  html_escape (String c s) = (escape_char c ++ html_escape s)%string.
Proof.
  unfold html_escape.
  change (String c s) with (String c EmptyString ++ s)%string.
  rewrite !replace_char_with_app, escape_char_fixed. reflexivity.
Qed.

Lemma html_escape_app (a b : string) :
  html_escape (a ++ b)%string = (html_escape a ++ html_escape b)%string.
Proof.
  unfold html_escape. rewrite !replace_char_with_app. reflexivity.
Qed.

Lemma string_forallb_app (p : ascii -> bool) (a b : string) :
  string_forallb p (a ++ b)%string = string_forallb p a && string_forallb p b.
Proof.
  induction a as [|x a IH]; simpl; [reflexivity|].
  rewrite IH, andb_assoc. reflexivity.
Qed.

Lemma escape_char_markup_free (c : ascii) : markup_free (escape_char c) = true.
Proof.
  unfold escape_char, markup_free.
  destruct (Ascii.eqb c amp) eqn:Ea; [reflexivity|].
  destruct (Ascii.eqb c lt_sign) eqn:El; [reflexivity|].
  destruct (Ascii.eqb c gt_sign) eqn:Eg; [reflexivity|].
  destruct (Ascii.eqb c dquote) eqn:Eq; [reflexivity|].
  destruct (Ascii.eqb c apos) eqn:Ep; [reflexivity|].
  simpl. unfold is_markup. rewrite El, Eg, Eq, Ep. reflexivity.
Qed.

Lemma html_escape_markup_free (s : string) : markup_free (html_escape s) = true.
Proof.
  induction s as [|c s IH]; [reflexivity|].
  rewrite html_escape_cons. unfold markup_free in *.
  rewrite string_forallb_app, IH, andb_true_r.
  apply escape_char_markup_free.
Qed.

Lemma escape_char_not_empty (c : ascii) : escape_char c <> EmptyString.
Proof.
  unfold escape_char.
  repeat match goal with
         | |- context [if ?b then _ else _] => destruct b
         end; discriminate.
Qed.

(** Two characters whose escaped forms start two equal texts are the
    same character, and the rests are equal. *)
Lemma escape_char_prefix_free (a b : ascii) (s t : string) :
  (escape_char a ++ s)%string = (escape_char b ++ t)%string -> a = b /\ s = t.
Proof.
  unfold escape_char.
  destruct (Ascii.eqb a amp) eqn:Aa; destruct (Ascii.eqb b amp) eqn:Ba;
  [ apply Ascii.eqb_eq in Aa, Ba; subst; intros H; injection H as H; tauto | | | ].
  all: destruct (Ascii.eqb a lt_sign) eqn:Al;
       destruct (Ascii.eqb b lt_sign) eqn:Bl;
       destruct (Ascii.eqb a gt_sign) eqn:Ag;
       destruct (Ascii.eqb b gt_sign) eqn:Bg;
       destruct (Ascii.eqb a dquote) eqn:Aq;
       destruct (Ascii.eqb b dquote) eqn:Bq;
       destruct (Ascii.eqb a apos) eqn:Ap;
       destruct (Ascii.eqb b apos) eqn:Bp;
       repeat match goal with
              | H : Ascii.eqb _ _ = true |- _ => apply Ascii.eqb_eq in H; subst
              end;
       try discriminate;
       cbn [append]; intros H; injection H; intros; subst;
       try discriminate;
       try (split; reflexivity);
       try (repeat match goal with
                   | H : Ascii.eqb ?x ?x = false |- _ =>
                       rewrite Ascii.eqb_refl in H; discriminate H
                   end).
Qed.

(** X16.  Escaped text holds none of the characters [<], [>], the double
    quote and the apostrophe, so a value put in an element, an attribute
    or a CDATA section cannot close it; escaping loses nothing, two
    different texts never escape to the same text; and it distributes
    over concatenation. *)
Theorem X16_html_escape_is_safe_and_injective :
  (forall s, markup_free (html_escape s) = true) /\
  (forall s t, html_escape s = html_escape t -> s = t) /\
  (forall s t, html_escape (s ++ t)%string
               = (html_escape s ++ html_escape t)%string).
Proof.
  split; [apply html_escape_markup_free|]. split; [|apply html_escape_app].
  induction s as [|a s IH]; intros t H.
  - destruct t as [|b t]; [reflexivity|].
    rewrite html_escape_cons in H. exfalso.
    change (html_escape EmptyString) with EmptyString in H.
    destruct (escape_char b) eqn:E; [apply (escape_char_not_empty b E)|].
    discriminate H.
  - destruct t as [|b t].
    + rewrite html_escape_cons in H. exfalso.
      change (html_escape EmptyString) with EmptyString in H.
      destruct (escape_char a) eqn:E; [apply (escape_char_not_empty a E)|].
      discriminate H.
    + rewrite !html_escape_cons in H.
      apply escape_char_prefix_free in H. destruct H as [-> H].
      f_equal. apply IH. exact H.
Qed.


(** ** RSS items *)

Lemma string_length_app (a b : string) :
  String.length (a ++ b)%string = String.length a + String.length b.
Proof. induction a as [|x a IH]; simpl; [reflexivity | rewrite IH; reflexivity]. Qed.

Lemma escape_char_length (c : ascii) :
  1 <= String.length (escape_char c) /\
  (c = amp -> String.length (escape_char c) = 5).
Proof.
  unfold escape_char. split.
  - repeat match goal with
           | |- context [if ?b then _ else _] => destruct b
           end; simpl; lia.
  - intros ->. reflexivity.
Qed.

Lemma html_escape_length (s : string) :
  String.length s <= String.length (html_escape s) /\
  (count_char amp s <> 0 -> String.length s < String.length (html_escape s)).
Proof.
  induction s as [|c s [IH1 IH2]]; [split; [reflexivity | intros N; contradiction]|].
  rewrite html_escape_cons, string_length_app.
  destruct (escape_char_length c) as [H1 H5]. simpl. split; [lia|].
  destruct (Ascii.eqb c amp) eqn:E.
  - apply Ascii.eqb_eq in E. rewrite (H5 E). lia.
  - simpl. intros N. specialize (IH2 N). lia.
Qed.

Lemma py_or_str_empty (s : string) :
  py_str (py_or (JStr s) (JStr EmptyString)) = s.
Proof.
  unfold py_or. simpl. destruct (String.eqb s EmptyString) eqn:E; simpl.
  - apply String.eqb_eq in E. subst. reflexivity.
  - reflexivity.
Qed.

(** X17.  In an RSS item every interpolated text (link, status, address,
    identifier, price) is escaped and so holds no markup character.  The
    identifier is the escaped [zpid] when the record has a truthy one;
    otherwise it is the link text escaped once more, which differs from
    the link as soon as the link holds an ampersand. *)
Theorem X17_rss_item_texts_are_escaped (rec : dict) :
  (markup_free (rss_detail_url rec) = true /\
   markup_free (rss_status_text rec) = true /\
   markup_free (rss_address rec) = true /\
   markup_free (rss_guid rec) = true /\
   markup_free (rss_price rec) = true) /\
  (truthy (dict_get rec "zpid") = true ->
   rss_guid rec = html_escape (py_str (dict_get rec "zpid"))) /\
  (truthy (dict_get rec "zpid") = false ->
   rss_guid rec = html_escape (rss_detail_url rec) /\
   (count_char amp (rss_detail_url rec) <> 0 ->
    rss_guid rec <> rss_detail_url rec)).
Proof.
  split; [repeat split; apply html_escape_markup_free|].
  unfold rss_guid. split; intros T.
  - unfold py_or at 2. rewrite T. unfold py_or. rewrite T. reflexivity.
  - assert (Eg : py_str (py_or (py_or (dict_get rec "zpid")
                                      (JStr (rss_detail_url rec)))
                               (JStr EmptyString))
                 = rss_detail_url rec).
    { unfold py_or at 2. rewrite T. apply py_or_str_empty. }
    rewrite Eg. split; [reflexivity|]. intros Hamp E.
    destruct (html_escape_length (rss_detail_url rec)) as [_ Hlt].
    specialize (Hlt Hamp). rewrite E in Hlt. lia.
Qed.

Lemma string_rev_app (a b : string) :
  string_rev (a ++ b)%string = (string_rev b ++ string_rev a)%string.
Proof.
  induction a as [|x a IH]; simpl.
  - rewrite string_app_nil_r. reflexivity.
  - rewrite IH, string_app_assoc. reflexivity.
Qed.

Lemma string_rev_involutive (a : string) : string_rev (string_rev a) = a.
Proof.
  induction a as [|x a IH]; simpl; [reflexivity|].
  rewrite string_rev_app, IH. reflexivity.
Qed.

Lemma lstrip_blanks (b rest : string) (c : ascii) :
  string_forallb is_blank b = true -> is_blank c = false ->
  lstrip (b ++ String c rest)%string = String c rest.
Proof.
  intros Hb Hc. induction b as [|x b IH]; simpl.
  - rewrite Hc. reflexivity.
  - simpl in Hb. apply andb_true_iff in Hb. destruct Hb as [Hx Hb].
    rewrite Hx. apply IH. exact Hb.
Qed.

Lemma string_forallb_rev (p : ascii -> bool) (s : string) :
  string_forallb p (string_rev s) = string_forallb p s.
Proof.
  induction s as [|x s IH]; simpl; [reflexivity|].
  rewrite string_forallb_app, IH. simpl. rewrite andb_true_r. apply andb_comm.
Qed.

(** Blanks after a text that ends with a non-blank character are what
    [rstrip] removes. *)
Lemma rstrip_blanks (a b : string) (c : ascii) :
  string_forallb is_blank b = true -> is_blank c = false ->
  rstrip ((a ++ String c EmptyString) ++ b)%string
  = (a ++ String c EmptyString)%string.
Proof.
  intros Hb Hc. unfold rstrip.
  rewrite string_rev_app. rewrite (string_rev_app a). simpl.
  rewrite lstrip_blanks by (rewrite ?string_forallb_rev; assumption).
  change (String c (string_rev a))
    with (string_rev (String c EmptyString) ++ string_rev a)%string.
  rewrite <- string_rev_app. apply string_rev_involutive.
Qed.

(** X18.  The fragment kept for an RSS item is its template without the
    blanks around it: it starts with [<item>] and ends with [</item>],
    whatever the record holds, so the items of the channel follow each
    other with nothing in between. *)
Theorem X18_rss_item_is_stripped (now_rfc822 : string) (rec : dict) :
  exists body,
    rss_item now_rfc822 rec = ("<item>" ++ body ++ "</item>")%string /\
    rss_item_template now_rfc822 rec =
      (nl ++ "        " ++ rss_item now_rfc822 rec ++ nl ++ "        ")%string.
Proof.
  unfold rss_item, rss_item_template, strip.
  set (body :=
    (nl
     ++ "          <title>" ++ rss_status_text rec ++ " - " ++ rss_address rec
     ++ "</title>" ++ nl
     ++ "          <link>" ++ rss_detail_url rec ++ "</link>" ++ nl
     ++ "          <guid isPermaLink=" ++ quoted "false" ++ ">" ++ rss_guid rec
     ++ "</guid>" ++ nl
     ++ "          <pubDate>" ++ now_rfc822 ++ "</pubDate>" ++ nl
     ++ "          <description><![CDATA[" ++ nl
     ++ "            Status: " ++ rss_status_text rec ++ "<br/>" ++ nl
     ++ "            Address: " ++ rss_address rec ++ "<br/>" ++ nl
     ++ "            Price: " ++ rss_price rec ++ nl
     ++ "          ]]></description>" ++ nl
     ++ "        ")%string).
  exists body.
  assert (Etemplate :
    (nl ++ "        <item>" ++ nl
     ++ "          <title>" ++ rss_status_text rec ++ " - " ++ rss_address rec
     ++ "</title>" ++ nl
     ++ "          <link>" ++ rss_detail_url rec ++ "</link>" ++ nl
     ++ "          <guid isPermaLink=" ++ quoted "false" ++ ">" ++ rss_guid rec
     ++ "</guid>" ++ nl
     ++ "          <pubDate>" ++ now_rfc822 ++ "</pubDate>" ++ nl
     ++ "          <description><![CDATA[" ++ nl
     ++ "            Status: " ++ rss_status_text rec ++ "<br/>" ++ nl
     ++ "            Address: " ++ rss_address rec ++ "<br/>" ++ nl
     ++ "            Price: " ++ rss_price rec ++ nl
     ++ "          ]]></description>" ++ nl
     ++ "        </item>" ++ nl
     ++ "        ")%string
    = ((nl ++ "        ")
       ++ (("<item>" ++ body ++ "</item") ++ ">")
       ++ (nl ++ "        "))%string).
  { unfold body. cbn [append nl].
    repeat (rewrite ?string_app_assoc; cbn [append]; f_equal). }
  rewrite Etemplate.
  assert (Estrip :
    rstrip (lstrip ((nl ++ "        ")
                    ++ (("<item>" ++ body ++ "</item") ++ ">")
                    ++ nl ++ "        "))%string
    = (("<item>" ++ body ++ "</item") ++ ">")%string).
  { change ((nl ++ "        ")
            ++ (("<item>" ++ body ++ "</item") ++ ">") ++ nl ++ "        ")%string
      with ((nl ++ "        ")
            ++ String "<" ((("item>" ++ body ++ "</item") ++ ">")
                           ++ nl ++ "        "))%string.
    rewrite lstrip_blanks by reflexivity.
    change (String "<" ((("item>" ++ body ++ "</item") ++ ">") ++ nl ++ "        "))%string
      with ((("<item>" ++ body ++ "</item") ++ String ">" EmptyString)
            ++ (nl ++ "        "))%string.
    apply rstrip_blanks; reflexivity. }
  rewrite Estrip. split.
  - rewrite !string_app_assoc. reflexivity.
  - rewrite !string_app_assoc. reflexivity.
Qed.


(** ** HTML table rows *)

(** X19.  A row of the HTML table has exactly nine cells, one per fixed
    column, whatever keys the record has; a column the record lacks, or
    holds null for, gives an empty cell; the text of a plain cell and the
    address of a link cell are escaped, and only a truthy [detailUrl]
    gives a link cell. *)
Theorem X19_html_row_has_nine_escaped_cells (rec : dict) :
  length (html_cells rec) = 9 /\
  (forall col, dict_get rec col = JNull -> html_cell rec col = "<td></td>") /\
  (forall col,
     (exists inner,
        html_cell rec col = ("<td>" ++ inner ++ "</td>")%string /\
        markup_free inner = true)
     \/
     (col = "detailUrl" /\ truthy (dict_get rec col) = true /\
      exists href,
        html_cell rec col =
          ("<td><a href=" ++ quoted href ++ ">Link</a></td>")%string /\
        markup_free href = true)).
Proof.
  split; [reflexivity|]. split.
  - intros col E. unfold html_cell. rewrite E. simpl.
    rewrite andb_false_r. reflexivity.
  - intros col. unfold html_cell.
    destruct (String.eqb col "detailUrl" && truthy (dict_get rec col)) eqn:E.
    + right. apply andb_true_iff in E. destruct E as [Ec Et].
      apply String.eqb_eq in Ec. split; [exact Ec|]. split; [exact Et|].
      eexists. split; [reflexivity | apply html_escape_markup_free].
    + left. eexists. split; [reflexivity | apply html_escape_markup_free].
Qed.

(** ** XML tree *)

(** X20.  The XML tree has a [metadata] element with one child per
    metadata key, whose text is [str(value)], and a [results] element
    with one [listing] per record, in order; a listing has one child per
    key of its record, in order; a list value gives one [item] child per
    element and no text, any other value gives a text and no child, a
    null being the empty text. *)
Theorem X20_xml_tree_mirrors_records (records : list dict) (metadata : dict) :
  exists meta listings,
    _export_xml_tree records metadata =
      Element "zillowListings" None
        [ Element "metadata" None meta; Element "results" None listings ] /\
    map element_tag meta = dict_keys metadata /\
    map element_text meta = map (fun kv => Some (py_str (snd kv))) metadata /\
    length listings = length records /\
    forall i rec, nth_error records i = Some rec ->
      exists fields,
        nth_error listings i = Some (Element "listing" None fields) /\
        map element_tag fields = dict_keys rec /\
        forall j k v, nth_error rec j = Some (k, v) ->
          exists child,
            nth_error fields j = Some child /\
            match v with
            | JList items =>
                element_text child = None /\
                map element_tag (element_children child)
                  = map (fun _ => "item") items /\
                map element_text (element_children child)
                  = map (fun item => Some (str_or_empty item)) items
            | _ =>
                element_text child = Some (str_or_empty v) /\
                element_children child = []
            end.
Proof.
  exists (map (fun kv => Element (fst kv) (Some (py_str (snd kv))) []) metadata),
         (map xml_listing records).
  split; [reflexivity|].
  split; [unfold dict_keys; rewrite map_map; reflexivity|].
  split; [rewrite map_map; reflexivity|].
  split; [apply length_map|].
  intros i rec Hi. exists (map xml_field rec).
  split; [rewrite nth_error_map, Hi; reflexivity|].
  split.
  { unfold dict_keys. rewrite map_map. apply map_ext.
    intros [k v]. unfold xml_field. simpl. destruct v; reflexivity. }
  intros j k v Hj. exists (xml_field (k, v)).
  split; [rewrite nth_error_map, Hj; reflexivity|].
  unfold xml_field. simpl.
  destruct v; try (split; reflexivity).
  simpl. split; [reflexivity|]. rewrite !map_map. split; reflexivity.
Qed.

(** ** When the address join fails *)

Lemma all_strings_filter_truthy_none (l : list json) :
  forallb falsy_or_str l = false ->
  filter truthy l <> [] /\ all_strings (filter truthy l) = None.
Proof.
  induction l as [|v l IH]; simpl; [discriminate|].
  unfold falsy_or_str at 1.
  destruct (truthy v) eqn:T; simpl.
  - destruct v; simpl; intros H; try (split; [discriminate | reflexivity]).
    destruct (IH H) as [_ E]. rewrite E. split; [discriminate | reflexivity].
  - exact IH.
Qed.

(** X21.  For a raw object whose [address] entry is a dict or falsy,
    [_format_address] succeeds when every address component that
    resolves to a truthy value is a string, and raises [TypeError] as
    soon as one is not (a numeric zip code, for instance): the join
    accepts strings only. *)
Theorem X21_address_fails_iff_truthy_component_not_string (kv : dict) :
  falsy_or_dict (dict_get kv "address") = true ->
  let components :=
    [ or_chain (candidate_values (JDict kv) FaddressStreet);
      or_chain (candidate_values (JDict kv) FaddressCity);
      or_chain (candidate_values (JDict kv) FaddressState);
      or_chain (candidate_values (JDict kv) FaddressZipcode) ] in
  (forallb falsy_or_str components = true ->
     exists info, _format_address (JDict kv) = Ok info) /\
  (forallb falsy_or_str components = false ->
     _format_address (JDict kv) = Raise TypeError).
Proof.
  intros Ha components. split.
  - intros H. apply (format_address_total kv Ha H).
  - intros H. destruct (all_strings_filter_truthy_none _ H) as [Hne Enone].
    destruct (falsy_or_dict_or _ Ha) as [d [Ed Hd]].
    unfold _format_address. cbn [get bind]. rewrite Ed. cbn [get].
    rewrite !lazy_or_ok. cbn [bind]. rewrite !Hd.
    change (filter truthy
              [ py_or (path_get (dict_get kv "address") ["streetAddress"])
                      (dict_get kv "addressStreet");
                py_or (path_get (dict_get kv "address") ["city"])
                      (dict_get kv "addressCity");
                py_or (path_get (dict_get kv "address") ["state"])
                      (dict_get kv "addressState");
                py_or (path_get (dict_get kv "address") ["zipcode"])
                      (dict_get kv "addressZipcode") ])
      with (filter truthy components).
    unfold py_join.
    destruct (filter truthy components) as [|p ps]; [contradiction|].
    rewrite Enone. reflexivity.
Qed.


(** ** States that lack the result path *)

(** X25.  A page whose state is not a dict, has no dict under [props],
    has no [pageProps] in it, or has a dict [pageProps] in which neither
    [searchPageState] nor [searchState] is truthy, gives the empty list:
    each of these ends the walk with a [KeyError] or a [TypeError], which
    [_iter_list_results] absorbs (a [pageProps] that is present and not a
    dict is the case that raises instead). *)
Theorem X25_state_without_result_path_gives_no_record
    (html : string) (state : json) :
  _extract_json_state html = Ok state ->
  (is_dict state = false -> parse_search_results html = Ok []) /\
  (forall kv, state = JDict kv -> is_dict (dict_get kv "props") = false ->
     parse_search_results html = Ok []) /\
  (forall kv p, state = JDict kv -> dict_get kv "props" = JDict p ->
     dict_lookup p "pageProps" = None ->
     parse_search_results html = Ok []) /\
  (forall kv p pp, state = JDict kv -> dict_get kv "props" = JDict p ->
     dict_lookup p "pageProps" = Some (JDict pp) ->
     truthy (dict_get pp "searchPageState") = false ->
     truthy (dict_get pp "searchState") = false ->
     parse_search_results html = Ok []).
Proof.
  intros Es. unfold parse_search_results. rewrite Es. cbn [bind].
  split; [|split; [|split]].
  - destruct state; try reflexivity. discriminate.
  - intros kv -> Hp. unfold _iter_list_results, dict_get, dict_get_default in *.
    cbn [getitem]. destruct (dict_lookup kv "props") as [v|]; [|reflexivity].
    cbn [bind]. destruct v; try reflexivity. discriminate.
  - intros kv p -> Hp Hpp.
    unfold _iter_list_results, dict_get, dict_get_default in *.
    cbn [getitem]. destruct (dict_lookup kv "props") as [v|]; [|discriminate].
    subst v. cbn [bind getitem]. rewrite Hpp. reflexivity.
  - intros kv p pp -> Hp Hpp T1 T2.
    unfold _iter_list_results. unfold dict_get, dict_get_default in Hp.
    cbn [getitem]. destruct (dict_lookup kv "props") as [v|]; [|discriminate].
    subst v. cbn [bind getitem]. rewrite Hpp. cbn [bind get].
    unfold lazy_or. cbn [bind]. rewrite T1.
    destruct (dict_get pp "searchState") as [ | b | z | f | s | l | d];
      try reflexivity.
    destruct d; [reflexivity | discriminate].
Qed.


End Runtime.

(* ===================================================================== *)
(** * Geo utilities: properties *)
(* ===================================================================== *)

Section GeoProperties.

Import SpecFloat FloatOps FloatAxioms.
Local Open Scope float_scope.

(** ** Facts on binary64 arithmetic *)

Lemma binary_round_aux_negb (s : bool) (m e : Z) (l : location) :
  binary_round_aux prec emax (negb s) m e l
  = SFopp (binary_round_aux prec emax s m e l).
Proof.
  unfold binary_round_aux.
  destruct (shr_fexp prec emax m e l) as [mrs' e'].
  destruct (shr_fexp prec emax _ e' loc_Exact) as [mrs'' e''].
  destruct (shr_m mrs''); try reflexivity.
  destruct (Z.leb e'' (Z.sub emax prec)); reflexivity.
Qed.

Lemma xorb_negb_l (a b : bool) : xorb (negb a) b = negb (xorb a b).
Proof. destruct a, b; reflexivity. Qed.

Lemma SFmul_opp_l (x y : spec_float) :
  SFmul prec emax (SFopp x) y = SFopp (SFmul prec emax x y).
Proof.
  destruct x as [sx|sx| |sx mx ex], y as [sy|sy| |sy my ey]; simpl;
    rewrite ?xorb_negb_l; try reflexivity.
  apply binary_round_aux_negb.
Qed.

Lemma SFdiv_opp_l (x y : spec_float) :
  SFdiv prec emax (SFopp x) y = SFopp (SFdiv prec emax x y).
Proof.
  destruct x as [sx|sx| |sx mx ex], y as [sy|sy| |sy my ey]; simpl;
    rewrite ?xorb_negb_l; try reflexivity.
  destruct (SFdiv_core_binary prec emax (Z.pos mx) ex (Z.pos my) ey) as [[mz ez] lz].
  apply binary_round_aux_negb.
Qed.

Lemma SFmul_comm (x y : spec_float) :
  SFmul prec emax x y = SFmul prec emax y x.
Proof.
  destruct x as [sx|sx| |sx mx ex], y as [sy|sy| |sy my ey]; simpl;
    rewrite ?(xorb_comm sx sy); try reflexivity.
  rewrite (Pos.mul_comm mx my), (Z.add_comm ex ey). reflexivity.
Qed.

Lemma mul_opp_l (x y : float) : (- x) * y = - (x * y).
Proof.
  apply Prim2SF_inj. rewrite mul_spec, !opp_spec, mul_spec. apply SFmul_opp_l.
Qed.

Lemma div_opp_l (x y : float) : (- x) / y = - (x / y).
Proof.
  apply Prim2SF_inj. rewrite div_spec, !opp_spec, div_spec. apply SFdiv_opp_l.
Qed.

Lemma mul_comm (x y : float) : x * y = y * x.
Proof. apply Prim2SF_inj. rewrite !mul_spec. apply SFmul_comm. Qed.

Lemma binary_normalize_opp (m e : Z) :
  m <> 0%Z ->
  binary_normalize prec emax (- m) e false
  = SFopp (binary_normalize prec emax m e false).
Proof.
  destruct m as [|p|p]; intros H; [contradiction| |]; simpl.
  - unfold binary_round.
    destruct (shl_align p e _) as [mz ez]. apply (binary_round_aux_negb false).
  - unfold binary_round.
    destruct (shl_align p e _) as [mz ez].
    rewrite (binary_round_aux_negb false).
    destruct (binary_round_aux prec emax false (Z.pos mz) ez loc_Exact)
      as [[]|[]| |[] ? ?]; reflexivity.
Qed.

(** [x - y] is the opposite of [y - x], except that both are [+0] when
    the exact difference is zero. *)
Lemma SFsub_swap (x y : spec_float) :
  SFsub prec emax x y = SFopp (SFsub prec emax y x) \/
  (SFsub prec emax x y = S754_zero false /\ SFsub prec emax y x = S754_zero false).
Proof.
  destruct x as [sx|sx| |sx mx ex], y as [sy|sy| |sy my ey];
    try (left; reflexivity);
    try (destruct sx, sy; simpl; auto; fail);
    try (destruct sx; simpl; auto; fail);
    try (destruct sy; simpl; auto; fail).
  cbn [SFsub]. cbv zeta.
  rewrite (Z.min_comm ey ex).
  set (a := cond_Zopp sx (Z.pos (fst (shl_align mx ex (Z.min ex ey))))).
  set (b := cond_Zopp sy (Z.pos (fst (shl_align my ey (Z.min ex ey))))).
  destruct (Z.eq_dec (b - a) 0) as [E|N].
  - right. rewrite E. replace (a - b)%Z with 0%Z by lia. split; reflexivity.
  - left. replace (a - b)%Z with (- (b - a))%Z by lia.
    apply binary_normalize_opp. exact N.
Qed.

Lemma sub_swap (x y : float) :
  x - y = - (y - x) \/ x - y = y - x.
Proof.
  destruct (SFsub_swap (Prim2SF x) (Prim2SF y)) as [H | [H1 H2]].
  - left. apply Prim2SF_inj. rewrite opp_spec, !sub_spec. exact H.
  - right. apply Prim2SF_inj. rewrite !sub_spec.
    unfold SF64sub. rewrite H1, H2. reflexivity.
Qed.


Lemma SFadd_zero_l (x : spec_float) :
  x <> S754_zero true ->
  SFadd prec emax (S754_zero false) x = x.
Proof.
  destruct x as [[]|[]| |sx mx ex]; intros H; try reflexivity.
  contradiction H. reflexivity.
Qed.

Lemma add_zero_l (x : float) : x <> neg_zero -> 0 + x = x.
Proof.
  intros H. apply Prim2SF_inj. rewrite add_spec.
  change (Prim2SF 0) with (S754_zero false).
  apply SFadd_zero_l. intros E. apply H.
  apply Prim2SF_inj. rewrite E. reflexivity.
Qed.

Lemma add_zero_neg_zero : 0 + neg_zero = 0.
Proof. reflexivity. Qed.

Lemma div_eucl_div_mod (a b : Z) : Z.div_eucl a b = (Z.div a b, Z.modulo a b).
Proof. unfold Z.div, Z.modulo. destruct (Z.div_eucl a b). reflexivity. Qed.

Lemma SFdiv_one (s : bool) (m : positive) (e : Z) :
  bounded prec emax m e = true ->
  SFdiv prec emax (S754_finite s m e)
        (S754_finite false 4503599627370496 (-52))
  = S754_finite s m e.
Proof.
  unfold bounded, canonical_mantissa. intros H.
  apply andb_true_iff in H. destruct H as [Hc He].
  apply Z.eqb_eq in Hc. apply Z.leb_le in He.
  set (d := Z.pos (digits2_pos m)) in *.
  assert (Hd : (0 < d)%Z) by (unfold d; lia).
  unfold fexp, emin in Hc.
  change (3 - emax - prec)%Z with (-1074)%Z in Hc.
  change prec with 53%Z in *. change emax with 1024%Z in *.
  cbn [SFdiv]. rewrite xorb_false_r.
  unfold SFdiv_core_binary.
  change (Zdigits2 (Z.pos m)) with d.
  change (Zdigits2 (Z.pos 4503599627370496)) with 53%Z.
  unfold fexp, emin.
  change (3 - 1024 - 53)%Z with (-1074)%Z.
  replace (d + e - (53 + -52))%Z with (d + e - 1)%Z by lia.
  replace (e - -52)%Z with (e + 52)%Z by lia.
  destruct (Z_lt_le_dec (d + e - 1 - 53) (-1074)) as [Hsub | Hnorm].
  - (* the quotient keeps the exponent *)
    assert (Ee : e = (-1074)%Z) by lia.
    replace (Z.max (d + e - 1 - 53) (-1074)) with (-1074)%Z by lia.
    replace (Z.min (-1074) (e + 52)) with (-1074)%Z by lia.
    replace (e + 52 - -1074)%Z with 52%Z by lia.
    rewrite div_eucl_div_mod.
    rewrite Z.shiftl_mul_pow2 by lia.
    change (2 ^ 52)%Z with 4503599627370496%Z.
    rewrite Z.div_mul by lia. rewrite Z.mod_mul by lia.
    change (new_location 4503599627370496 0) with loc_Exact.
    unfold binary_round_aux, shr_fexp.
    change (Zdigits2 (Z.pos m)) with d.
    unfold fexp, emin. change (3 - 1024 - 53)%Z with (-1074)%Z.
    replace (Z.max (d + -1074 - 53) (-1074) - -1074)%Z with 0%Z by lia.
    cbn [shr shr_record_of_loc shr_m loc_of_shr_record round_nearest_even].
    change (Zdigits2 (Z.pos m)) with d.
    replace (Z.max (d + -1074 - 53) (-1074) - -1074)%Z with 0%Z by lia.
    cbn [shr shr_m].
    replace (Z.leb (-1074) (1024 - 53)) with true by reflexivity.
    rewrite Ee. reflexivity.
  - (* the quotient has one more bit, which the rounding shifts out *)
    assert (Ed : d = 53%Z) by lia.
    replace (Z.max (d + e - 1 - 53) (-1074)) with (e - 1)%Z by lia.
    replace (Z.min (e - 1) (e + 52)) with (e - 1)%Z by lia.
    replace (e + 52 - (e - 1))%Z with 53%Z by lia.
    rewrite div_eucl_div_mod.
    rewrite Z.shiftl_mul_pow2 by lia.
    change (2 ^ 53)%Z with (2 * 4503599627370496)%Z.
    rewrite Z.mul_assoc.
    rewrite Z.div_mul by lia. rewrite Z.mod_mul by lia.
    change (new_location 4503599627370496 0) with loc_Exact.
    replace (Z.pos m * 2)%Z with (Z.pos m~0) by lia.
    unfold binary_round_aux, shr_fexp.
    replace (Zdigits2 (Z.pos m~0)) with (d + 1)%Z
      by (unfold d; cbn [Zdigits2 digits2_pos]; lia).
    unfold fexp, emin. change (3 - 1024 - 53)%Z with (-1074)%Z.
    replace (Z.max (d + 1 + (e - 1) - 53) (-1074) - (e - 1))%Z with 1%Z by lia.
    cbn [shr shr_record_of_loc iter_pos shr_1 orb shr_m loc_of_shr_record
         round_nearest_even].
    change (Zdigits2 (Z.pos m)) with d.
    replace (Z.max (d + (e - 1 + 1) - 53) (-1074) - (e - 1 + 1))%Z with 0%Z by lia.
    cbn [shr shr_m].
    replace (e - 1 + 1)%Z with e by lia.
    replace (Z.leb e (1024 - 53)) with true by (symmetry; apply Z.leb_le; lia).
    reflexivity.
Qed.

Lemma div_one (x : float) : x / 1 = x.
Proof.
  apply Prim2SF_inj. rewrite div_spec.
  change (Prim2SF 1) with (S754_finite false 4503599627370496 (-52)).
  pose proof (Prim2SF_valid x) as Hv.
  destruct (Prim2SF x) as [[]|[]| |s m e]; try reflexivity.
  apply SFdiv_one. exact Hv.
Qed.


(** *** Tests on a float and its opposite *)

Lemma opp_involutive (x : float) : - (- x) = x.
Proof.
  apply Prim2SF_inj. rewrite !opp_spec.
  destruct (Prim2SF x) as [[]|[]| |[] ? ?]; reflexivity.
Qed.

Lemma abs_opp (x : float) : abs (- x) = abs x.
Proof.
  apply Prim2SF_inj. rewrite !abs_spec, opp_spec.
  destruct (Prim2SF x); reflexivity.
Qed.

Lemma SFcompare_refl_finite (s : bool) (m : positive) (e : Z) :
  SFcompare (S754_finite s m e) (S754_finite s m e) = Some Eq.
Proof.
  simpl. rewrite Z.compare_refl, Pos.compare_cont_refl. destruct s; reflexivity.
Qed.

Lemma is_nan_spec (x : float) :
  is_nan x = match Prim2SF x with S754_nan => true | _ => false end.
Proof.
  unfold is_nan. rewrite eqb_spec. unfold SFeqb.
  destruct (Prim2SF x) as [[]|[]| |s m e]; try reflexivity.
  rewrite SFcompare_refl_finite. reflexivity.
Qed.

Lemma is_infinity_spec (x : float) :
  is_infinity x = match Prim2SF x with S754_infinity _ => true | _ => false end.
Proof.
  unfold is_infinity. rewrite eqb_spec, abs_spec.
  change (Prim2SF infinity) with (S754_infinity false).
  destruct (Prim2SF x) as [[]|[]| |s m e]; reflexivity.
Qed.

Lemma eqb_zero_spec (x : float) :
  (x =? 0) = match Prim2SF x with S754_zero _ => true | _ => false end.
Proof.
  rewrite eqb_spec. change (Prim2SF 0) with (S754_zero false).
  destruct (Prim2SF x) as [[]|[]| |[] m e]; reflexivity.
Qed.

Lemma ltb_zero_spec (x : float) :
  (x <? 0) = match Prim2SF x with
             | S754_infinity s | S754_finite s _ _ => s
             | _ => false
             end.
Proof.
  rewrite ltb_spec. change (Prim2SF 0) with (S754_zero false).
  destruct (Prim2SF x) as [[]|[]| |[] m e]; reflexivity.
Qed.


(** *** Number of bits *)

Lemma digits2_pos_size (p : positive) : digits2_pos p = Pos.size p.
Proof. induction p as [p IH|p IH|]; simpl; rewrite ?IH; reflexivity. Qed.

Lemma digits2_pos_gt (p : positive) : (Z.pos p < 2 ^ Z.pos (digits2_pos p))%Z.
Proof.
  rewrite digits2_pos_size. pose proof (Pos.size_gt p) as H.
  rewrite <- Pos2Z.inj_pow. exact H.
Qed.

Lemma digits2_pos_le (p : positive) : (2 ^ Z.pos (digits2_pos p) <= 2 * Z.pos p)%Z.
Proof.
  rewrite digits2_pos_size. pose proof (Pos.size_le p) as H.
  rewrite <- Pos2Z.inj_pow. exact H.
Qed.

(** A positive number below [2 ^ k] has at most [k] bits. *)
Lemma digits2_pos_bound (p : positive) (k : Z) :
  (Z.pos p < 2 ^ k)%Z -> (Z.pos (digits2_pos p) <= k)%Z.
Proof.
  intros H. pose proof (digits2_pos_le p) as Hle.
  destruct (Z_lt_le_dec k (Z.pos (digits2_pos p))) as [Hlt|]; [|assumption].
  exfalso.
  assert (Hk : (0 <= k)%Z).
  { destruct (Z_lt_le_dec k 0) as [Hn|]; [|assumption].
    rewrite Z.pow_neg_r in H by assumption. lia. }
  assert (Hp : (2 ^ (k + 1) <= 2 ^ Z.pos (digits2_pos p))%Z)
    by (apply Z.pow_le_mono_r; lia).
  rewrite Z.pow_add_r in Hp by lia. lia.
Qed.

Lemma Zdigits2_bound (m k : Z) :
  (0 <= m < 2 ^ k)%Z -> (0 <= k)%Z -> (Zdigits2 m <= k)%Z.
Proof.
  intros [H0 H] Hk. destruct m as [|p|p]; simpl; [assumption| |lia].
  apply digits2_pos_bound. exact H.
Qed.

(** *** Shifting a mantissa to the right *)

Lemma shr_1_m (mrs : shr_record) :
  (0 <= shr_m mrs)%Z -> (0 <= shr_m (shr_1 mrs) <= shr_m mrs)%Z.
Proof.
  destruct mrs as [m r s]. simpl. intros H.
  destruct m as [|[p|p|]|p]; simpl; lia.
Qed.

Lemma iter_shr_1_m (n : positive) (mrs : shr_record) :
  (0 <= shr_m mrs)%Z -> (0 <= shr_m (iter_pos shr_1 n mrs) <= shr_m mrs)%Z.
Proof.
  revert mrs. induction n as [n IH|n IH|]; intros mrs H; cbn [iter_pos].
  - pose proof (shr_1_m mrs H) as H1.
    pose proof (IH _ (proj1 H1)) as H2.
    pose proof (IH _ (proj1 H2)) as H3. lia.
  - pose proof (IH _ H) as H2.
    pose proof (IH _ (proj1 H2)) as H3. lia.
  - apply shr_1_m. exact H.
Qed.

Lemma shr_record_of_loc_m (m : Z) (l : location) : shr_m (shr_record_of_loc m l) = m.
Proof. destruct l as [|[]]; reflexivity. Qed.

(** What [shr_fexp] returns: a mantissa between 0 and the one it is
    given, and the larger of the exponent it is given and the exponent
    the format asks for. *)
Lemma shr_fexp_bounds (m e : Z) (l : location) :
  (0 <= m)%Z ->
  (0 <= shr_m (fst (shr_fexp prec emax m e l)) <= m)%Z /\
  snd (shr_fexp prec emax m e l)
    = Z.max e (fexp prec emax (Zdigits2 m + e)).
Proof.
  intros H. unfold shr_fexp, shr.
  destruct (fexp prec emax (Zdigits2 m + e) - e)%Z as [|n|n] eqn:E; cbn [fst snd].
  - rewrite shr_record_of_loc_m. split; lia.
  - split; [|lia].
    pose proof (iter_shr_1_m n (shr_record_of_loc m l)) as Hi.
    rewrite shr_record_of_loc_m in Hi. apply Hi. exact H.
  - rewrite shr_record_of_loc_m. split; lia.
Qed.

Lemma round_nearest_even_bounds (m : Z) (l : location) :
  (0 <= m)%Z -> (0 <= round_nearest_even m l <= m + 1)%Z.
Proof.
  intros H. destruct l as [|[]]; simpl; try lia.
  destruct (Z.even m); lia.
Qed.

(** Rounding a number below [2 ^ 3] gives a zero or a finite float. *)
Lemma binary_round_aux_small (s : bool) (mx : positive) (ex : Z) :
  (Z.pos mx < 2 ^ 106)%Z -> (ex <= -104)%Z ->
  binary_round_aux prec emax s (Z.pos mx) ex loc_Exact = S754_zero s \/
  exists m e, binary_round_aux prec emax s (Z.pos mx) ex loc_Exact = S754_finite s m e.
Proof.
  intros Hm He. unfold binary_round_aux.
  pose proof (shr_fexp_bounds (Z.pos mx) ex loc_Exact ltac:(lia)) as [Hm1 He1].
  destruct (shr_fexp prec emax (Z.pos mx) ex loc_Exact) as [mrs' e'].
  cbn [fst snd] in Hm1, He1.
  pose proof (round_nearest_even_bounds (shr_m mrs') (loc_of_shr_record mrs')
                (proj1 Hm1)) as Hr.
  set (m1 := round_nearest_even (shr_m mrs') (loc_of_shr_record mrs')) in *.
  pose proof (shr_fexp_bounds m1 e' loc_Exact (proj1 Hr)) as [Hm2 He2].
  destruct (shr_fexp prec emax m1 e' loc_Exact) as [mrs'' e''].
  cbn [fst snd] in Hm2, He2.
  assert (Hd0 : (Zdigits2 (Z.pos mx) <= 106)%Z)
    by (apply Zdigits2_bound; lia).
  assert (Hd1 : (Zdigits2 m1 <= 107)%Z).
  { apply Zdigits2_bound; [|lia]. split; [lia|].
    assert (2 ^ 107 = 2 * 2 ^ 106)%Z by reflexivity. lia. }
  unfold fexp, emin in He1, He2.
  change (3 - emax - prec)%Z with (-1074)%Z in He1, He2.
  change prec with 53%Z in *. change emax with 1024%Z in *.
  assert (He'' : (e'' <= 1024 - 53)%Z) by lia.
  destruct (shr_m mrs'') as [|p|p]; [left; reflexivity | | lia].
  right. exists p, e''.
  replace (Z.leb e'' (1024 - 53)) with true by (symmetry; apply Z.leb_le; exact He'').
  reflexivity.
Qed.

(** The square of a float between -1 and 1, multiplied by [+0], is [+0]. *)
Lemma square_mul_zero (c : float) :
  (abs c <=? 1) = true -> c * c * 0 = 0.
Proof.
  intros H. apply Prim2SF_inj. rewrite !mul_spec.
  change (Prim2SF 0) with (S754_zero false).
  rewrite leb_spec, abs_spec in H.
  change (Prim2SF 1) with (S754_finite false 4503599627370496 (-52)) in H.
  pose proof (Prim2SF_valid c) as Hv.
  destruct (Prim2SF c) as [s|s| |s m e]; try discriminate.
  - destruct s; reflexivity.
  - unfold SF64mul. cbn [SFmul]. rewrite xorb_nilpotent.
    assert (He : (e <= -52)%Z).
    { unfold SFleb in H. cbn [SFabs SFcompare] in H.
      destruct (Z.compare e (-52)) eqn:Ec; try discriminate.
      - apply Z.compare_eq in Ec. lia.
      - change (e < -52)%Z in Ec. lia. }
    assert (Hd : (Z.pos (digits2_pos m) <= 53)%Z).
    { cbn [valid_binary] in Hv. unfold bounded, canonical_mantissa in Hv.
      apply andb_true_iff in Hv. destruct Hv as [Hc _].
      apply Z.eqb_eq in Hc. unfold fexp, emin in Hc.
      change (3 - emax - prec)%Z with (-1074)%Z in Hc.
      change prec with 53%Z in Hc. lia. }
    assert (Hm : (Z.pos m < 2 ^ 53)%Z).
    { pose proof (digits2_pos_gt m) as Hg.
      assert (2 ^ Z.pos (digits2_pos m) <= 2 ^ 53)%Z
        by (apply Z.pow_le_mono_r; lia).
      lia. }
    assert (Hmm : (Z.pos (m * m) < 2 ^ 106)%Z).
    { rewrite Pos2Z.inj_mul.
      change (2 ^ 106)%Z with (2 ^ 53 * 2 ^ 53)%Z.
      apply Z.mul_lt_mono_nonneg; lia. }
    destruct (binary_round_aux_small false (m * m) (e + e) Hmm ltac:(lia))
      as [E | [m' [e' E]]]; rewrite E; reflexivity.
Qed.

Lemma sub_diag (x : float) : is_finite x = true -> x - x = 0.
Proof.
  unfold is_finite. rewrite is_nan_spec, is_infinity_spec. intros H.
  apply Prim2SF_inj. rewrite sub_spec.
  change (Prim2SF 0) with (S754_zero false).
  destruct (Prim2SF x) as [[]|[]| |s m e]; try discriminate; try reflexivity.
  unfold SF64sub. cbn [SFsub]. cbv zeta. rewrite Z.sub_diag. reflexivity.
Qed.


(** ** Centroid and distance *)

Lemma centroid_loop_sums
    (coords : list (float * float)) (total_lat total_lon : float) (count : nat) :
  Geo.centroid_loop total_lat total_lon count coords =
  (fold_left PrimFloat.add (map fst coords) total_lat,
   fold_left PrimFloat.add (map snd coords) total_lon,
   (count + length coords)%nat).
Proof.
  revert total_lat total_lon count.
  induction coords as [|[lat lon] coords IH]; intros total_lat total_lon count.
  - simpl. rewrite Nat.add_0_r. reflexivity.
  - simpl. rewrite IH. f_equal. lia.
Qed.

(** C6.  [compute_centroid] fails with the empty-input error on an empty
    sequence.  On a one-point sequence it returns the point itself, a
    coordinate [-0.0] coming back as [0.0].  On every non-empty sequence
    it returns, for the latitudes and for the longitudes, their binary64
    sum accumulated from the left from [0.0], divided in binary64 by the
    number of points: the arithmetic mean up to rounding. *)
Theorem C6_centroid_empty_singleton_mean :
  Geo.compute_centroid [] = Raise Geo.EmptyInputError /\
  (forall lat lon : float,
      Geo.compute_centroid [(lat, lon)] = Ok (0 + lat, 0 + lon) /\
      (lat <> neg_zero -> lon <> neg_zero ->
       Geo.compute_centroid [(lat, lon)] = Ok (lat, lon))) /\
  Geo.compute_centroid [(neg_zero, neg_zero)] = Ok (0, 0) /\
  (forall coords : list (float * float),
      coords <> [] ->
      Geo.compute_centroid coords =
        Ok (Geo.sum (map fst coords) / Geo.float_of_count (length coords),
            Geo.sum (map snd coords) / Geo.float_of_count (length coords))).
Proof.
  assert (Hmean : forall coords : list (float * float),
    coords <> [] ->
    Geo.compute_centroid coords =
      Ok (Geo.sum (map fst coords) / Geo.float_of_count (length coords),
          Geo.sum (map snd coords) / Geo.float_of_count (length coords))).
  { intros coords Hne. unfold Geo.compute_centroid.
    rewrite centroid_loop_sums. simpl Nat.add.
    destruct coords as [|c coords]; [contradiction|]. reflexivity. }
  assert (Hone : forall lat lon : float,
    Geo.compute_centroid [(lat, lon)] = Ok (0 + lat, 0 + lon)).
  { intros lat lon. rewrite Hmean by discriminate.
    change (Geo.float_of_count (length [(lat, lon)])) with 1.
    rewrite !div_one. reflexivity. }
  split; [reflexivity|]. split; [|split; [reflexivity | exact Hmean]].
  intros lat lon. split; [apply Hone|].
  intros Hlat Hlon. rewrite Hone, !add_zero_l by assumption. reflexivity.
Qed.

(** [radians] and the halving commute with the opposite. *)
Lemma half_radians_opp (x : float) :
  Geo.radians (- x) / 2 = - (Geo.radians x / 2).
Proof. unfold Geo.radians. rewrite mul_opp_l, div_opp_l. reflexivity. Qed.

Lemma float_pow_opp (m : Geo.libm) (x : float) :
  Geo.float_pow m (- x) = Geo.float_pow m x.
Proof.
  unfold Geo.float_pow.
  rewrite !is_nan_spec, !is_infinity_spec, !eqb_zero_spec, !ltb_zero_spec.
  rewrite abs_opp, opp_involutive.
  assert (Hnan : Prim2SF x = S754_nan -> - x = x).
  { intros E. apply Prim2SF_inj. rewrite opp_spec, E. reflexivity. }
  rewrite opp_spec.
  destruct (Prim2SF x) as [[]|[]| |[] mx ex] eqn:E; cbn [SFopp negb];
    try reflexivity.
  rewrite Hnan; reflexivity.
Qed.

(** The squared sine of half the angle between two coordinates does not
    depend on their order, when the sine is odd. *)
Lemma half_angle_square (m : Geo.libm) (x y : float) :
  (forall z, Geo.math_sin m (- z) = option_map PrimFloat.opp (Geo.math_sin m z)) ->
  (s <- Geo.domain (Geo.math_sin m (Geo.radians (x - y) / 2)) ;;
   Geo.float_pow m s) =
  (s <- Geo.domain (Geo.math_sin m (Geo.radians (y - x) / 2)) ;;
   Geo.float_pow m s).
Proof.
  intros Hodd. destruct (sub_swap x y) as [E | E]; rewrite E; [|reflexivity].
  rewrite half_radians_opp, Hodd.
  destruct (Geo.math_sin m (Geo.radians (y - x) / 2)) as [s|]; [|reflexivity].
  simpl. apply float_pow_opp.
Qed.

Lemma bind_assoc {A B C : Type}
    (m : result A) (f : A -> result B) (g : B -> result C) :
  (x <- (y <- m ;; f y) ;; g x) = (y <- m ;; x <- f y ;; g x).
Proof. destruct m; reflexivity. Qed.

Lemma bind_ext {A B : Type} (m : result A) (k k' : A -> result B) :
  (forall x, k x = k' x) -> bind m k = bind m k'.
Proof. intros H. destruct m; simpl; [apply H | reflexivity]. Qed.

Lemma bind_two_steps {A B C : Type}
    (m m' : result A) (f f' : A -> result B) (k : B -> result C) :
  (x <- m ;; f x) = (x <- m' ;; f' x) ->
  (x <- m ;; y <- f x ;; k y) = (x <- m' ;; y <- f' x ;; k y).
Proof. intros H. rewrite <- !bind_assoc, H. reflexivity. Qed.

(** Two calls that can only fail with the same exception can be made in
    either order. *)
Lemma domain_swap {A : Type} (o1 o2 : option float) (k : float -> float -> result A) :
  (c1 <- Geo.domain o1 ;; c2 <- Geo.domain o2 ;; k c1 c2) =
  (c2 <- Geo.domain o2 ;; c1 <- Geo.domain o1 ;; k c1 c2).
Proof. destruct o1, o2; reflexivity. Qed.

(** C7.  The great-circle distance is symmetric in its two points,
    value or exception alike, on a platform whose sine is an odd
    function: the differences of the coordinates are opposite floats (or
    both [0.0]), [radians] and the halving keep that, the square forgets
    the sign, and the product of the cosines commutes. *)
Theorem C7_haversine_symmetric (m : Geo.libm) (lat1 lon1 lat2 lon2 : float) :
  (forall z, Geo.math_sin m (- z) = option_map PrimFloat.opp (Geo.math_sin m z)) ->
  Geo.haversine_distance_km m lat1 lon1 lat2 lon2 =
  Geo.haversine_distance_km m lat2 lon2 lat1 lon1.
Proof.
  intros Hodd. unfold Geo.haversine_distance_km. cbv zeta.
  etransitivity.
  { apply bind_two_steps. apply (half_angle_square m lat2 lat1 Hodd). }
  apply bind_ext; intros sin_phi. apply bind_ext; intros sin_phi_2.
  rewrite domain_swap.
  apply bind_ext; intros cos_phi2. apply bind_ext; intros cos_phi1.
  rewrite (mul_comm cos_phi1 cos_phi2).
  apply bind_two_steps. apply (half_angle_square m lon2 lon1 Hodd).
Qed.


(** X24.  The distance from a point with finite coordinates to itself
    is [0.0], on a platform where [sin(0.0)] and [atan2(0.0, 1.0)] are
    [0.0] and the cosine of the latitude lies between -1 and 1. *)
Example haversine_same_point (m : Geo.libm) (lat lon c : float) :
  is_finite lat = true -> is_finite lon = true ->
  Geo.math_sin m 0 = Some 0 ->
  Geo.math_cos m (Geo.radians lat) = Some c -> (abs c <=? 1) = true ->
  Geo.math_atan2 m 0 1 = Some 0 ->
  Geo.haversine_distance_km m lat lon lat lon = Ok 0.
Proof.
  intros Hlat Hlon Hsin Hcos Hc Hatan.
  unfold Geo.haversine_distance_km. cbv zeta.
  rewrite (sub_diag lat Hlat), (sub_diag lon Hlon).
  change (Geo.radians 0 / 2) with 0.
  rewrite Hsin, Hcos. cbn [Geo.domain bind].
  change (Geo.float_pow m 0) with (@Ok float 0). cbn [bind].
  rewrite (square_mul_zero c Hc).
  change (0 + 0) with 0.
  change (Geo.math_sqrt 0) with (@Ok float 0). cbn [bind].
  change (1 - 0) with 1.
  change (Geo.math_sqrt 1) with (@Ok float 1). cbn [bind].
  rewrite Hatan. reflexivity.
Qed.

(** ** When the distance is a [ValueError] *)

Lemma binary_round_aux_not_nan (s : bool) (m e : Z) (l : location) :
  (0 <= m)%Z -> binary_round_aux prec emax s m e l <> S754_nan.
Proof.
  intros Hm. unfold binary_round_aux.
  pose proof (shr_fexp_bounds m e l Hm) as [Hm1 _].
  destruct (shr_fexp prec emax m e l) as [mrs' e'].
  cbn [fst] in Hm1.
  pose proof (round_nearest_even_bounds (shr_m mrs') (loc_of_shr_record mrs')
                (proj1 Hm1)) as Hr.
  pose proof (shr_fexp_bounds _ e' loc_Exact (proj1 Hr)) as [Hm2 _].
  destruct (shr_fexp prec emax _ e' loc_Exact) as [mrs'' e''].
  cbn [fst] in Hm2.
  destruct (shr_m mrs'') as [|p|p]; [discriminate | | lia].
  destruct (Z.leb e'' (emax - prec)); discriminate.
Qed.

Lemma SFsqrt_finite_not_nan (mx : positive) (ex : Z) :
  SFsqrt prec emax (S754_finite false mx ex) <> S754_nan.
Proof.
  cbn [SFsqrt]. unfold SFsqrt_core_binary.
  set (m' := match (ex - 2 * _)%Z with
             | Z.pos _ => Z.shiftl (Z.pos mx) _
             | 0%Z => Z.pos mx
             | Z.neg _ => 0%Z
             end).
  assert (Hm' : (0 <= m')%Z).
  { unfold m'. destruct (ex - 2 * _)%Z; try lia.
    apply Z.shiftl_nonneg. lia. }
  pose proof (Z.sqrtrem_spec m' Hm') as Hs.
  destruct (Z.sqrtrem m') as [q r]. destruct Hs as [_ Hr].
  apply binary_round_aux_not_nan. lia.
Qed.

(** [math.sqrt] raises exactly on an argument below zero, and then a
    [ValueError]. *)
Lemma math_sqrt_raises (x : float) (e : exn) :
  Geo.math_sqrt x = Raise e <-> (e = ValueError /\ (x <? 0) = true).
Proof.
  unfold Geo.math_sqrt. cbv zeta.
  rewrite !is_nan_spec, ltb_zero_spec, sqrt_spec. unfold SF64sqrt.
  destruct (Prim2SF x) as [sx|sx| |sx mx ex].
  - cbn [SFsqrt andb]. split; [discriminate | intros [_ H]; discriminate H].
  - destruct sx; cbn [SFsqrt andb negb].
    + split; [intros H; injection H as <-; split; reflexivity
             | intros [-> _]; reflexivity].
    + split; [discriminate | intros [_ H]; discriminate H].
  - cbn [SFsqrt andb negb]. split; [discriminate | intros [_ H]; discriminate H].
  - destruct sx.
    + cbn [SFsqrt andb negb].
      split; [intros H; injection H as <-; split; reflexivity
             | intros [-> _]; reflexivity].
    + pose proof (SFsqrt_finite_not_nan mx ex) as Hn.
      destruct (SFsqrt prec emax (S754_finite false mx ex));
        try contradiction; cbn [andb];
        (split; [discriminate | intros [_ H]; discriminate H]).
Qed.

(** X27.  Once the sines and cosines are computed, the distance is a
    [ValueError] as soon as the value [a] of the formula is below zero or
    [1.0 - a] is, that is when rounding takes [a] out of the interval from
    0 to 1: the code does not clamp [a].  Otherwise the distance is
    [6371.0 * (2.0 * atan2(sqrt(a), sqrt(1.0 - a)))]. *)
Theorem X27_haversine_fails_when_a_leaves_unit_interval
    (m : Geo.libm) (lat1 lon1 lat2 lon2 : float)
    (sin_phi_2 cos_phi1 cos_phi2 sin_lambda_2 : float) :
  (s <- Geo.domain (Geo.math_sin m (Geo.radians (lat2 - lat1) / 2)) ;;
   Geo.float_pow m s) = Ok sin_phi_2 ->
  Geo.math_cos m (Geo.radians lat1) = Some cos_phi1 ->
  Geo.math_cos m (Geo.radians lat2) = Some cos_phi2 ->
  (s <- Geo.domain (Geo.math_sin m (Geo.radians (lon2 - lon1) / 2)) ;;
   Geo.float_pow m s) = Ok sin_lambda_2 ->
  let a := sin_phi_2 + cos_phi1 * cos_phi2 * sin_lambda_2 in
  ((a <? 0) = true \/ (1 - a <? 0) = true ->
   Geo.haversine_distance_km m lat1 lon1 lat2 lon2 = Raise ValueError) /\
  ((a <? 0) = false -> (1 - a <? 0) = false ->
   Geo.haversine_distance_km m lat1 lon1 lat2 lon2 =
     (angle <- Geo.domain
                 (Geo.math_atan2 m (PrimFloat.sqrt a) (PrimFloat.sqrt (1 - a))) ;;
      Ok (6371 * (2 * angle)))).
Proof.
  intros Hphi Hc1 Hc2 Hlambda a.
  assert (E : Geo.haversine_distance_km m lat1 lon1 lat2 lon2 =
              (sqrt_a <- Geo.math_sqrt a ;;
               sqrt_1_a <- Geo.math_sqrt (1 - a) ;;
               angle <- Geo.domain (Geo.math_atan2 m sqrt_a sqrt_1_a) ;;
               Ok (6371 * (2 * angle)))).
  { unfold Geo.haversine_distance_km. cbv zeta.
    rewrite <- bind_assoc, Hphi. cbn [bind].
    rewrite Hc1, Hc2. cbn [Geo.domain bind].
    rewrite <- bind_assoc, Hlambda. reflexivity. }
  rewrite E.
  assert (Hok : forall x, (x <? 0) = false ->
                          Geo.math_sqrt x = Ok (PrimFloat.sqrt x)).
  { intros x Hx. destruct (Geo.math_sqrt x) as [r|e] eqn:Es.
    - unfold Geo.math_sqrt in Es. cbv zeta in Es.
      destruct (is_nan (PrimFloat.sqrt x) && negb (is_nan x)); [discriminate|].
      symmetry. exact Es.
    - apply math_sqrt_raises in Es. destruct Es as [_ Es]. congruence. }
  split.
  - intros [Ha | Ha].
    + rewrite (proj2 (math_sqrt_raises a ValueError) (conj eq_refl Ha)).
      reflexivity.
    + destruct (a <? 0) eqn:Ea.
      * rewrite (proj2 (math_sqrt_raises a ValueError) (conj eq_refl Ea)).
        reflexivity.
      * rewrite (Hok a Ea). cbn [bind].
        rewrite (proj2 (math_sqrt_raises (1 - a) ValueError) (conj eq_refl Ha)).
        reflexivity.
  - intros Ha H1a. rewrite (Hok a Ha), (Hok (1 - a) H1a). reflexivity.
Qed.

End GeoProperties.

(* ===================================================================== *)
(** * Concrete runs *)
(* ===================================================================== *)

(** ** Field coalescing *)

(** The rich listing has a status type at both levels; the top-level one,
    being truthy, is the one stored. *)
Lemma C1_witness :
  exists rec,
    listing_of_raw Fixture.rt Fixture.rich_raw = Ok rec /\
    candidates FstatusType <> [] /\
    record_field rec FstatusType = JStr "FOR_RENT" /\
    record_field rec FstatusType =
      stored Fixture.rt FstatusType
        (path_get Fixture.rich_raw ["statusType"]).
Proof.
  eexists. split; [vm_compute; reflexivity|].
  split; [discriminate|].
  split.
  - exact (proj1 (C1_first_truthy_candidate_wins Fixture.rt
                    Fixture.rich_raw _ FstatusType eq_refl
                    ltac:(discriminate))).
  - apply (proj2 (C1_first_truthy_candidate_wins Fixture.rt
                    Fixture.rich_raw _ FstatusType eq_refl
                    ltac:(discriminate)) [] ["statusType"]
                 [home_info_path "homeStatus"]).
    + reflexivity.
    + intros q [].
    + reflexivity.
Defined.

(** An empty status text is not null, yet the record takes the status
    type: the first non-null candidate does not win. *)
Lemma C1_counterexample :
  exists rec,
    listing_of_raw Fixture.rt Fixture.empty_status_raw = Ok rec /\
    first_non_null (candidate_values Fixture.empty_status_raw FstatusText)
      = JStr EmptyString /\
    record_field rec FstatusText = JStr "FOR_RENT" /\
    record_field rec FstatusText <>
      first_non_null (candidate_values Fixture.empty_status_raw FstatusText).
Proof.
  eexists. split; [vm_compute; reflexivity|].
  split; [reflexivity|]. split; [reflexivity|].
  vm_compute. discriminate.
Qed.

(** ** Photo URLs *)

Lemma C2_witness :
  exists rec,
    listing_of_raw Fixture.rt Fixture.rich_raw = Ok rec /\
    record_field rec FphotoUrls =
      JList [JStr "https://img/1.jpg"; JStr "https://img/2.jpg";
             JStr "https://img/3.jpg"] /\
    exists urls : list string,
      record_field rec FphotoUrls = JList (map JStr urls) /\
      NoDup urls /\
      first_seen_order (photo_sources Fixture.rich_raw) urls /\
      (forall u, path_get Fixture.rich_raw ["imgSrc"] = JStr u ->
                 hd_error urls = Some u).
Proof.
  eexists. split; [vm_compute; reflexivity|].
  split; [reflexivity|].
  apply (C2_photo_urls_unique_in_first_seen_order Fixture.rt
           Fixture.rich_raw).
  reflexivity.
Defined.

(** ** Composite address *)

Lemma C3_witness :
  exists rec,
    listing_of_raw Fixture.rt Fixture.rich_raw = Ok rec /\
    record_field rec Faddress = JStr "1 Main St, Austin, TX" /\
    exists parts : list string,
      filter truthy
        [ record_field rec FaddressStreet; record_field rec FaddressCity;
          record_field rec FaddressState; record_field rec FaddressZipcode ]
        = map JStr parts /\
      record_field rec Faddress =
        match parts with
        | [] => JNull
        | _ :: _ => JStr (join ", " parts)
        end.
Proof.
  eexists. split; [vm_compute; reflexivity|].
  split; [reflexivity|].
  apply (proj1 (C3_address_joins_truthy_components Fixture.rt
                  Fixture.rich_raw _ eq_refl)).
Defined.

(** The street is the empty string, which is not null: the join of the
    non-null components would start with a separator, the record does
    not. *)
Lemma C3_counterexample :
  exists rec,
    listing_of_raw Fixture.rt Fixture.empty_street_raw = Ok rec /\
    record_field rec FaddressStreet = JStr EmptyString /\
    record_field rec FaddressCity = JStr "Austin" /\
    record_field rec FaddressState = JNull /\
    record_field rec FaddressZipcode = JNull /\
    record_field rec Faddress = JStr "Austin" /\
    joined_non_null
      [ record_field rec FaddressStreet; record_field rec FaddressCity;
        record_field rec FaddressState; record_field rec FaddressZipcode ]
      = JStr ", Austin" /\
    record_field rec Faddress <>
      joined_non_null
        [ record_field rec FaddressStreet; record_field rec FaddressCity;
          record_field rec FaddressState; record_field rec FaddressZipcode ].
Proof.
  eexists. split; [vm_compute; reflexivity|].
  repeat (split; [reflexivity|]).
  vm_compute. discriminate.
Qed.

(** ** Optional fields *)

Lemma C5_witness :
  exists rec,
    listing_of_raw Fixture.rt Fixture.rich_raw = Ok rec /\
    (forall p, In p (sources FbadgeText) ->
               path_get Fixture.rich_raw p = JNull) /\
    record_field rec FbadgeText = JNull.
Proof.
  assert (Habs : forall p, In p (sources FbadgeText) ->
                           path_get Fixture.rich_raw p = JNull).
  { intros p [<-|[<-|[]]]; reflexivity. }
  eexists. split; [vm_compute; reflexivity|].
  split; [exact Habs|].
  exact (C5_absent_sources_give_default Fixture.rt
           Fixture.rich_raw _ FbadgeText eq_refl Habs).
Defined.

(** A raw object with no key has no source for the identifier, and the
    record holds the empty string for it, not null. *)
Lemma C5_counterexample :
  exists rec,
    listing_of_raw Fixture.rt Fixture.empty_raw = Ok rec /\
    (forall p, In p (sources Fzpid) -> path_get Fixture.empty_raw p = JNull) /\
    record_field rec Fzpid = JStr EmptyString /\
    record_field rec Fzpid <> JNull.
Proof.
  eexists. split; [vm_compute; reflexivity|].
  split; [intros p [<-|[<-|[]]]; reflexivity|].
  split; [reflexivity|]. vm_compute. discriminate.
Qed.

(** ** Degraded extraction *)

Lemma C4_witness :
  _extract_json_state Fixture.rt "page:list-props" =
    Ok (JDict [("props", JDict [("pageProps", JList [])])]) /\
  parse_search_results Fixture.rt "page:list-props" = Raise AttributeError.
Proof.
  split; [reflexivity|].
  apply (C4_wrong_type_escapes_as_exception Fixture.rt "page:list-props").
  reflexivity.
Defined.

(** ** Geo utilities *)

Lemma C6_witness :
  Geo.compute_centroid [(30, -98); (31, -97)]%float = Ok (30.5, -97.5)%float /\
  Geo.compute_centroid [(30, -98); (31, -97)]%float =
    Ok (Geo.sum [30; 31] / 2, Geo.sum [-98; -97] / 2)%float.
Proof.
  split; [reflexivity|].
  apply (proj2 (proj2 (proj2 C6_centroid_empty_singleton_mean))
           [(30, -98); (31, -97)]%float).
  discriminate.
Defined.

(** Three points at [0.1] (the float [0x1.999999999999ap-4]): their mean
    is that float, and the centroid is the next float up,
    [0.10000000000000002]. *)
Lemma C6_counterexample :
  Geo.compute_centroid
    [ (0x1.999999999999ap-4, 0x1.999999999999ap-4);
      (0x1.999999999999ap-4, 0x1.999999999999ap-4);
      (0x1.999999999999ap-4, 0x1.999999999999ap-4) ]%float
    = Ok (0x1.999999999999bp-4, 0x1.999999999999bp-4)%float /\
  is_exact_mean
    [0x1.999999999999ap-4; 0x1.999999999999ap-4; 0x1.999999999999ap-4]%float
    0x1.999999999999ap-4%float = true /\
  is_exact_mean
    [0x1.999999999999ap-4; 0x1.999999999999ap-4; 0x1.999999999999ap-4]%float
    0x1.999999999999bp-4%float = false.
Proof. repeat split; vm_compute; reflexivity. Qed.

Lemma C7_witness :
  Geo.haversine_distance_km sample_libm 30 (-97) 40 (-74)%float =
  Geo.haversine_distance_km sample_libm 40 (-74) 30 (-97)%float.
Proof.
  apply (C7_haversine_symmetric sample_libm 30 (-97) 40 (-74)%float).
  intros z. reflexivity.
Defined.

Lemma X24_witness :
  Geo.haversine_distance_km sample_libm 30 (-97) 30 (-97)%float = Ok 0%float.
Proof.
  apply (haversine_same_point sample_libm 30 (-97) 1%float); reflexivity.
Defined.

(** The subtraction under the second square root is negative as soon as
    rounding takes [a] above 1, and [math.sqrt] then raises. *)
Example math_sqrt_above_one :
  Geo.math_sqrt (1 - 0x1.0000000000001p+0)%float = Raise ValueError.
Proof. reflexivity. Qed.

(** ** Exports *)

Lemma C8_witness :
  str_lower Fixture.rt "JSON" = "json" /\
  "JSON" <> "csv" /\
  exists md results,
    run_export Fixture.rt ["Austin, TX"] ["for_rent"] "JSON" Fixture.one_record =
      Ok (JsonDump (JDict [("metadata", JDict md); ("results", JList results)])) /\
    dict_get md "recordCount" = JInt (Z.of_nat (length results)).
Proof.
  split; [reflexivity|]. split; [discriminate|].
  apply (proj2 (C8_json_metadata_record_count Fixture.rt
                  ["Austin, TX"] ["for_rent"] "JSON" Fixture.one_record None
                  eq_refl)).
  discriminate.
Defined.

(** Exporting one record with no metadata gives a [metadata] member that
    has no [recordCount] at all, and exporting it with a metadata that
    says five gives five. *)
Lemma C8_counterexample :
  (exists md results,
      export_records Fixture.rt Fixture.one_record "json" None =
        Ok (JsonDump (JDict [("metadata", JDict md); ("results", JList results)])) /\
      length results = 1 /\
      dict_get md "recordCount" = JNull /\
      dict_get md "recordCount" <> JInt (Z.of_nat (length results))) /\
  (exists md results,
      export_records Fixture.rt Fixture.one_record "json"
        (Some [("recordCount", JInt 5)]) =
        Ok (JsonDump (JDict [("metadata", JDict md); ("results", JList results)])) /\
      length results = 1 /\
      dict_get md "recordCount" = JInt 5 /\
      dict_get md "recordCount" <> JInt (Z.of_nat (length results))).
Proof.
  split; eexists; eexists; (split; [vm_compute; reflexivity|]);
    (split; [reflexivity|]); (split; [reflexivity|]);
    vm_compute; discriminate.
Qed.

Lemma C9_witness :
  csv_example <> [] /\
  Forall dict_wf csv_example /\
  _collect_fieldnames csv_example = ["a"; "b"] /\
  export_to_csv Fixture.rt csv_example =
    Ok (csv_line ["a"; "b"] ++ csv_line ["1"; "x|y"])%string.
Proof.
  assert (W : Forall dict_wf csv_example).
  { repeat constructor; simpl; intuition discriminate. }
  split; [discriminate|]. split; [exact W|]. split; [reflexivity|].
  exact (proj1 (proj2 (C9_csv_header_and_rows Fixture.rt csv_example
                  ltac:(discriminate) W))).
Defined.

(** With no record the file is empty: the code writes no header line. *)
Example export_to_csv_no_record :
  export_to_csv Fixture.rt [] = Ok EmptyString.
Proof. reflexivity. Qed.

(** ** Home-type filter *)

Lemma C10_witness :
  exists html records kept,
    fetch_search_page Fixture.rt
      (build_search_url Fixture.rt "Austin, TX" "for_rent" 1 "en-US")
      "en-US" = Ok html /\
    parse_search_results Fixture.rt html = Ok records /\
    length records = 2 /\
    fetch_city_listings Fixture.rt "Austin, TX" "for_rent" (Some ["APART"]) 1 "en-US" = Ok kept /\
    kept = filter (matches_home_type Fixture.rt ["APART"])
                  records /\
    map (fun r => dict_get r "zpid") kept = [JStr "11"].
Proof.
  eexists. eexists. eexists.
  split; [vm_compute; reflexivity|].
  split; [vm_compute; reflexivity|].
  split; [reflexivity|].
  split.
  - apply (proj1 (C10_home_type_filter Fixture.rt
                    "Austin, TX" "for_rent" (Some ["APART"]) 1 "en-US"
                    _ _ eq_refl eq_refl)).
  - split; [reflexivity|]. vm_compute. reflexivity.
Defined.

(** ** Further runs of the model *)

Example build_search_url_first_page :
  build_search_url Fixture.rt "Austin, TX" "for_rent" 1 "en-US"
  = "https://www.zillow.com/homes/for_rent/austin-tx_rb/".
Proof. reflexivity. Qed.

Example build_search_url_unknown_type_page_3 :
  build_search_url Fixture.rt "New York, NY" "Auction" 3 "en-US"
  = "https://www.zillow.com/homes/for_rent/new-york-ny_rb/3_p/".
Proof. reflexivity. Qed.

(** The scan stops where the first object closes, whatever follows. *)
Example balance_scan_nested :
  balance_scan "{a{b}c}d}" 0 0 = 7.
Proof. reflexivity. Qed.

(** A top-level image source and two lists that share a URL. *)
Example extract_photos_overlap :
  _extract_photos
    (JDict [ ("imgSrc", JStr "u1");
             ("photoUrls", JList [JStr "u2"; JStr "u3"; JInt 7]);
             ("hdpData", JDict [("homeInfo",
                JDict [("photoUrls", JList [JStr "u3"; JStr "u1"; JStr "u4"])])]) ])
  = Ok ["u1"; "u2"; "u3"; "u4"].
Proof. reflexivity. Qed.

(** A field that holds the delimiter is quoted, and a lone empty field is
    written as two quotes. *)
Example csv_line_quoting :
  csv_line ["a,b"; "c"] =
    (String dquote "a,b" ++ String dquote ",c" ++ crlf)%string /\
  csv_line [EmptyString] = String dquote (String dquote crlf).
Proof. split; reflexivity. Qed.

(** A non-string address component makes [_format_address] raise. *)
Example format_address_numeric_zip :
  _format_address (JDict [("addressCity", JStr "Austin"); ("addressZipcode", JInt 78701)])
  = Raise TypeError.
Proof. reflexivity. Qed.

(** ** Runs for the further properties *)

Lemma X3_witness :
  exists records,
    parse_search_results Fixture.rt "page:two-listings" = Ok records /\
    length records = 2 /\
    forall rec, In rec records ->
      dict_keys rec = listing_fields /\
      dict_wf rec /\
      is_str (dict_get rec "zpid") = true /\
      is_list (dict_get rec "photoUrls") = true /\
      is_bool (dict_get rec "isFeaturedListing") = true.
Proof.
  eexists. split; [vm_compute; reflexivity|]. split; [reflexivity|].
  apply (X3_record_has_the_fixed_fields Fixture.rt "page:two-listings").
  reflexivity.
Defined.

Lemma X7_witness :
  fetch_city_listings Fixture.rt "Austin, TX" "for_rent"
    (Some ["TOWNHOUSE"; "Apart"; "townhouse"]) 1 "en-US" =
  fetch_city_listings Fixture.rt "Austin, TX" "for_rent"
    (Some ["apart"; "TownHouse"]) 1 "en-US".
Proof.
  apply (X7_home_types_compared_as_lowercase_set Fixture.rt).
  - discriminate.
  - discriminate.
  - intros x. simpl. tauto.
Defined.

Lemma X8_witness :
  exists records,
    parse_search_results Fixture.rt "page:two-listings" = Ok records /\
    length records = 2 /\
    fetch_city_listings Fixture.rt "Austin, TX" "for_rent"
      (Some ["condo"; EmptyString]) 1 "en-US" = Ok records.
Proof.
  eexists. split; [vm_compute; reflexivity|]. split; [reflexivity|].
  apply (X8_empty_home_type_keeps_every_record Fixture.rt
           "Austin, TX" "for_rent" ["condo"; EmptyString] 1 "en-US"
           "page:two-listings").
  - simpl. tauto.
  - reflexivity.
  - reflexivity.
Defined.

Lemma X9_witness :
  run_queries ["Austin, TX"] ["for_rent"] 2 =
    [("Austin, TX", "for_rent", 1%Z); ("Austin, TX", "for_rent", 2%Z)] /\
  fetch_city_listings Fixture.rt "Austin, TX" "for_rent" None 2 "en-US"
    = Raise ZillowClientError /\
  city_loop Fixture.rt [] ["Austin, TX"] ["for_rent"] None 2 "en-US" =
    Ok (flat_map (query_contribution Fixture.rt None "en-US")
          (run_queries ["Austin, TX"] ["for_rent"] 2)).
Proof.
  split; [reflexivity|]. split; [reflexivity|].
  apply (X9_fetch_loop_collects_every_query Fixture.rt
           ["Austin, TX"] ["for_rent"] None 2 "en-US").
  intros q e [<- | [<- | []]] [E N].
  - vm_compute in E. discriminate E.
  - vm_compute in E. injection E as <-. apply N. reflexivity.
Defined.

Lemma X10_witness :
  city_loop list_props_rt [] ["Austin, TX"] ["for_rent"] None 1 "en-US"
    = Raise AttributeError /\
  exists q, In q (run_queries ["Austin, TX"] ["for_rent"] 1) /\
    fetch_city_listings list_props_rt (fst (fst q)) (snd (fst q)) None (snd q) "en-US"
      = Raise AttributeError.
Proof.
  split; [reflexivity|].
  apply (X10_fetch_loop_aborts_on_parser_errors list_props_rt
           ["Austin, TX"] ["for_rent"] None 1 "en-US" [] AttributeError).
  reflexivity.
Defined.

Lemma X11_witness :
  run_queries ["Austin, TX"] ["for_rent"] 0 = [] /\
  city_loop Fixture.rt Fixture.one_record ["Austin, TX"] ["for_rent"] None 0 "en-US"
    = Ok Fixture.one_record.
Proof.
  apply (X11_fetch_loop_without_queries Fixture.rt).
  right. right. lia.
Defined.

Lemma X13_witness :
  exists records,
    parse_search_results Fixture.rt "page:two-listings" = Ok records /\
    _collect_fieldnames records = listing_fields /\
    exists body,
      export_to_csv Fixture.rt records
        = Ok (csv_line listing_fields ++ body)%string.
Proof.
  eexists. split; [vm_compute; reflexivity|].
  apply (X13_csv_of_parsed_records_has_fixed_header Fixture.rt
           "page:two-listings").
  - reflexivity.
  - discriminate.
Defined.

Lemma X15_witness :
  exists md,
    export_records Fixture.rt Fixture.one_record "JSON"
      (Some [("generatedAt", JStr "then"); ("recordCount", JInt 1)]) =
      Ok (JsonDump (JDict [ ("metadata", JDict md);
                            ("results", JList (map JDict Fixture.one_record)) ])) /\
    dict_lookup md "generatedAt" = Some (JStr "then") /\
    dict_lookup md "recordCount" = Some (JInt 1).
Proof.
  destruct (X15_json_export_keeps_metadata Fixture.rt Fixture.one_record "JSON"
              [("generatedAt", JStr "then"); ("recordCount", JInt 1)] eq_refl)
    as [md [E [Hkeep _]]].
  exists md. split; [exact E|].
  split; apply Hkeep; reflexivity.
Defined.

Lemma X21_witness :
  _format_address
    (JDict [("addressCity", JStr "Austin"); ("addressZipcode", JInt 78701)])
    = Raise TypeError /\
  exists info,
    _format_address
      (JDict [("addressCity", JStr "Austin"); ("addressZipcode", JStr "78701")])
      = Ok info.
Proof.
  split.
  - apply (proj2 (X21_address_fails_iff_truthy_component_not_string
                    [("addressCity", JStr "Austin"); ("addressZipcode", JInt 78701)]
                    eq_refl)).
    reflexivity.
  - apply (proj1 (X21_address_fails_iff_truthy_component_not_string
                    [("addressCity", JStr "Austin"); ("addressZipcode", JStr "78701")]
                    eq_refl)).
    reflexivity.
Defined.


Lemma X25_witness :
  _extract_json_state Fixture.rt "page:no-props"
    = Ok (JDict [("query", JStr "austin")]) /\
  parse_search_results Fixture.rt "page:no-props" = Ok [].
Proof.
  split; [reflexivity|].
  apply (proj1 (proj2 (X25_state_without_result_path_gives_no_record Fixture.rt
                  "page:no-props" _ eq_refl))
               [("query", JStr "austin")]);
    reflexivity.
Defined.

Lemma X27_witness :
  Geo.haversine_distance_km sample_libm 8 0 (-8) 180%float = Raise ValueError.
Proof.
  apply (proj1 (X27_haversine_fails_when_a_leaves_unit_interval
                  sample_libm 8 0 (-8) 180%float _ _ _ _
                  eq_refl eq_refl eq_refl eq_refl)).
  right. reflexivity.
Defined.

(** A script whose text holds an integer longer than the digit limit:
    [json.loads] raises a [ValueError] that nothing catches. *)
Example parse_search_results_long_integer :
  parse_search_results Fixture.rt "page:long-integer" = Raise ValueError.
Proof. reflexivity. Qed.
